(** * Pinspire (eurus-0/cosmo): saves, collections and storage back ends

    A shallow embedding of the Flask application's relationship model
    ([routes.py], [models.py]) and of its storage clients
    ([filesystem_storage.py], [cloudinary_storage.py],
    [supabase_client.py]), with the properties of the specification
    stated and proved over it.

    Conventions of the embedding:
    - a Python [str] is a [string]; file names are taken to be ASCII, so
      [str.lower] only moves [A-Z];
    - a Python call either returns or raises: [result];
    - code with effects runs in the monad [Py], which threads the
      committed database and the trace of logger and external calls;
    - answers of the outside world (the Cloudinary SDK, the Supabase
      client, [requests], [uuid4], the password hash) are arguments of
      the function that asks for them. *)

From Stdlib Require Import String Ascii List Bool Arith Lia DecimalString.
Import ListNotations.
Open Scope string_scope.

(** ** Python values *)

Inductive exn : Type :=
| IndexError
| KeyError (key : string)
| HTTPException (code : nat)
| Exception (msg : string).

(** [str(e)] *)
Definition exn_str (e : exn) : string :=
  match e with
  | IndexError => "list index out of range"
  | KeyError key => "'" ++ key ++ "'"
  | HTTPException code => NilEmpty.string_of_uint (Nat.to_uint code)
  | Exception msg => msg
  end.

Inductive result (A : Type) : Type :=
| Return (a : A)
| Raise (e : exn).
Arguments Return {A} a.
Arguments Raise {A} e.

Definition bytes := list Byte.byte.

(** [len(x)] printed inside an f-string. *)
Definition str_of_nat (n : nat) : string := NilEmpty.string_of_uint (Nat.to_uint n).

Module PyStr.

(** [c.lower()] for one ASCII character. *)
Definition lower_char (c : ascii) : ascii :=
  let n := nat_of_ascii c in
  if ((65 <=? n) && (n <=? 90))%nat then ascii_of_nat (n + 32) else c.

(** [s.lower()] *)
Fixpoint lower (s : string) : string :=
  match s with
  | EmptyString => EmptyString
  | String c s' => String (lower_char c) (lower s')
  end.

(** [c in s] for a one-character [c]. *)
Fixpoint contains (c : ascii) (s : string) : bool :=
  match s with
  | EmptyString => false
  | String d s' => Ascii.eqb d c || contains c s'
  end.

(** The cut at the last occurrence of [sep], when there is one. *)
Fixpoint cut_last (sep : ascii) (s : string) : option (string * string) :=
  match s with
  | EmptyString => None
  | String c s' =>
      match cut_last sep s' with
      | Some (a, b) => Some (String c a, b)
      | None => if Ascii.eqb c sep then Some (EmptyString, s') else None
      end
  end.

(** [s.rsplit(sep, 1)]: at most one split, from the right. *)
Definition rsplit1 (sep : ascii) (s : string) : list string :=
  match cut_last sep s with
  | Some (a, b) => [a; b]
  | None => [s]
  end.

(** [l[i]]: raises [IndexError] out of range. *)
Definition index {A} (l : list A) (i : nat) : result A :=
  match nth_error l i with
  | Some x => Return x
  | None => Raise IndexError
  end.

(** [x in xs] for strings. *)
Definition mem (x : string) (xs : list string) : bool :=
  existsb (String.eqb x) xs.

(** Truthiness of a string: [if s:]. *)
Definition truthy (s : string) : bool :=
  match s with EmptyString => false | _ => true end.

(** Truthiness of an optional string ([None] or [str]). *)
Definition truthy_opt (s : option string) : bool :=
  match s with Some s => truthy s | None => false end.

(** [s.startswith(p)] *)
Fixpoint startswith (p s : string) : bool :=
  match p, s with
  | EmptyString, _ => true
  | String _ _, EmptyString => false
  | String a p', String b s' => Ascii.eqb a b && startswith p' s'
  end.

(** [s.endswith(c)] for a one-character [c]. *)
Fixpoint endswith (c : ascii) (s : string) : bool :=
  match s with
  | EmptyString => false
  | String d EmptyString => Ascii.eqb d c
  | String _ s' => endswith c s'
  end.

(** [s[1:]] *)
Definition tail (s : string) : string :=
  match s with
  | EmptyString => EmptyString
  | String _ s' => s'
  end.

(** [s.split(sep)] for a one-character [sep]: every cut, never empty. *)
Fixpoint split (sep : ascii) (s : string) : list string :=
  match s with
  | EmptyString => [EmptyString]
  | String c s' =>
      if Ascii.eqb c sep then EmptyString :: split sep s'
      else match split sep s' with
           | piece :: pieces => String c piece :: pieces
           | [] => [String c EmptyString]
           end
  end.

(** [sep.join(pieces)] *)
Fixpoint join (sep : ascii) (pieces : list string) : string :=
  match pieces with
  | [] => EmptyString
  | [piece] => piece
  | piece :: pieces' => piece ++ String sep (join sep pieces')
  end.

(** [xs.index(x)], where [x in xs] has been checked. *)
Fixpoint list_index (x : string) (xs : list string) : nat :=
  match xs with
  | [] => 0
  | y :: xs' => if String.eqb y x then 0 else S (list_index x xs')
  end.

End PyStr.
Import PyStr.

(** ** The database ([models.py])

    A table is the list of its rows in insertion order.  The timestamp
    columns ([created_at], [saved_at]) and the columns no route writes
    ([bio], [profile_image_url], [thumbnail_url]) take no part in any
    decision of the routes and are left out. *)

Module User.
Record t : Type := mk
  { id : nat; username : string; email : string; password_hash : string }.
End User.

Module Post.
Record t : Type := mk
  { id : nat; title : string; description : string;
    file_url : string; file_type : string; user_id : nat }.
End Post.

Module Collection.
Record t : Type := mk
  { id : nat; name : string; description : string; user_id : nat }.
End Collection.

Module Save.
Record t : Type := mk
  { id : nat; post_id : nat; collection_id : nat }.
End Save.

Record DB : Type := mkDB
  { users : list User.t;
    posts : list Post.t;
    collections : list Collection.t;
    saves : list Save.t }.

Definition empty_db : DB := mkDB [] [] [] [].

(** ** Effects *)

Inductive level : Type := INFO | WARNING | ERROR.

Inductive Event : Type :=
| Log (l : level) (msg : string)
| Flash (msg : string)
| CloudinaryUpload (file_data : bytes) (folder : string)
    (public_id : option string) (resource_type : string)
| SupabaseUpload (url key bucket path : string) (file : bytes) (content_type : string)
| SupabaseGetPublicUrl (url key bucket path : string)
| RequestsPost (url apikey authorization content_type : string) (data : bytes)
| FileWrite (path : string) (data : bytes).

Record World : Type := mkWorld { db : DB; trace : list Event }.

Definition Py (A : Type) : Type := World -> result A * World.

Definition ret {A} (a : A) : Py A := fun w => (Return a, w).

Definition bind {A B} (m : Py A) (k : A -> Py B) : Py B :=
  fun w => match m w with
           | (Return a, w') => k a w'
           | (Raise e, w') => (Raise e, w')
           end.

Declare Scope py_scope.
Delimit Scope py_scope with py.
Notation "x <- m ;; k" := (bind m (fun x => k))
  (at level 61, m at next level, right associativity) : py_scope.
Notation "m ;;; k" := (bind m (fun _ => k))
  (at level 61, right associativity) : py_scope.
Open Scope py_scope.

(** [raise e] *)
Definition raise {A} (e : exn) : Py A := fun w => (Raise e, w).

(** A pure Python call inside effectful code. *)
Definition lift {A} (r : result A) : Py A := fun w => (r, w).

(** [try: body / except Exception as e: handler(e)] *)
Definition try_except {A} (body : Py A) (handler : exn -> Py A) : Py A :=
  fun w => match body w with
           | (Raise e, w') => handler e w'
           | r => r
           end.

Definition emit (ev : Event) : Py unit :=
  fun w => (Return tt, mkWorld (db w) (trace w ++ [ev])).

(** A call to the outside world: recorded, then answered. *)
Definition external {A} (ev : Event) (answer : result A) : Py A :=
  fun w => (answer, mkWorld (db w) (trace w ++ [ev])).

Definition logger (l : level) (msg : string) : Py unit := emit (Log l msg).
Definition flash (msg : string) : Py unit := emit (Flash msg).

Definition query {A} (f : DB -> A) : Py A := fun w => (Return (f (db w)), w).
Definition update (f : DB -> DB) : Py unit :=
  fun w => (Return tt, mkWorld (f (db w)) (trace w)).

(** ** Dictionaries returned by client libraries *)

Definition dict := list (string * string).

(** [d.get(k)] *)
Fixpoint dict_get (d : dict) (k : string) : option string :=
  match d with
  | [] => None
  | (k', v) :: d' => if String.eqb k' k then Some v else dict_get d' k
  end.

(** [d[k]] *)
Definition dict_getitem (d : dict) (k : string) : result string :=
  match dict_get d k with
  | Some v => Return v
  | None => Raise (KeyError k)
  end.

(** [x == 'lit'] for an optional string. *)
Definition opt_eqb (x : option string) (lit : string) : bool :=
  match x with Some s => String.eqb s lit | None => false end.

(** [{x}] inside an f-string, for a value that may be [None]. *)
Definition fmt (x : option string) : string :=
  match x with Some s => s | None => "None" end.

(** ** File-name checks shared by the storage back ends

    [filesystem_storage.py] and [cloudinary_storage.py] carry the same
    [ALLOWED_EXTENSIONS] set and the same two functions. *)

Definition ALLOWED_EXTENSIONS : list string :=
  ["jpg"; "jpeg"; "png"; "gif"; "mp4"; "mov"; "webm"].

Definition dot : ascii := "."%char.

(** ** [os.path] on POSIX

    [os.path.join(a, *p)] as [posixpath] computes it: a component that
    starts with a slash replaces what came before, and a slash is put
    between two components unless the left one is empty or ends with
    one. *)

Module PosixPath.

Definition sep : ascii := "/"%char.

Definition join2 (path b : string) : string :=
  if startswith "/" b then b
  else if negb (truthy path) || endswith sep path then path ++ b
  else path ++ String sep b.

Definition join (components : list string) : string :=
  match components with
  | [] => EmptyString
  | a :: p => fold_left join2 p a
  end.

End PosixPath.

(** ** [filesystem_storage.py] *)

Module FilesystemStorage.

(** [allowed_file(filename)] *)
Definition allowed_file (filename : string) : result bool :=
  if contains dot filename then
    match index (rsplit1 dot filename) 1 with
    | Return ext => Return (mem (lower ext) ALLOWED_EXTENSIONS)
    | Raise e => Raise e
    end
  else Return false.

(** [get_file_type(filename)] *)
Definition get_file_type (filename : string) : result (option string) :=
  match index (rsplit1 dot filename) 1 with
  | Return ext =>
      let extension := lower ext in
      if mem extension ["jpg"; "jpeg"; "png"; "gif"] then Return (Some "image")
      else if mem extension ["mp4"; "mov"; "webm"] then Return (Some "video")
      else Return None
  | Raise e => Raise e
  end.

Section SaveFile.

(** [werkzeug.utils.secure_filename], [os.path.join] and the module
    constant [UPLOAD_FOLDER] (which depends on [os.getcwd()]). *)
Variable secure_filename : string -> string.
Variable os_path_join : list string -> string.
Variable UPLOAD_FOLDER : string.

Definition save_file (file_data : bytes) (original_filename : string)
    (custom_filename : option string) (write_answer : result unit)
  : Py (option string * option string) :=
  try_except
    (ok <- lift (allowed_file original_filename) ;;
     if negb ok then
       logger ERROR ("File type not allowed: " ++ original_filename) ;;;
       ret (None, None)
     else
       file_type <- lift (get_file_type original_filename) ;;
       match file_type with
       | None =>
           logger ERROR ("Unknown file type: " ++ original_filename) ;;;
           ret (None, None)
       | Some file_type =>
           if negb (truthy file_type) then
             logger ERROR ("Unknown file type: " ++ original_filename) ;;;
             ret (None, None)
           else
             let secure_name :=
               secure_filename
                 (if truthy_opt custom_filename then fmt custom_filename
                  else original_filename) in
             let subfolder :=
               if String.eqb file_type "image" then "images" else "videos" in
             let file_path := os_path_join [UPLOAD_FOLDER; subfolder; secure_name] in
             external (FileWrite file_path file_data) write_answer ;;;
             let url_path := "/static/uploads/" ++ subfolder ++ "/" ++ secure_name in
             logger INFO ("File saved successfully: " ++ file_path) ;;;
             ret (Some url_path, Some file_type)
       end)
    (fun e =>
       logger ERROR ("Error saving file: " ++ exn_str e) ;;;
       ret (None, None)).

End SaveFile.

Section DeleteFile.

(** [os.path.join], [os.getcwd()], and what [os.path.exists] and
    [os.remove] answer for a path. *)
Variable os_path_join : list string -> string.
Variable os_getcwd : string.
Variable os_path_exists : string -> bool.
Variable os_remove : string -> result unit.

Definition delete_file (file_url : string) : Py bool :=
  try_except
    (let file_url := if startswith "/" file_url then tail file_url else file_url in
     let file_path := os_path_join [os_getcwd; file_url] in
     if os_path_exists file_path then
       lift (os_remove file_path) ;;;
       logger INFO ("File deleted successfully: " ++ file_path) ;;;
       ret true
     else
       logger WARNING ("File does not exist: " ++ file_path) ;;;
       ret false)
    (fun e =>
       logger ERROR ("Error deleting file: " ++ exn_str e) ;;;
       ret false).

End DeleteFile.

End FilesystemStorage.

(** ** [cloudinary_storage.py] *)

Module CloudinaryStorage.

Record Env : Type := mkEnv
  { CLOUDINARY_CLOUD_NAME : option string;
    CLOUDINARY_API_KEY : option string;
    CLOUDINARY_API_SECRET : option string }.

Record t : Type := mk { is_configured : bool }.

(** [__init__]: the two log lines written while the module is
    imported are outside every request and are not recorded. *)
Definition init (env : Env) : t :=
  if truthy_opt (CLOUDINARY_CLOUD_NAME env)
     && truthy_opt (CLOUDINARY_API_KEY env)
     && truthy_opt (CLOUDINARY_API_SECRET env)
  then mk true else mk false.

(** [CloudinaryStorage.is_allowed_file(self, filename)] *)
Definition is_allowed_file (filename : string) : result bool :=
  if contains dot filename then
    match index (rsplit1 dot filename) 1 with
    | Return ext => Return (mem (lower ext) ALLOWED_EXTENSIONS)
    | Raise e => Raise e
    end
  else Return false.

(** [CloudinaryStorage.get_file_type(self, filename)] *)
Definition get_file_type (filename : string) : result (option string) :=
  match index (rsplit1 dot filename) 1 with
  | Return ext =>
      let extension := lower ext in
      if mem extension ["jpg"; "jpeg"; "png"; "gif"] then Return (Some "image")
      else if mem extension ["mp4"; "mov"; "webm"] then Return (Some "video")
      else Return None
  | Raise e => Raise e
  end.

(** [upload_file]; [answer] is what [cloudinary.uploader.upload] does. *)
Definition upload_file (self : t) (file_data : bytes) (folder : string)
    (public_id : option string) (resource_type : string)
    (answer : result dict)
  : Py (option string * option string) :=
  if negb (is_configured self) then
    logger ERROR "Cloudinary not configured, cannot upload file" ;;;
    ret (None, None)
  else
    try_except
      (let options_public_id :=
         if truthy_opt public_id then public_id else None in
       logger INFO ("Uploading file to Cloudinary, resource_type=" ++ resource_type) ;;;
       response <- external
         (CloudinaryUpload file_data folder options_public_id resource_type) answer ;;
       file_url <- lift (dict_getitem response "secure_url") ;;
       let file_type :=
         if opt_eqb (dict_get response "resource_type") "image"
         then "image" else "video" in
       logger INFO ("File uploaded successfully to Cloudinary: " ++ file_url) ;;;
       ret (Some file_url, Some file_type))
      (fun e =>
         logger ERROR ("Error uploading file to Cloudinary: " ++ exn_str e) ;;;
         ret (None, None)).

(** Lines 108-118 of [delete_file]: the public id inside a delivery
    URL, [.../upload/<version>/<folder>/<name>.<ext>]. *)
Definition public_id_of (public_id : string) : result string :=
  if startswith "http" public_id then
    let parts := split "/" public_id in
    if mem "upload" parts then
      let upload_index := list_index "upload" parts in
      let public_id := join "/" (skipn (upload_index + 2) parts) in
      if contains dot public_id then index (rsplit1 dot public_id) 0
      else Return public_id
    else Return public_id
  else Return public_id.

Section DeleteFile.

(** [cloudinary.uploader.destroy(public_id, resource_type=...)] and the
    [repr] of its response inside an f-string. *)
Variable destroy : string -> string -> result dict.
Variable repr : dict -> string.

Definition delete_file (self : t) (public_id : string) (resource_type : string)
  : Py bool :=
  if negb (is_configured self) then
    logger ERROR "Cloudinary not configured, cannot delete file" ;;;
    ret false
  else
    try_except
      (public_id <- lift (public_id_of public_id) ;;
       response <- lift (destroy public_id resource_type) ;;
       if opt_eqb (dict_get response "result") "ok" then
         logger INFO ("File deleted successfully from Cloudinary: " ++ public_id) ;;;
         ret true
       else
         logger ERROR ("Failed to delete file from Cloudinary: " ++ repr response) ;;;
         ret false)
      (fun e =>
         logger ERROR ("Error deleting file from Cloudinary: " ++ exn_str e) ;;;
         ret false).

End DeleteFile.

End CloudinaryStorage.

(** ** [supabase_client.py] *)

Module SupabaseClient.

Record Env : Type := mkEnv
  { SUPABASE_URL : option string; SUPABASE_KEY : option string }.

(** The object [create_client(url, key)] returns. *)
Record Client : Type := mkClient { client_url : string; client_key : string }.

Record t : Type := mk { supabase : option Client }.

(** [__init__] *)
Definition init (env : Env) : t :=
  if negb (truthy_opt (SUPABASE_URL env)) || negb (truthy_opt (SUPABASE_KEY env))
  then mk None
  else mk (Some (mkClient (fmt (SUPABASE_URL env)) (fmt (SUPABASE_KEY env)))).

(** What the outside world does during one [upload_file]: the two
    calls of the Python client and the [requests.post] of the
    fallback ([status_code], [text]). *)
Record Answers : Type := mkAnswers
  { client_upload : result unit;
    client_get_public_url : result string;
    requests_post : result (nat * string) }.

Definition bucket_name : string := "avatars".

Definition upload_file (env : Env) (self : t) (file_data : bytes)
    (file_path : string) (content_type : string) (ans : Answers)
  : Py (option string) :=
  match supabase self with
  | None =>
      logger ERROR "Supabase client not initialized" ;;;
      ret None
  | Some client =>
      try_except
        (logger INFO ("Attempting to upload file: " ++ file_path ++ ", size: "
                      ++ str_of_nat (length file_data) ++ " bytes") ;;;
         try_except
           (external (SupabaseUpload (client_url client) (client_key client)
                        bucket_name file_path file_data content_type)
                     (client_upload ans) ;;;
            file_url <- external
              (SupabaseGetPublicUrl (client_url client) (client_key client)
                 bucket_name file_path)
              (client_get_public_url ans) ;;
            logger INFO ("File uploaded successfully with Python client: " ++ file_url) ;;;
            ret (Some file_url))
           (fun inner_e =>
              logger WARNING ("Python client upload failed: " ++ exn_str inner_e
                              ++ ", trying direct API...") ;;;
              let url := fmt (SUPABASE_URL env) ++ "/storage/v1/object/"
                         ++ bucket_name ++ "/" ++ file_path in
              response <- external
                (RequestsPost url (fmt (SUPABASE_KEY env))
                   ("Bearer " ++ fmt (SUPABASE_KEY env)) content_type file_data)
                (requests_post ans) ;;
              if Nat.eqb (fst response) 200 then
                let file_url := fmt (SUPABASE_URL env) ++ "/storage/v1/object/public/"
                                ++ bucket_name ++ "/" ++ file_path in
                logger INFO ("File uploaded successfully with direct API: " ++ file_path) ;;;
                ret (Some file_url)
              else
                logger ERROR ("Upload failed with status " ++ str_of_nat (fst response)
                              ++ ": " ++ snd response) ;;;
                ret None))
        (fun e =>
           logger ERROR ("Error uploading file to Supabase: " ++ exn_str e) ;;;
           ret None)
  end.

Section DeleteFile.

(** [storage.from_(bucket).remove(paths)] of the Python client and
    [requests.delete(url, headers=...)] with its [apikey] and
    [Authorization] headers ([status_code], [text]). *)
Variable client_remove : string -> list string -> result unit.
Variable requests_delete : string -> string -> string -> result (nat * string).

Definition delete_file (env : Env) (self : t) (file_path : string) : Py bool :=
  match supabase self with
  | None =>
      logger ERROR "Supabase client not initialized" ;;;
      ret false
  | Some client =>
      try_except
        (try_except
           (lift (client_remove bucket_name [file_path]) ;;;
            logger INFO ("File deleted successfully with Python client: " ++ file_path) ;;;
            ret true)
           (fun inner_e =>
              logger WARNING ("Python client delete failed: " ++ exn_str inner_e
                              ++ ", trying direct API...") ;;;
              let url := fmt (SUPABASE_URL env) ++ "/storage/v1/object/"
                         ++ bucket_name ++ "/" ++ file_path in
              response <- lift (requests_delete url (fmt (SUPABASE_KEY env))
                                  ("Bearer " ++ fmt (SUPABASE_KEY env))) ;;
              if Nat.eqb (fst response) 200 then
                logger INFO ("File deleted successfully with direct API: " ++ file_path) ;;;
                ret true
              else
                logger ERROR ("Delete failed with status " ++ str_of_nat (fst response)
                              ++ ": " ++ snd response) ;;;
                ret false))
        (fun e =>
           logger ERROR ("Error deleting file from Supabase: " ++ exn_str e) ;;;
           ret false)
  end.

End DeleteFile.

End SupabaseClient.

(** ** [routes.py] *)

Module Routes.

Local Open Scope nat_scope.

Inductive Response : Type :=
| Json (body : dict) (status : nat)
| Redirect (target : string)
| RenderTemplate (template : string) (uploads_disabled : option bool)
| ErrorPage (status : nat).

Inductive method : Type := GET | POST.

(** *** Queries and writes of the ORM *)

(** The primary key the database gives a new row: one more than the
    largest in the table. *)
Definition next_id (ids : list nat) : nat := S (fold_right Nat.max 0 ids).

(** [Model.query.get(id)] *)
Definition User_get (d : DB) (id : nat) : option User.t :=
  find (fun u => User.id u =? id) (users d).
Definition Post_get (d : DB) (id : nat) : option Post.t :=
  find (fun p => Post.id p =? id) (posts d).
Definition Collection_get (d : DB) (id : nat) : option Collection.t :=
  find (fun c => Collection.id c =? id) (collections d).

(** [Model.query.get_or_404(id)]: [abort(404)] raises. *)
Definition get_or_404 {A} (get : DB -> nat -> option A) (id : nat) : Py A :=
  row <- query (fun d => get d id) ;;
  match row with
  | Some r => ret r
  | None => raise (HTTPException 404)
  end.

(** [db.session.add(row); db.session.commit()], one definition per
    table; the row comes back with its primary key. *)
Definition add_user (username email password_hash : string) : Py User.t :=
  fun w =>
    let d := db w in
    let row := User.mk (next_id (map User.id (users d))) username email password_hash in
    (Return row,
     mkWorld (mkDB (users d ++ [row]) (posts d) (collections d) (saves d)) (trace w)).

Definition add_post (title description file_url file_type : string) (user_id : nat)
  : Py Post.t :=
  fun w =>
    let d := db w in
    let row := Post.mk (next_id (map Post.id (posts d)))
                 title description file_url file_type user_id in
    (Return row,
     mkWorld (mkDB (users d) (posts d ++ [row]) (collections d) (saves d)) (trace w)).

Definition add_collection (name description : string) (user_id : nat)
  : Py Collection.t :=
  fun w =>
    let d := db w in
    let row := Collection.mk (next_id (map Collection.id (collections d)))
                 name description user_id in
    (Return row,
     mkWorld (mkDB (users d) (posts d) (collections d ++ [row]) (saves d)) (trace w)).

Definition add_save (post_id collection_id : nat) : Py Save.t :=
  fun w =>
    let d := db w in
    let row := Save.mk (next_id (map Save.id (saves d))) post_id collection_id in
    (Return row,
     mkWorld (mkDB (users d) (posts d) (collections d) (saves d ++ [row])) (trace w)).

(** [db.session.delete(save)]: the row with that primary key goes. *)
Definition delete_save (save : Save.t) : Py unit :=
  update (fun d =>
    mkDB (users d) (posts d) (collections d)
         (filter (fun s => negb (Save.id s =? Save.id save)) (saves d))).

(** [for x in xs: body(x)] *)
Fixpoint for_each {A} (xs : list A) (body : A -> Py unit) : Py unit :=
  match xs with
  | [] => ret tt
  | x :: xs' => body x ;;; for_each xs' body
  end.

(** [Save.query.join(Collection)]: a save with the collection its
    foreign key names. *)
Definition Save_join_Collection (d : DB) : list (Save.t * Collection.t) :=
  flat_map
    (fun s => map (fun c => (s, c))
                (filter (fun c => Collection.id c =? Save.collection_id s)
                        (collections d)))
    (saves d).

(** *** Flask-Login *)

(** The user id in the session cookie, when there is one. *)
Definition Session := option nat.

(** [current_user], loaded by [load_user] in [app.py]. *)
Definition current_user (session : Session) : Py (option User.t) :=
  query (fun d => match session with
                  | Some id => User_get d id
                  | None => None
                  end).

(** [@login_required], with [login_manager.login_view = 'login']. *)
Definition login_required (session : Session) (view : User.t -> Py Response)
  : Py Response :=
  user <- current_user session ;;
  match user with
  | Some u => view u
  | None =>
      flash "Please log in to access this page." ;;;
      ret (Redirect "login")
  end.

(** Truthiness of the JSON field [collection_id]: [None] and [0] are
    false. *)
Definition truthy_id (collection_id : option nat) : bool :=
  match collection_id with
  | Some (S _) => true
  | _ => false
  end.

Definition id_value (collection_id : option nat) : nat :=
  match collection_id with Some n => n | None => 0 end.

(** *** [url_for('index')]

    The endpoint [index] is registered only inside [init_routes]
    (lines 25-29), which nothing calls: [url_for('index')] raises
    werkzeug's [BuildError]. *)
Definition url_for_index : result string :=
  Raise (Exception "Could not build url for endpoint 'index'.").

(** [redirect(url_for('index'))] *)
Definition redirect_index : result Response :=
  match url_for_index with
  | Return target => Return (Redirect target)
  | Raise e => Raise e
  end.

(** *** [register] *)

Definition register (session : Session) (m : method)
    (form_username form_email form_password : option string)
    (generated_hash : string) : Py Response :=
  user <- current_user session ;;
  match user with
  | Some _ => lift redirect_index
  | None =>
      match m with
      | GET => ret (RenderTemplate "register.html" None)
      | POST =>
          if negb (truthy_opt form_username) || negb (truthy_opt form_email)
             || negb (truthy_opt form_password)
          then
            flash "All fields are required." ;;;
            ret (RenderTemplate "register.html" None)
          else
            let username := fmt form_username in
            let email := fmt form_email in
            let password := fmt form_password in
            if String.length password <? 8 then
              flash "Password must be at least 8 characters long." ;;;
              ret (RenderTemplate "register.html" None)
            else
              by_name <- query (fun d =>
                find (fun u => String.eqb (User.username u) username) (users d)) ;;
              match by_name with
              | Some _ =>
                  flash "Username already taken." ;;;
                  ret (RenderTemplate "register.html" None)
              | None =>
                  by_email <- query (fun d =>
                    find (fun u => String.eqb (User.email u) email) (users d)) ;;
                  match by_email with
                  | Some _ =>
                      flash "Email already registered." ;;;
                      ret (RenderTemplate "register.html" None)
                  | None =>
                      user <- add_user username email generated_hash ;;
                      add_collection "Saved" "Your saved pins" (User.id user) ;;;
                      flash "Registration successful! Please log in." ;;;
                      ret (Redirect "login")
                  end
              end
      end
  end.

(** *** [save_post] *)

Definition save_post (session : Session) (post_id : nat)
    (json_collection_id : option nat) : Py Response :=
  login_required session (fun current_user =>
    get_or_404 Post_get post_id ;;;
    collection_id <-
      (if negb (truthy_id json_collection_id) then
         found <- query (fun d =>
           find (fun c => (Collection.user_id c =? User.id current_user)
                          && String.eqb (Collection.name c) "Saved")
                (collections d)) ;;
         default_collection <-
           match found with
           | Some c => ret c
           | None => add_collection "Saved" "Your saved pins" (User.id current_user)
           end ;;
         ret (Collection.id default_collection)
       else ret (id_value json_collection_id)) ;;
    collection <- get_or_404 Collection_get collection_id ;;
    if negb (Collection.user_id collection =? User.id current_user) then
      ret (Json [("error", "Unauthorized")] 403)
    else
      existing_save <- query (fun d =>
        find (fun s => (Save.post_id s =? post_id)
                       && (Save.collection_id s =? collection_id))
             (saves d)) ;;
      match existing_save with
      | Some _ => ret (Json [("error", "Post already saved to this collection")] 400)
      | None =>
          add_save post_id collection_id ;;;
          ret (Json [("success", "true")] 200)
      end).

(** *** [unsave_post] *)

(** Lines 298-307: what follows once [saves] is computed. *)
Definition unsave_found (found : list Save.t) : Py Response :=
  match found with
  | [] => ret (Json [("error", "Post not saved to specified collection")] 404)
  | _ =>
      for_each found delete_save ;;;
      ret (Json [("success", "true")] 200)
  end.

Definition unsave_post (session : Session) (post_id : nat)
    (json_collection_id : option nat) : Py Response :=
  login_required session (fun current_user =>
    if negb (truthy_id json_collection_id) then
      found <- query (fun d =>
        map fst
          (filter (fun sc => (Save.post_id (fst sc) =? post_id)
                             && (Collection.user_id (snd sc) =? User.id current_user))
                  (Save_join_Collection d))) ;;
      unsave_found found
    else
      let collection_id := id_value json_collection_id in
      collection <- get_or_404 Collection_get collection_id ;;
      if negb (Collection.user_id collection =? User.id current_user) then
        ret (Json [("error", "Unauthorized")] 403)
      else
        found <- query (fun d =>
          filter (fun s => (Save.post_id s =? post_id)
                           && (Save.collection_id s =? collection_id))
                 (saves d)) ;;
        unsave_found found).

(** *** [upload] *)

(** [UPLOADS_ENABLED = cloudinary_storage.is_configured], read once
    when the module is imported. *)
Definition UPLOADS_ENABLED (cloudinary_storage : CloudinaryStorage.t) : bool :=
  CloudinaryStorage.is_configured cloudinary_storage.

(** [request.files.get('file')]: the file name and the bytes
    [file.read()] gives. *)
Definition FileStorage : Type := (string * bytes)%type.

Definition upload (cloudinary_storage : CloudinaryStorage.t)
    (session : Session) (m : method)
    (form_title form_description : option string)
    (files_file : option FileStorage)
    (uuid4 : string) (answer : result dict) : Py Response :=
  login_required session (fun current_user =>
    if negb (UPLOADS_ENABLED cloudinary_storage) then
      flash "File uploads are temporarily disabled. Please check back later." ;;;
      ret (RenderTemplate "upload.html" (Some true))
    else
      match m with
      | GET => ret (RenderTemplate "upload.html" (Some false))
      | POST =>
          let title := match form_title with Some s => s | None => "" end in
          let description := match form_description with Some s => s | None => "" end in
          match files_file with
          | None =>
              flash "No file part" ;;;
              ret (Redirect "upload")
          | Some (filename, content) =>
              if String.eqb filename "" then
                flash "No selected file" ;;;
                ret (Redirect "upload")
              else
                allowed <-
                  (if truthy filename
                   then lift (CloudinaryStorage.is_allowed_file filename)
                   else ret false) ;;
                if allowed then
                  try_except
                    (let unique_id := uuid4 in
                     let file_data := content in
                     logger INFO ("Uploading file to Cloudinary: " ++ filename
                                  ++ ", size: " ++ str_of_nat (length file_data)
                                  ++ " bytes") ;;;
                     uploaded <- CloudinaryStorage.upload_file cloudinary_storage
                                   file_data "pinspire" (Some unique_id) "auto" answer ;;
                     let file_url := fst uploaded in
                     let file_type := snd uploaded in
                     if truthy_opt file_url then
                       add_post title description (fmt file_url) (fmt file_type)
                                (User.id current_user) ;;;
                       logger INFO ("Post created successfully with file: "
                                    ++ fmt file_url) ;;;
                       flash "Post uploaded successfully!" ;;;
                       ret (Redirect ("profile/" ++ User.username current_user))
                     else
                       logger ERROR "File upload to Cloudinary failed" ;;;
                       flash "Failed to upload file. Storage service is currently unavailable." ;;;
                       ret (Redirect "upload"))
                    (fun e =>
                       logger ERROR ("Error during file upload: " ++ exn_str e) ;;;
                       flash "An error occurred during file upload. Please try again." ;;;
                       ret (Redirect "upload"))
                else
                  flash "File type not allowed" ;;;
                  ret (Redirect "upload")
          end
      end).

(** *** Requests *)

(** Flask answers an [abort(code)] with the error page of that status
    and anything else that escapes a view with a 500. *)
Definition dispatch (view : Py Response) (w : World) : Response * World :=
  match view w with
  | (Return r, w') => (r, w')
  | (Raise (HTTPException code), w') => (ErrorPage code, w')
  | (Raise _, w') => (ErrorPage 500, w')
  end.

Inductive Request : Type :=
| ReqRegister (session : Session) (m : method)
    (username email password : option string) (generated_hash : string)
| ReqUpload (session : Session) (m : method)
    (title description : option string) (file : option FileStorage)
    (uuid4 : string) (answer : result dict)
| ReqSave (session : Session) (post_id : nat) (collection_id : option nat)
| ReqUnsave (session : Session) (post_id : nat) (collection_id : option nat).

Definition view_of (cloudinary_storage : CloudinaryStorage.t) (r : Request)
  : Py Response :=
  match r with
  | ReqRegister session m username email password generated_hash =>
      register session m username email password generated_hash
  | ReqUpload session m title description file uuid4 answer =>
      upload cloudinary_storage session m title description file uuid4 answer
  | ReqSave session post_id collection_id =>
      save_post session post_id collection_id
  | ReqUnsave session post_id collection_id =>
      unsave_post session post_id collection_id
  end.

Definition handle (cloudinary_storage : CloudinaryStorage.t) (r : Request)
    (w : World) : Response * World :=
  dispatch (view_of cloudinary_storage r) w.

(** The world after a sequence of requests, served one at a time. *)
Fixpoint run (cloudinary_storage : CloudinaryStorage.t) (reqs : list Request)
    (w : World) : World :=
  match reqs with
  | [] => w
  | r :: reqs' => run cloudinary_storage reqs' (snd (handle cloudinary_storage r w))
  end.

Definition initial : World := mkWorld empty_db [].

(** [save_count] of [get_post]: [Save.query.filter_by(post_id=...).count()] *)
Definition save_count (d : DB) (post_id : nat) : nat :=
  length (filter (fun s => Save.post_id s =? post_id) (saves d)).

(** *** [login] *)

Section Login.

(** [werkzeug.security.check_password_hash(pwhash, password)]. *)
Variable check_password_hash : string -> option string -> result bool.

(** How the view ends (a response, or the exception Flask answers
    with a 500) and the session cookie after it: [login_user] stores
    the user's id before the redirect is built. *)
Definition login (session : Session) (m : method)
    (form_email form_password : option string) (args_next : option string)
  : Py (result Response * Session) :=
  user <- current_user session ;;
  match user with
  | Some _ => ret (redirect_index, session)
  | None =>
      match m with
      | GET => ret (Return (RenderTemplate "login.html" None), session)
      | POST =>
          user <- query (fun d =>
            match form_email with
            | Some email => find (fun u => String.eqb (User.email u) email) (users d)
            | None => None
            end) ;;
          match user with
          | Some user =>
              match check_password_hash (User.password_hash user) form_password with
              | Return true =>
                  ret (if truthy_opt args_next
                       then Return (Redirect (fmt args_next))
                       else redirect_index,
                       Some (User.id user))
              | Return false =>
                  flash "Invalid email or password" ;;;
                  ret (Return (RenderTemplate "login.html" None), session)
              | Raise e => ret (Raise e, session)
              end
          | None =>
              flash "Invalid email or password" ;;;
              ret (Return (RenderTemplate "login.html" None), session)
          end
      end
  end.

End Login.

(** *** [get_post] *)

(** The dictionary [get_post] hands to [jsonify], for the columns of
    the model. *)
Record PostData : Type := mkPostData
  { pd_id : nat;
    pd_title : string;
    pd_description : string;
    pd_file_url : string;
    pd_file_type : string;
    pd_author_id : nat;
    pd_author_username : string;
    pd_save_count : nat;
    pd_saved : bool }.

Definition get_post (session : Session) (post_id : nat) : Py PostData :=
  post <- get_or_404 Post_get post_id ;;
  author <- query (fun d => User_get d (Post.user_id post)) ;;
  count <- query (fun d => save_count d post_id) ;;
  user <- current_user session ;;
  saved <-
    match user with
    | Some u =>
        query (fun d =>
          let ids := map Collection.id
                       (filter (fun c => Collection.user_id c =? User.id u)
                               (collections d)) in
          match find (fun s => (Save.post_id s =? post_id)
                               && existsb (Nat.eqb (Save.collection_id s)) ids)
                     (saves d) with
          | Some _ => true
          | None => false
          end)
    | None => ret false
    end ;;
  match author with
  | Some a =>
      ret (mkPostData (Post.id post) (Post.title post) (Post.description post)
             (Post.file_url post) (Post.file_type post)
             (User.id a) (User.username a) count saved)
  | None => raise (Exception "'NoneType' object has no attribute 'id'")
  end.

End Routes.

(** * Vocabulary of the properties *)

Import Routes.

Section Vocabulary.

Local Open Scope nat_scope.

(** ** File names *)

(** The specification's wording of [isAllowedFile]: the name has an
    extension (the text after its last dot) whose lower-case form is in
    the allow-set. *)
Definition has_allowed_extension (filename : string) : Prop :=
  exists stem ext,
    filename = stem ++ String dot ext /\
    contains dot ext = false /\
    In (lower ext) ["jpg"; "jpeg"; "png"; "gif"; "mp4"; "mov"; "webm"].

(** ** Traces *)

(** The raw HTTP requests and the client-library uploads in a trace. *)
Definition is_requests_post (ev : Event) : bool :=
  match ev with RequestsPost _ _ _ _ _ => true | _ => false end.

Definition is_client_upload (ev : Event) : bool :=
  match ev with
  | CloudinaryUpload _ _ _ _ | SupabaseUpload _ _ _ _ _ _ => true
  | _ => false
  end.

Definition count_events (p : Event -> bool) (evs : list Event) : nat :=
  length (filter p evs).

(** The Python client of Supabase fails when [upload] raises, or when
    [get_public_url] raises after it. *)
Definition client_fails (ans : SupabaseClient.Answers) : bool :=
  match SupabaseClient.client_upload ans with
  | Raise _ => true
  | Return _ =>
      match SupabaseClient.client_get_public_url ans with
      | Raise _ => true
      | Return _ => false
      end
  end.

(** What [upload_file] of the Supabase client returns once the Python
    client has failed. *)
Definition fallback_result (url file_path : string) (ans : SupabaseClient.Answers)
  : option string :=
  match SupabaseClient.requests_post ans with
  | Return (status_code, _) =>
      if Nat.eqb status_code 200
      then Some (url ++ "/storage/v1/object/public/avatars/" ++ file_path)
      else None
  | Raise _ => None
  end.

(** ** Tables *)

(** The (post, collection) pair of a save. *)
Definition save_key (s : Save.t) : nat * nat :=
  (Save.post_id s, Save.collection_id s).

(** The collections named "Saved" a user owns: the filter of
    [save_post], lines 234-237. *)
Definition is_saved_of (user_id : nat) (c : Collection.t) : bool :=
  (Collection.user_id c =? user_id) && String.eqb (Collection.name c) "Saved".

Definition count_saved (d : DB) (user_id : nat) : nat :=
  length (filter (is_saved_of user_id) (collections d)).

Definition count_user (d : DB) (user_id : nat) : nat :=
  length (filter (fun u => User.id u =? user_id) (users d)).

(** A save of [post_id] in a collection that [user_id] owns: the
    join and filter of [unsave_post], lines 283-286. *)
Definition owned_by (d : DB) (user_id : nat) (s : Save.t) : bool :=
  existsb (fun c => (Collection.id c =? Save.collection_id s)
                    && (Collection.user_id c =? user_id))
          (collections d).

Definition saved_by (d : DB) (user_id post_id : nat) (s : Save.t) : bool :=
  (Save.post_id s =? post_id) && owned_by d user_id s.

(** A save of [post_id] in the collection [collection_id]. *)
Definition saved_in (post_id collection_id : nat) (s : Save.t) : bool :=
  (Save.post_id s =? post_id) && (Save.collection_id s =? collection_id).

(** The saves a loop of [db.session.delete] leaves. *)
Definition without (found : list Save.t) (l : list Save.t) : list Save.t :=
  filter (fun s => negb (existsb (fun f => Save.id s =? Save.id f) found)) l.

(** The saves [unsave_post] looks up when no collection is given. *)
Definition found_everywhere (d : DB) (user_id post_id : nat) : list Save.t :=
  map fst
    (filter (fun sc => (Save.post_id (fst sc) =? post_id)
                       && (Collection.user_id (snd sc) =? user_id))
            (Save_join_Collection d)).

(** The invariant of the tables: unique (post, collection) pairs,
    unique primary keys, and one "Saved" collection per user. *)
Record consistent (d : DB) : Prop := mkConsistent
  { save_keys_unique : NoDup (map save_key (saves d));
    save_ids_unique : NoDup (map Save.id (saves d));
    collection_ids_unique : NoDup (map Collection.id (collections d));
    user_ids_unique : NoDup (map User.id (users d));
    one_saved_each : forall user_id, count_saved d user_id = count_user d user_id }.

(** ** Requests and answers *)

(** The collection a [save_post] call saves into (lines 232-249),
    when it does not have to be created first: the one named in the
    request, or else the caller's first "Saved" collection. *)
Definition target_collection (d : DB) (user_id : nat)
    (json_collection_id : option nat) : option nat :=
  if negb (truthy_id json_collection_id)
  then option_map Collection.id (find (is_saved_of user_id) (collections d))
  else Some (id_value json_collection_id).

Definition already_saved : Response :=
  Json [("error", "Post already saved to this collection")] 400.

Definition success : Response := Json [("success", "true")] 200.

Definition not_saved : Response :=
  Json [("error", "Post not saved to specified collection")] 404.

(** ** Scenarios *)

(** The scenario of the specification: alice registers, uploads
    [cat.jpg] and saves post 1 twice. *)
Definition alice_saves_cat : list Request :=
  [ReqRegister None POST (Some "alice") (Some "alice@x.com") (Some "password123") "hash";
   ReqUpload (Some 1) POST (Some "cat") None (Some ("cat.jpg", [])) "uuid"
     (Return [("secure_url", "https://res.cloudinary.com/cat.jpg");
              ("resource_type", "image")]);
   ReqSave (Some 1) 1 None].

(** Two users and one post: alice (1) owns collection 1 and post 1,
    bob (2) owns collection 2. *)
Definition alice_and_bob : list Request :=
  [ReqRegister None POST (Some "alice") (Some "alice@x.com") (Some "password123") "hash";
   ReqRegister None POST (Some "bob") (Some "bob@x.com") (Some "hunter2hunter2") "hash";
   ReqUpload (Some 1) POST (Some "cat") None (Some ("cat.jpg", [])) "uuid"
     (Return [("secure_url", "https://res.cloudinary.com/cat.jpg");
              ("resource_type", "image")])].

(** Alice (1) owns the collections 1 and 2 and has saved post 1 into
    both; bob (2) has saved it into his collection 3. *)
Definition saved_in_two_collections : World :=
  mkWorld
    (mkDB [User.mk 1 "alice" "alice@x.com" "hash"; User.mk 2 "bob" "bob@x.com" "hash"]
          [Post.mk 1 "cat" "" "https://res.cloudinary.com/cat.jpg" "image" 1]
          [Collection.mk 1 "Saved" "Your saved pins" 1;
           Collection.mk 2 "Travel" "" 1;
           Collection.mk 3 "Saved" "Your saved pins" 2]
          [Save.mk 1 1 1; Save.mk 2 1 2; Save.mk 3 1 3])
    [].

End Vocabulary.

(** * Vocabulary of the further properties *)

(** ** Storage results *)

(** What [CloudinaryStorage.upload_file] returns, read off the
    configuration flag and the answer of the SDK. *)
Definition cloudinary_result (self : CloudinaryStorage.t) (answer : result dict)
  : option string * option string :=
  if CloudinaryStorage.is_configured self then
    match answer with
    | Return response =>
        match dict_get response "secure_url" with
        | Some file_url =>
            (Some file_url,
             Some (if opt_eqb (dict_get response "resource_type") "image"
                   then "image" else "video"))
        | None => (None, None)
        end
    | Raise _ => (None, None)
    end
  else (None, None).

(** The file name without its last extension: [rsplit('.', 1)[0]]
    when there is a dot. *)
Definition without_extension (name : string) : string :=
  match cut_last dot name with
  | Some (stem, _) => stem
  | None => name
  end.

(** [UPLOAD_FOLDER] of [filesystem_storage.py], line 11. *)
Definition upload_folder (os_getcwd : string) : string :=
  PosixPath.join [os_getcwd; "static"; "uploads"].

(** Whether a call of [os.remove] returned. *)
Definition returned {A} (r : result A) : bool :=
  match r with Return _ => true | Raise _ => false end.

(** What [destroy] is asked and what [delete_file] makes of its
    answer. *)
Definition destroyed (destroy : string -> string -> result dict)
    (public_id resource_type : string) : bool :=
  match destroy public_id resource_type with
  | Return response => opt_eqb (dict_get response "result") "ok"
  | Raise _ => false
  end.

(** A delivery URL: [base/upload/version/rest]. *)
Definition delivery_url (base version rest : string) : string :=
  base ++ "/upload/" ++ version ++ "/" ++ rest.

(** The object URL of the Supabase storage API. *)
Definition object_url (url file_path : string) : string :=
  url ++ "/storage/v1/object/avatars/" ++ file_path.

(** What [SupabaseClient.delete_file] returns for an initialised
    client. *)
Definition supabase_deleted
    (client_remove : string -> list string -> result unit)
    (requests_delete : string -> string -> string -> result (nat * string))
    (url key file_path : string) : bool :=
  match client_remove "avatars" [file_path] with
  | Return _ => true
  | Raise _ =>
      match requests_delete (object_url url file_path) key ("Bearer " ++ key) with
      | Return (status_code, _) => Nat.eqb status_code 200
      | Raise _ => false
      end
  end.

(** ** Registration, upload and reading a post *)

Section RouteVocabulary.

Local Open Scope nat_scope.

(** The conditions under which [register] creates a user: nobody is
    logged in, the form is posted with all three fields, the password
    has eight characters, and the name and the address are unused. *)
Definition registers (d : DB) (session : Session) (m : method)
    (username email password : option string) : bool :=
  match session with
  | Some id => match User_get d id with Some _ => false | None => true end
  | None => true
  end
  && match m with POST => true | GET => false end
  && truthy_opt username && truthy_opt email && truthy_opt password
  && (8 <=? String.length (fmt password))
  && negb (existsb (fun u => String.eqb (User.username u) (fmt username)) (users d))
  && negb (existsb (fun u => String.eqb (User.email u) (fmt email)) (users d)).

(** The database after a registration. *)
Definition registered (d : DB) (username email generated_hash : string) : DB :=
  let user := User.mk (next_id (map User.id (users d))) username email
                generated_hash in
  mkDB (users d ++ [user]) (posts d)
       (collections d ++
        [Collection.mk (next_id (map Collection.id (collections d)))
           "Saved" "Your saved pins" (User.id user)])
       (saves d).

(** The database after an upload. *)
Definition posted (d : DB) (title description file_url file_type : string)
    (user_id : nat) : DB :=
  mkDB (users d)
       (posts d ++ [Post.mk (next_id (map Post.id (posts d)))
                      title description file_url file_type user_id])
       (collections d) (saves d).

(** The database with one more save. *)
Definition saved_into (d : DB) (post_id collection_id : nat) : DB :=
  mkDB (users d) (posts d) (collections d)
       (saves d ++ [Save.mk (next_id (map Save.id (saves d))) post_id collection_id]).

(** The user a request acts for, as [load_user] finds it. *)
Definition logged_in (d : DB) (session : Session) : option User.t :=
  match session with
  | Some id => User_get d id
  | None => None
  end.

(** What the tables owe to each other beyond [consistent]: unique
    names, addresses and post keys, foreign keys that resolve, and
    posts that are images or videos with a non-empty URL. *)
Record referential (d : DB) : Prop := mkReferential
  { usernames_unique : NoDup (map User.username (users d));
    emails_unique : NoDup (map User.email (users d));
    post_ids_unique : NoDup (map Post.id (posts d));
    saves_resolve : forall s, In s (saves d) ->
      Post_get d (Save.post_id s) <> None /\
      Collection_get d (Save.collection_id s) <> None;
    collections_resolve : forall c, In c (collections d) ->
      User_get d (Collection.user_id c) <> None;
    posts_resolve : forall p, In p (posts d) ->
      User_get d (Post.user_id p) <> None /\
      (Post.file_type p = "image" \/ Post.file_type p = "video") /\
      truthy (Post.file_url p) = true }.

End RouteVocabulary.

Section UploadVocabulary.

Local Open Scope nat_scope.

(** The conditions under which [upload] creates a post: a logged-in
    user posts, to a configured back end, a file whose name is
    accepted, and the SDK answers with a non-empty [secure_url]. *)
Definition uploads (d : DB) (cloudinary_storage : CloudinaryStorage.t)
    (session : Session) (m : method) (file : option FileStorage)
    (answer : result dict) : bool :=
  match logged_in d session with Some _ => true | None => false end
  && CloudinaryStorage.is_configured cloudinary_storage
  && match m with POST => true | GET => false end
  && match file with
     | Some (filename, _) =>
         match CloudinaryStorage.is_allowed_file filename with
         | Return allowed => allowed
         | Raise _ => false
         end
     | None => false
     end
  && truthy_opt (fst (cloudinary_result cloudinary_storage answer)).

(** [request.form.get(key, '')] *)
Definition form_get (field : option string) : string :=
  match field with Some s => s | None => "" end.

(** [current_user.id] of a request that has a user. *)
Definition caller_id (d : DB) (session : Session) : nat :=
  match logged_in d session with Some u => User.id u | None => 0 end.

End UploadVocabulary.

Section AttemptVocabulary.

(** The conditions under which [upload] hands a file to the back end:
    those of [uploads] without the answer of the SDK. *)
Definition attempts (d : DB) (cloudinary_storage : CloudinaryStorage.t)
    (session : Session) (m : method) (file : option FileStorage) : bool :=
  match logged_in d session with Some _ => true | None => false end
  && CloudinaryStorage.is_configured cloudinary_storage
  && match m with POST => true | GET => false end
  && match file with
     | Some (filename, _) =>
         match CloudinaryStorage.is_allowed_file filename with
         | Return allowed => allowed
         | Raise _ => false
         end
     | None => false
     end.

(** [file.read()] of the posted file. *)
Definition file_content (file : option FileStorage) : bytes :=
  match file with Some (_, content) => content | None => [] end.

End AttemptVocabulary.

(** * Proof automation *)

(** Unfold the monad down to pairs and normalise the trace. *)
Ltac py_unfold :=
  unfold try_except, bind, ret, raise, lift, logger, flash, emit, external,
         query, update in *.

Ltac py_trace := cbn [db trace fst snd]; rewrite <- ?app_assoc; cbn [app].

(** Unfold a view down to its case analysis, and split on the
    innermost scrutinee. *)
Ltac route_unfold :=
  unfold handle, dispatch, view_of, save_post, unsave_post, register, upload,
         login_required, current_user, get_or_404, unsave_found,
         add_user, add_post, add_collection, add_save,
         redirect_index, url_for_index;
  py_unfold.

Ltac route_step :=
  match goal with
  | |- context [match ?scrutinee with _ => _ end] =>
      lazymatch scrutinee with
      | context [match _ with _ => _ end] => fail
      | _ => destruct scrutinee eqn:?
      end
  end.

Ltac save_unfold :=
  unfold handle, dispatch, view_of, save_post, login_required, current_user,
         get_or_404, add_collection, add_save;
  py_unfold.

(** * Properties *)

(** ** File names *)

Section FileNames.

Lemma cut_last_none (sep : ascii) (s : string) :
  cut_last sep s = None <-> contains sep s = false.
Proof.
  induction s as [|c s IH]; simpl.
  - tauto.
  - destruct (cut_last sep s) as [[a b]|].
    + split; [discriminate|].
      intros H. apply orb_false_iff in H. destruct H as [_ H].
      apply IH in H. discriminate.
    + destruct (Ascii.eqb c sep); simpl.
      * split; discriminate.
      * split; intros _; [apply IH|]; reflexivity.
Qed.

Lemma cut_last_some (sep : ascii) (s a b : string) :
  cut_last sep s = Some (a, b) ->
  s = a ++ String sep b /\ contains sep b = false.
Proof.
  revert a b. induction s as [|c s IH]; simpl; intros a b H.
  - discriminate.
  - destruct (cut_last sep s) as [[a' b']|] eqn:E.
    + inversion H; subst. destruct (IH _ _ eq_refl) as [-> Hb].
      split; [reflexivity | exact Hb].
    + destruct (Ascii.eqb c sep) eqn:Ec; [|discriminate].
      inversion H; subst. apply Ascii.eqb_eq in Ec. subst c.
      split; [reflexivity | now apply cut_last_none].
Qed.

Lemma cut_last_app (sep : ascii) (a b : string) :
  contains sep b = false ->
  cut_last sep (a ++ String sep b) = Some (a, b).
Proof.
  intros Hb. induction a as [|c a IH]; simpl.
  - apply cut_last_none in Hb. rewrite Hb, Ascii.eqb_refl. reflexivity.
  - rewrite IH. reflexivity.
Qed.

Lemma mem_In (x : string) (xs : list string) : mem x xs = true <-> In x xs.
Proof.
  unfold mem. rewrite existsb_exists. split.
  - intros [y [Hy E]]. apply String.eqb_eq in E. now subst.
  - intros H. exists x. split; [exact H | apply String.eqb_refl].
Qed.

(** The extension [rsplit('.', 1)[1]] reads, when there is a dot. *)
Lemma extension_with_dot (filename : string) :
  contains dot filename = true ->
  exists stem ext,
    filename = stem ++ String dot ext /\ contains dot ext = false /\
    index (rsplit1 dot filename) 1 = Return ext.
Proof.
  intros H. unfold rsplit1.
  destruct (cut_last dot filename) as [[a b]|] eqn:E.
  - destruct (cut_last_some _ _ _ _ E) as [Hs Hb].
    exists a, b. repeat split; assumption.
  - apply cut_last_none in E. congruence.
Qed.

Lemma extension_without_dot (filename : string) :
  contains dot filename = false ->
  index (rsplit1 dot filename) 1 = Raise IndexError.
Proof.
  intros H. apply cut_last_none in H. unfold rsplit1. rewrite H. reflexivity.
Qed.

Lemma extension_of_app (stem ext : string) :
  contains dot ext = false ->
  contains dot (stem ++ String dot ext) = true /\
  index (rsplit1 dot (stem ++ String dot ext)) 1 = Return ext.
Proof.
  intros H. split.
  - induction stem as [|c stem IH]; simpl.
    + reflexivity.
    + rewrite IH. apply orb_true_r.
  - unfold rsplit1. rewrite (cut_last_app _ _ _ H). reflexivity.
Qed.

End FileNames.

(** The two copies of the file-name functions agree. *)
Lemma is_allowed_file_allowed_file (filename : string) :
  CloudinaryStorage.is_allowed_file filename = FilesystemStorage.allowed_file filename.
Proof. reflexivity. Qed.

Lemma get_file_type_copies (filename : string) :
  CloudinaryStorage.get_file_type filename = FilesystemStorage.get_file_type filename.
Proof. reflexivity. Qed.

(** [allowed_file] never raises. *)
Lemma allowed_file_total (filename : string) :
  exists b, FilesystemStorage.allowed_file filename = Return b.
Proof.
  unfold FilesystemStorage.allowed_file.
  destruct (contains dot filename) eqn:E; [|now exists false].
  destruct (extension_with_dot _ E) as (stem & ext & _ & _ & ->).
  eexists. reflexivity.
Qed.

Lemma allowed_file_spec (filename : string) :
  FilesystemStorage.allowed_file filename = Return true <->
  has_allowed_extension filename.
Proof.
  unfold FilesystemStorage.allowed_file, has_allowed_extension. split.
  - destruct (contains dot filename) eqn:E; [|discriminate].
    destruct (extension_with_dot _ E) as (stem & ext & Hs & Hd & ->).
    intros H. exists stem, ext.
    repeat split; try assumption. apply mem_In.
    change (mem (lower ext) ALLOWED_EXTENSIONS = true). congruence.
  - intros (stem & ext & -> & Hd & Hin).
    destruct (extension_of_app stem ext Hd) as [-> ->].
    apply mem_In in Hin. unfold ALLOWED_EXTENSIONS. now rewrite Hin.
Qed.

(** C7: [allowed_file] and [is_allowed_file] never raise, and return
    [True] exactly for the names whose extension, lower-cased, is one of
    jpg, jpeg, png, gif, mp4, mov, webm; "a.exe" is refused, "a.JPG" is
    accepted, and "a.mov" is classified as a video. *)
Theorem is_allowed_file_iff_allowed_extension :
  forall filename : string,
    (exists b, FilesystemStorage.allowed_file filename = Return b) /\
    (FilesystemStorage.allowed_file filename = Return true <->
     has_allowed_extension filename) /\
    (CloudinaryStorage.is_allowed_file filename = Return true <->
     has_allowed_extension filename) /\
    FilesystemStorage.allowed_file "a.exe" = Return false /\
    CloudinaryStorage.is_allowed_file "a.exe" = Return false /\
    FilesystemStorage.allowed_file "a.JPG" = Return true /\
    CloudinaryStorage.is_allowed_file "a.JPG" = Return true /\
    FilesystemStorage.get_file_type "a.mov" = Return (Some "video") /\
    CloudinaryStorage.get_file_type "a.mov" = Return (Some "video").
Proof.
  intros filename.
  split; [apply allowed_file_total|].
  split; [apply allowed_file_spec|].
  split; [rewrite is_allowed_file_allowed_file; apply allowed_file_spec|].
  repeat split.
Qed.

(** What [get_file_type] does on every input: it raises on a name
    without a dot and classifies the extension otherwise. *)
Lemma get_file_type_without_dot (filename : string) :
  contains dot filename = false ->
  FilesystemStorage.get_file_type filename = Raise IndexError.
Proof.
  intros H. unfold FilesystemStorage.get_file_type.
  now rewrite (extension_without_dot _ H).
Qed.

Lemma get_file_type_with_dot (stem ext : string) :
  contains dot ext = false ->
  FilesystemStorage.get_file_type (stem ++ String dot ext) =
  Return (if mem (lower ext) ["jpg"; "jpeg"; "png"; "gif"] then Some "image"
          else if mem (lower ext) ["mp4"; "mov"; "webm"] then Some "video"
          else None).
Proof.
  intros H. unfold FilesystemStorage.get_file_type.
  destruct (extension_of_app stem ext H) as [_ ->].
  cbv zeta.
  destruct (mem (lower ext) ["jpg"; "jpeg"; "png"; "gif"]); [reflexivity|].
  destruct (mem (lower ext) ["mp4"; "mov"; "webm"]); reflexivity.
Qed.

(** C4: on a file name without a dot, [get_file_type] does not return
    [None]: [rsplit('.', 1)] has one element and [[1]] raises
    [IndexError], in both copies of the function. *)
Theorem get_file_type_raises_without_extension :
  FilesystemStorage.get_file_type "README" = Raise IndexError /\
  CloudinaryStorage.get_file_type "README" = Raise IndexError /\
  FilesystemStorage.allowed_file "README" = Return false.
Proof. repeat split. Qed.

Lemma allowed_file_get_file_type (filename : string) :
  FilesystemStorage.allowed_file filename = Return true ->
  FilesystemStorage.get_file_type filename = Return (Some "image") \/
  FilesystemStorage.get_file_type filename = Return (Some "video").
Proof.
  intros H. apply allowed_file_spec in H.
  destruct H as (stem & ext & -> & Hd & Hin).
  rewrite (get_file_type_with_dot _ _ Hd).
  simpl in Hin.
  repeat (destruct Hin as [Hin|Hin];
          [rewrite <- Hin; simpl; auto|]).
  contradiction.
Qed.

Section SaveFileBranches.

Variable secure_filename : string -> string.
Variable os_path_join : list string -> string.
Variable UPLOAD_FOLDER : string.

Lemma save_file_not_allowed file_data original_filename custom_filename answer w :
  FilesystemStorage.allowed_file original_filename = Return false ->
  FilesystemStorage.save_file secure_filename os_path_join UPLOAD_FOLDER
    file_data original_filename custom_filename answer w =
  (Return (None, None),
   mkWorld (db w)
     (trace w ++ [Log ERROR ("File type not allowed: " ++ original_filename)])).
Proof.
  intros H. unfold FilesystemStorage.save_file, try_except, bind, lift.
  rewrite H. reflexivity.
Qed.

Lemma save_file_allowed file_data original_filename custom_filename answer w :
  FilesystemStorage.allowed_file original_filename = Return true ->
  exists file_type file_path,
    FilesystemStorage.get_file_type original_filename = Return (Some file_type) /\
    (file_type = "image" \/ file_type = "video") /\
    FilesystemStorage.save_file secure_filename os_path_join UPLOAD_FOLDER
    file_data original_filename custom_filename answer w =
    match answer with
    | Return _ =>
        (Return (Some ("/static/uploads/" ++ file_type ++ "s/"
                       ++ secure_filename
                            (if truthy_opt custom_filename then fmt custom_filename
                             else original_filename)),
                 Some file_type),
         mkWorld (db w)
           (trace w ++ [FileWrite file_path file_data;
                        Log INFO ("File saved successfully: " ++ file_path)]))
    | Raise e =>
        (Return (None, None),
         mkWorld (db w)
           (trace w ++ [FileWrite file_path file_data;
                        Log ERROR ("Error saving file: " ++ exn_str e)]))
    end.
Proof.
  intros H.
  unfold FilesystemStorage.save_file, try_except, bind, lift.
  rewrite H.
  destruct (allowed_file_get_file_type _ H) as [E|E]; rewrite E;
    eexists; eexists; (split; [reflexivity|]); (split; [auto|]);
    destruct answer; simpl; rewrite <- ?app_assoc; reflexivity.
Qed.

End SaveFileBranches.

(** C10: a name [allowed_file] accepts is classified as an image or a
    video, so [save_file], which classifies only after [allowed_file]
    accepted, never takes the branch that logs "Unknown file type": it
    always returns, and none of the events it adds is that log line. *)
Theorem save_file_unknown_type_unreachable :
  forall (secure_filename : string -> string) (os_path_join : list string -> string)
         (UPLOAD_FOLDER : string) (file_data : bytes) (original_filename : string)
         (custom_filename : option string) (write_answer : result unit) (w : World),
    (FilesystemStorage.allowed_file original_filename = Return true ->
     FilesystemStorage.get_file_type original_filename = Return (Some "image") \/
     FilesystemStorage.get_file_type original_filename = Return (Some "video")) /\
    exists (r : option string * option string) (evs : list Event),
      FilesystemStorage.save_file secure_filename os_path_join UPLOAD_FOLDER
        file_data original_filename custom_filename write_answer w =
      (Return r, mkWorld (db w) (trace w ++ evs)) /\
      ~ In (Log ERROR ("Unknown file type: " ++ original_filename)) evs.
Proof.
  intros sf join folder data name custom answer w.
  split; [apply allowed_file_get_file_type|].
  destruct (allowed_file_total name) as [[|] H].
  - destruct (save_file_allowed sf join folder data name custom answer w H)
      as (ft & path & _ & _ & ->).
    destruct answer as [u|e]; eexists; eexists; (split; [reflexivity|]);
      simpl; intros [F|[F|[]]]; discriminate.
  - rewrite (save_file_not_allowed sf join folder data name custom answer w H).
    eexists; eexists; (split; [reflexivity|]).
    simpl; intros [F|[]]; discriminate.
Qed.

(** ** Storage back ends *)

(** An unconfigured Cloudinary back end uploads nothing. *)
Lemma cloudinary_upload_unconfigured self file_data folder public_id resource_type answer w :
  CloudinaryStorage.is_configured self = false ->
  CloudinaryStorage.upload_file self file_data folder public_id resource_type answer w =
  (Return (None, None),
   mkWorld (db w)
     (trace w ++ [Log ERROR "Cloudinary not configured, cannot upload file"])).
Proof.
  intros H. unfold CloudinaryStorage.upload_file. rewrite H. reflexivity.
Qed.

Lemma cloudinary_init_unconfigured env :
  truthy_opt (CloudinaryStorage.CLOUDINARY_CLOUD_NAME env)
  && truthy_opt (CloudinaryStorage.CLOUDINARY_API_KEY env)
  && truthy_opt (CloudinaryStorage.CLOUDINARY_API_SECRET env) = false ->
  CloudinaryStorage.is_configured (CloudinaryStorage.init env) = false.
Proof. intros H. unfold CloudinaryStorage.init. now rewrite H. Qed.

Lemma upload_disabled cloudinary_storage session m title description file uuid4 answer w :
  CloudinaryStorage.is_configured cloudinary_storage = false ->
  Routes.upload cloudinary_storage session m title description file uuid4 answer w =
  match Routes.current_user session w with
  | (Return (Some _), _) =>
      (Return (Routes.RenderTemplate "upload.html" (Some true)),
       mkWorld (db w)
         (trace w ++ [Flash "File uploads are temporarily disabled. Please check back later."]))
  | _ =>
      (Return (Routes.Redirect "login"),
       mkWorld (db w) (trace w ++ [Flash "Please log in to access this page."]))
  end.
Proof.
  intros H. unfold Routes.upload, Routes.login_required, Routes.UPLOADS_ENABLED.
  rewrite H. unfold Routes.current_user. py_unfold.
  destruct session as [id|]; [destruct (Routes.User_get (db w) id)|]; reflexivity.
Qed.

(** C8: when a credential is missing, the Cloudinary back end is not
    configured; its [upload_file] returns [(None, None)] and does
    nothing but log that it is not configured; the upload route reads
    the flag before anything else it does for a logged-in caller, who
    gets the disabled upload page whatever was posted, with the flash
    that uploads are disabled, no call to the back end and the database
    as it was (a request without a user gets the login redirect); the
    Supabase client without its credentials likewise returns [None]
    and only logs. *)
Theorem unconfigured_storage_disables_upload :
  forall env : CloudinaryStorage.Env,
    truthy_opt (CloudinaryStorage.CLOUDINARY_CLOUD_NAME env)
    && truthy_opt (CloudinaryStorage.CLOUDINARY_API_KEY env)
    && truthy_opt (CloudinaryStorage.CLOUDINARY_API_SECRET env) = false ->
    let cloudinary_storage := CloudinaryStorage.init env in
    Routes.UPLOADS_ENABLED cloudinary_storage = false /\
    (forall file_data folder public_id resource_type answer w,
        CloudinaryStorage.upload_file cloudinary_storage file_data folder
          public_id resource_type answer w =
        (Return (None, None),
         mkWorld (db w)
           (trace w ++ [Log ERROR "Cloudinary not configured, cannot upload file"]))) /\
    (forall session m title description file uuid4 answer w,
        Routes.handle cloudinary_storage
          (Routes.ReqUpload session m title description file uuid4 answer) w =
        match logged_in (db w) session with
        | Some _ =>
            (Routes.RenderTemplate "upload.html" (Some true),
             mkWorld (db w)
               (trace w ++
                [Flash "File uploads are temporarily disabled. Please check back later."]))
        | None =>
            (Routes.Redirect "login",
             mkWorld (db w) (trace w ++ [Flash "Please log in to access this page."]))
        end) /\
    (forall senv file_data file_path content_type ans w,
        truthy_opt (SupabaseClient.SUPABASE_URL senv)
        && truthy_opt (SupabaseClient.SUPABASE_KEY senv) = false ->
        SupabaseClient.upload_file senv (SupabaseClient.init senv)
          file_data file_path content_type ans w =
        (Return None,
         mkWorld (db w) (trace w ++ [Log ERROR "Supabase client not initialized"]))).
Proof.
  intros env H cs.
  assert (Hc : CloudinaryStorage.is_configured cs = false)
    by now apply cloudinary_init_unconfigured.
  split; [exact Hc|]. split; [|split].
  - intros. now apply cloudinary_upload_unconfigured.
  - intros. unfold Routes.handle, Routes.dispatch, Routes.view_of.
    rewrite (upload_disabled _ _ _ _ _ _ _ _ _ Hc).
    unfold Routes.current_user, logged_in. py_unfold.
    destruct session as [id|]; [destruct (Routes.User_get (db w) id)|];
      reflexivity.
  - intros senv data path ct ans w Hs.
    unfold SupabaseClient.upload_file, SupabaseClient.init.
    replace (negb (truthy_opt (SupabaseClient.SUPABASE_URL senv))
             || negb (truthy_opt (SupabaseClient.SUPABASE_KEY senv))) with true.
    + reflexivity.
    + rewrite <- negb_andb, Hs. reflexivity.
Qed.

Lemma unconfigured_storage_disables_upload_witness :
  Routes.handle
    (CloudinaryStorage.init (CloudinaryStorage.mkEnv (Some "demo") None (Some "s3cret")))
    (Routes.ReqUpload (Some 1) Routes.POST (Some "dog") None (Some ("dog.jpg", []))
       "uuid" (Return [("secure_url", "https://res.cloudinary.com/dog.jpg")]))
    (mkWorld (mkDB [User.mk 1 "alice" "alice@x.com" "hash"] []
                   [Collection.mk 1 "Saved" "Your saved pins" 1] [])
             [])
  = (Routes.RenderTemplate "upload.html" (Some true),
     mkWorld (mkDB [User.mk 1 "alice" "alice@x.com" "hash"] []
                   [Collection.mk 1 "Saved" "Your saved pins" 1] [])
             [Flash "File uploads are temporarily disabled. Please check back later."]).
Proof.
  exact (proj1 (proj2 (proj2 (unconfigured_storage_disables_upload
                                (CloudinaryStorage.mkEnv (Some "demo") None
                                   (Some "s3cret"))
                                eq_refl)))
               (Some 1) Routes.POST (Some "dog") None (Some ("dog.jpg", []))
               "uuid" (Return [("secure_url", "https://res.cloudinary.com/dog.jpg")])
               (mkWorld (mkDB [User.mk 1 "alice" "alice@x.com" "hash"] []
                              [Collection.mk 1 "Saved" "Your saved pins" 1] [])
                        [])).
Defined.

Lemma supabase_init_configured url key :
  truthy url = true -> truthy key = true ->
  SupabaseClient.init (SupabaseClient.mkEnv (Some url) (Some key)) =
  SupabaseClient.mk (Some (SupabaseClient.mkClient url key)).
Proof.
  intros Hu Hk. unfold SupabaseClient.init. simpl. now rewrite Hu, Hk.
Qed.

Lemma supabase_upload_fallback url key file_data file_path content_type ans w :
  truthy url = true -> truthy key = true ->
  client_fails ans = true ->
  exists evs,
    SupabaseClient.upload_file (SupabaseClient.mkEnv (Some url) (Some key))
      (SupabaseClient.init (SupabaseClient.mkEnv (Some url) (Some key)))
      file_data file_path content_type ans w =
    (Return (fallback_result url file_path ans),
     mkWorld (db w) (trace w ++ evs)) /\
    count_events is_requests_post evs = 1 /\
    In (RequestsPost (url ++ "/storage/v1/object/avatars/" ++ file_path)
          key ("Bearer " ++ key) content_type file_data) evs /\
    In (SupabaseUpload url key "avatars" file_path file_data content_type) evs /\
    count_events is_client_upload evs = 1.
Proof.
  intros Hu Hk Hf. rewrite (supabase_init_configured _ _ Hu Hk).
  unfold SupabaseClient.upload_file, fallback_result, client_fails in *.
  destruct ans as [up pub post]. cbn [SupabaseClient.supabase
    SupabaseClient.client_upload SupabaseClient.client_get_public_url
    SupabaseClient.requests_post SupabaseClient.client_url
    SupabaseClient.client_key SupabaseClient.SUPABASE_URL
    SupabaseClient.SUPABASE_KEY fmt SupabaseClient.bucket_name] in *.
  py_unfold.
  destruct up as [[]|e1]; [destruct pub as [u|e2]; [discriminate|]|];
    (destruct post as [[code text]|e3];
     [cbn [fst snd]; destruct (Nat.eqb code 200)|]);
    py_trace; eexists; (split; [reflexivity|]);
    cbn; intuition auto.
Qed.

Lemma cloudinary_upload_failure self file_data folder public_id resource_type e w :
  CloudinaryStorage.is_configured self = true ->
  CloudinaryStorage.upload_file self file_data folder public_id resource_type (Raise e) w =
  (Return (None, None),
   mkWorld (db w)
     (trace w ++
      [Log INFO ("Uploading file to Cloudinary, resource_type=" ++ resource_type);
       CloudinaryUpload file_data folder
         (if truthy_opt public_id then public_id else None) resource_type;
       Log ERROR ("Error uploading file to Cloudinary: " ++ exn_str e)])).
Proof.
  intros H. unfold CloudinaryStorage.upload_file. rewrite H. cbn [negb].
  py_unfold. py_trace. reflexivity.
Qed.

(** C9 fails for the Cloudinary back end, the one the upload route
    uses: when [cloudinary.uploader.upload] raises, [upload_file] gives
    up at once, without a single raw HTTP request. *)
Lemma cloudinary_upload_never_falls_back :
  let out :=
    CloudinaryStorage.upload_file (CloudinaryStorage.mk true) [] "pinspire"
      (Some "0b5e") "auto" (Raise (Exception "connection reset")) Routes.initial in
  fst out = Return (None, None) /\
  count_events is_client_upload (trace (snd out)) = 1 /\
  count_events is_requests_post (trace (snd out)) = 0 /\
  count_events is_requests_post (trace (snd out)) <> 1.
Proof. cbv. repeat split. discriminate. Qed.

(** C9, amended: the Supabase client, once its Python client has
    failed, makes exactly one raw [requests.post] with the URL and key
    the client was created with, and returns the public URL on status
    200 and [None] otherwise; the Cloudinary back end has no fallback:
    a failed SDK call makes [upload_file] return [(None, None)] after
    that single call. *)
Theorem supabase_falls_back_once_cloudinary_never :
  forall (url key : string) (file_data : bytes) (file_path content_type : string)
         (ans : SupabaseClient.Answers) (w : World),
    truthy url = true -> truthy key = true ->
    client_fails ans = true ->
    (exists evs,
        SupabaseClient.upload_file (SupabaseClient.mkEnv (Some url) (Some key))
          (SupabaseClient.init (SupabaseClient.mkEnv (Some url) (Some key)))
          file_data file_path content_type ans w =
        (Return (fallback_result url file_path ans),
         mkWorld (db w) (trace w ++ evs)) /\
        count_events is_requests_post evs = 1 /\
        In (RequestsPost (url ++ "/storage/v1/object/avatars/" ++ file_path)
              key ("Bearer " ++ key) content_type file_data) evs /\
        In (SupabaseUpload url key "avatars" file_path file_data content_type) evs /\
        count_events is_client_upload evs = 1) /\
    (forall self folder public_id resource_type e,
        CloudinaryStorage.is_configured self = true ->
        exists evs,
          CloudinaryStorage.upload_file self file_data folder public_id
            resource_type (Raise e) w =
          (Return (None, None), mkWorld (db w) (trace w ++ evs)) /\
          count_events is_client_upload evs = 1 /\
          count_events is_requests_post evs = 0).
Proof.
  intros url key data path ct ans w Hu Hk Hf. split.
  - now apply supabase_upload_fallback.
  - intros self folder pid rt e Hc.
    rewrite (cloudinary_upload_failure _ _ _ _ _ _ _ Hc).
    eexists; split; [reflexivity|]. split; reflexivity.
Qed.

Lemma supabase_falls_back_once_cloudinary_never_witness :
  exists evs,
    SupabaseClient.upload_file
      (SupabaseClient.mkEnv (Some "https://p.supabase.co") (Some "anon"))
      (SupabaseClient.init
         (SupabaseClient.mkEnv (Some "https://p.supabase.co") (Some "anon")))
      [] "cat.jpg" "image/jpeg"
      (SupabaseClient.mkAnswers (Raise (Exception "timeout")) (Return "u")
         (Return (200, "")))
      Routes.initial =
    (Return (Some "https://p.supabase.co/storage/v1/object/public/avatars/cat.jpg"),
     mkWorld empty_db evs) /\
    count_events is_requests_post evs = 1.
Proof.
  destruct (proj1 (supabase_falls_back_once_cloudinary_never
                     "https://p.supabase.co" "anon" [] "cat.jpg" "image/jpeg"
                     (SupabaseClient.mkAnswers (Raise (Exception "timeout"))
                        (Return "u") (Return (200, "")))
                     Routes.initial eq_refl eq_refl eq_refl))
    as (evs & H & Hn & _).
  exists evs. split; [exact H | exact Hn].
Defined.

(** ** The relationship model *)

(** *** Lists *)

Section ListFacts.

Local Open Scope nat_scope.

Lemma fold_max_ge (ids : list nat) (x : nat) :
  In x ids -> x <= fold_right Nat.max 0 ids.
Proof.
  induction ids as [|y ids IH]; simpl; [tauto|].
  intros [->|H]; [lia | specialize (IH H); lia].
Qed.

Lemma next_id_fresh (ids : list nat) : ~ In (next_id ids) ids.
Proof.
  intros H. apply fold_max_ge in H. unfold next_id in H. lia.
Qed.

Lemma find_none_filter {A} (f : A -> bool) (l : list A) :
  find f l = None <-> filter f l = [].
Proof.
  induction l as [|x l IH]; simpl; [tauto|].
  destruct (f x); [split; discriminate | exact IH].
Qed.

Lemma find_some_filter {A} (f : A -> bool) (l : list A) (x : A) :
  find f l = Some x -> 1 <= length (filter f l).
Proof.
  intros H. destruct (filter f l) eqn:E; simpl; [|lia].
  apply find_none_filter in E. congruence.
Qed.

Lemma NoDup_snoc {A} (l : list A) (x : A) :
  NoDup l -> ~ In x l -> NoDup (l ++ [x]).
Proof.
  intros Hl Hx. induction Hl as [|y l Hy Hl IH]; simpl.
  - constructor; [tauto | constructor].
  - constructor.
    + rewrite in_app_iff. simpl. intros [H|[H|[]]]; [tauto|].
      subst. apply Hx. now left.
    + apply IH. intros H. apply Hx. now right.
Qed.

Lemma filter_keeps_unique_keys {Row Key} (key : Row -> Key) (keep : Row -> bool)
    (rows : list Row) :
  NoDup (map key rows) -> NoDup (map key (filter keep rows)).
Proof.
  intros Huniq. induction rows as [|row rows IH]; simpl; [constructor|].
  simpl in Huniq. apply NoDup_cons_iff in Huniq. destruct Huniq as [Hrow Hrows].
  destruct (keep row); simpl; [|now apply IH].
  constructor; [|now apply IH].
  rewrite in_map_iff. intros (other & Hkey & Hin).
  apply filter_In in Hin. apply Hrow.
  rewrite <- Hkey. apply in_map. tauto.
Qed.

Lemma filter_length_snoc {A} (p : A -> bool) (l : list A) (x : A) :
  length (filter p (l ++ [x])) = length (filter p l) + (if p x then 1 else 0).
Proof.
  rewrite filter_app, length_app. simpl. now destruct (p x).
Qed.

Lemma find_saved_in_none (l : list Save.t) (post_id collection_id : nat) :
  find (saved_in post_id collection_id) l = None ->
  ~ In (post_id, collection_id) (map save_key l).
Proof.
  intros H Hin. apply in_map_iff in Hin. destruct Hin as (s & Hk & Hin).
  apply (find_none _ _ H) in Hin. unfold saved_in, save_key in *.
  inversion Hk; subst. now rewrite !Nat.eqb_refl in Hin.
Qed.

Lemma find_saved_in_some (l : list Save.t) (post_id collection_id : nat) (s : Save.t) :
  In s l -> Save.post_id s = post_id -> Save.collection_id s = collection_id ->
  exists s', find (saved_in post_id collection_id) l = Some s'.
Proof.
  intros Hin Hp Hc.
  destruct (find (saved_in post_id collection_id) l) as [s'|] eqn:E.
  - now exists s'.
  - apply (find_none _ _ E) in Hin. unfold saved_in in Hin.
    subst. now rewrite !Nat.eqb_refl in Hin.
Qed.

End ListFacts.

(** *** What each request does to the tables *)

Section RouteEffects.

Local Open Scope nat_scope.

Variable cs : CloudinaryStorage.t.

Lemma save_post_db session post_id collection_id w :
  let w' := snd (handle cs (ReqSave session post_id collection_id) w) in
  users (db w') = users (db w) /\
  posts (db w') = posts (db w) /\
  (collections (db w') = collections (db w) \/
   exists id u,
     session = Some id /\ User_get (db w) id = Some u /\
     find (is_saved_of (User.id u)) (collections (db w)) = None /\
     collections (db w') =
     (collections (db w) ++
      [Collection.mk (next_id (map Collection.id (collections (db w))))
         "Saved" "Your saved pins" (User.id u)])%list) /\
  (saves (db w') = saves (db w) \/
   exists c,
     find (saved_in post_id c) (saves (db w)) = None /\
     saves (db w') =
     (saves (db w) ++
      [Save.mk (next_id (map Save.id (saves (db w)))) post_id c])%list).
Proof.
  route_unfold. cbn zeta.
  repeat (route_step; cbn [db trace fst snd users posts collections saves]).
  all: split; [reflexivity|split; [reflexivity|split]].
  all: first [ left; reflexivity
             | right; do 2 eexists; repeat split; solve [eassumption | reflexivity]
             | right; eexists; split; [eassumption | reflexivity]
             | idtac ].
Qed.

Lemma register_db session m username email password generated_hash w :
  let w' := snd (handle cs (ReqRegister session m username email password
                              generated_hash) w) in
  posts (db w') = posts (db w) /\
  saves (db w') = saves (db w) /\
  ((users (db w') = users (db w) /\ collections (db w') = collections (db w)) \/
   exists u c,
     users (db w') = (users (db w) ++ [u])%list /\
     collections (db w') = (collections (db w) ++ [c])%list /\
     User.id u = next_id (map User.id (users (db w))) /\
     Collection.id c = next_id (map Collection.id (collections (db w))) /\
     Collection.user_id c = User.id u /\
     Collection.name c = "Saved"%string).
Proof.
  route_unfold. cbn zeta.
  repeat (route_step; cbn [db trace fst snd users posts collections saves]).
  all: split; [reflexivity|split; [reflexivity|]].
  all: first [ left; split; reflexivity
             | right; do 2 eexists; repeat split ].
Qed.

Lemma upload_db session m title description file uuid4 answer w :
  let w' := snd (handle cs (ReqUpload session m title description file
                              uuid4 answer) w) in
  users (db w') = users (db w) /\
  collections (db w') = collections (db w) /\
  saves (db w') = saves (db w).
Proof.
  route_unfold.
  unfold CloudinaryStorage.upload_file, CloudinaryStorage.is_allowed_file.
  py_unfold. cbn zeta.
  repeat (route_step; cbn [db trace fst snd users posts collections saves]).
  all: repeat split.
Qed.

Lemma for_each_delete_save (found : list Save.t) (w : World) :
  for_each found delete_save w =
  (Return tt,
   mkWorld (mkDB (users (db w)) (posts (db w)) (collections (db w))
                 (without found (saves (db w))))
           (trace w)).
Proof.
  revert w. induction found as [|f found IH]; intros w.
  - unfold without. simpl. unfold ret.
    replace (filter (fun _ => true) (saves (db w))) with (saves (db w)).
    + now destruct w as [[] ?].
    + induction (saves (db w)) as [|s l IHl]; simpl; congruence.
  - simpl. unfold bind at 1. unfold delete_save at 1, update.
    rewrite IH. cbn [db trace users posts collections saves].
    do 3 f_equal. unfold without.
    induction (saves (db w)) as [|s l IHl]; simpl; [reflexivity|].
    destruct (Save.id s =? Save.id f); simpl; [exact IHl|].
    destruct (existsb (fun f0 => Save.id s =? Save.id f0) found); simpl;
      now rewrite IHl.
Qed.

Lemma found_everywhere_In d user_id post_id s :
  In s (found_everywhere d user_id post_id) <->
  In s (saves d) /\ saved_by d user_id post_id s = true.
Proof.
  unfold found_everywhere, Save_join_Collection, saved_by, owned_by.
  rewrite in_map_iff. split.
  - intros ([s' c] & Hs & Hin). simpl in Hs. subst s'.
    apply filter_In in Hin. destruct Hin as [Hin Hf]. simpl in Hf.
    apply in_flat_map in Hin. destruct Hin as (s0 & Hs0 & Hin).
    apply in_map_iff in Hin. destruct Hin as (c0 & Hc0 & Hin).
    inversion Hc0; subst. apply filter_In in Hin. destruct Hin as [Hc He].
    apply andb_true_iff in Hf. destruct Hf as [Hp Hu].
    split; [exact Hs0|]. rewrite Hp. simpl.
    apply existsb_exists. exists c. now rewrite He, Hu.
  - intros [Hin Hf]. apply andb_true_iff in Hf. destruct Hf as [Hp Ho].
    apply existsb_exists in Ho. destruct Ho as (c & Hc & Ho).
    apply andb_true_iff in Ho. destruct Ho as [He Hu].
    exists (s, c). split; [reflexivity|].
    apply filter_In. simpl. rewrite Hp, Hu. split; [|reflexivity].
    apply in_flat_map. exists s. split; [exact Hin|].
    apply in_map. apply filter_In. now split.
Qed.

Lemma unsave_found_eq (found : list Save.t) (w : World) :
  unsave_found found w =
  match found with
  | [] => (Return (Json [("error", "Post not saved to specified collection")] 404), w)
  | _ => (Return (Json [("success", "true")] 200),
          mkWorld (mkDB (users (db w)) (posts (db w)) (collections (db w))
                        (without found (saves (db w))))
                  (trace w))
  end.
Proof.
  destruct found as [|f found]; [reflexivity|].
  unfold unsave_found, bind. rewrite for_each_delete_save. reflexivity.
Qed.

Lemma unsave_post_eq session post_id collection_id w :
  unsave_post session post_id collection_id w =
  match session with
  | Some id =>
      match User_get (db w) id with
      | Some u =>
          if negb (truthy_id collection_id) then
            unsave_found (found_everywhere (db w) (User.id u) post_id) w
          else
            match Collection_get (db w) (id_value collection_id) with
            | Some c =>
                if negb (Collection.user_id c =? User.id u) then
                  (Return (Json [("error", "Unauthorized")] 403), w)
                else
                  unsave_found
                    (filter (saved_in post_id (id_value collection_id))
                            (saves (db w))) w
            | None => (Raise (HTTPException 404), w)
            end
      | None =>
          (Return (Redirect "login"),
           mkWorld (db w) (trace w ++ [Flash "Please log in to access this page."]))
      end
  | None =>
      (Return (Redirect "login"),
       mkWorld (db w) (trace w ++ [Flash "Please log in to access this page."]))
  end.
Proof.
  unfold unsave_post, login_required, current_user, get_or_404. py_unfold.
  destruct session as [id|]; [|reflexivity].
  destruct (User_get (db w) id) as [u|]; [|reflexivity].
  destruct (negb (truthy_id collection_id)); [reflexivity|].
  destruct (Collection_get (db w) (id_value collection_id)) as [c|]; [|reflexivity].
  destruct (negb (Collection.user_id c =? User.id u)); reflexivity.
Qed.

Lemma unsave_db session post_id collection_id w :
  let w' := snd (handle cs (ReqUnsave session post_id collection_id) w) in
  users (db w') = users (db w) /\
  posts (db w') = posts (db w) /\
  collections (db w') = collections (db w) /\
  exists p, saves (db w') = filter p (saves (db w)).
Proof.
  assert (Hid : exists p, saves (db w) = filter p (saves (db w))).
  { exists (fun _ => true).
    induction (saves (db w)) as [|s l IHl]; simpl; congruence. }
  assert (Hfound : forall found,
    let w' := snd (dispatch (unsave_found found) w) in
    users (db w') = users (db w) /\ posts (db w') = posts (db w) /\
    collections (db w') = collections (db w) /\
    exists p, saves (db w') = filter p (saves (db w))).
  { intros found. cbv zeta. unfold dispatch. rewrite unsave_found_eq.
    destruct found; cbn; repeat split; try exact Hid.
    eexists; reflexivity. }
  cbv zeta. unfold handle, view_of. unfold dispatch at 1 2 3 4.
  rewrite unsave_post_eq.
  destruct session as [id|]; [|cbn; repeat split; exact Hid].
  destruct (User_get (db w) id) as [u|]; [|cbn; repeat split; exact Hid].
  destruct (negb (truthy_id collection_id)); [apply Hfound|].
  destruct (Collection_get (db w) (id_value collection_id)) as [c|];
    [|cbn; repeat split; exact Hid].
  destruct (negb (Collection.user_id c =? User.id u));
    [cbn; repeat split; exact Hid | apply Hfound].
Qed.

End RouteEffects.

(** *** The invariant of the tables *)

Section Invariant.

Local Open Scope nat_scope.

Variable cs : CloudinaryStorage.t.

Lemma consistent_empty : consistent empty_db.
Proof. split; try constructor. Qed.

Lemma User_get_In d id u :
  User_get d id = Some u -> In u (users d) /\ User.id u = id.
Proof.
  intros H. apply find_some in H. destruct H as [Hin He].
  apply Nat.eqb_eq in He. now split.
Qed.

Lemma User_get_count d id u : User_get d id = Some u -> 1 <= count_user d id.
Proof. intros H. exact (find_some_filter _ _ _ H). Qed.

Lemma count_user_In d u :
  NoDup (map User.id (users d)) -> In u (users d) -> count_user d (User.id u) = 1.
Proof.
  unfold count_user. induction (users d) as [|x l IH]; simpl; [tauto|].
  intros Hnd Hin. inversion Hnd as [|? ? Hx Hl]; subst.
  destruct Hin as [->|Hin].
  - rewrite Nat.eqb_refl. simpl. f_equal.
    destruct (filter (fun u0 => User.id u0 =? User.id u) l) as [|y l'] eqn:E;
      [reflexivity|].
    exfalso. apply Hx.
    assert (Hy : In y (filter (fun u0 => User.id u0 =? User.id u) l))
      by (rewrite E; now left).
    apply filter_In in Hy. destruct Hy as [Hy He].
    apply Nat.eqb_eq in He. rewrite <- He. now apply in_map.
  - destruct (User.id x =? User.id u) eqn:E.
    + exfalso. apply Hx. apply Nat.eqb_eq in E. rewrite E. now apply in_map.
    + now apply IH.
Qed.

(** A logged-in user of a consistent database has a "Saved"
    collection, so [save_post] finds it and creates none. *)
Lemma default_collection_found d id u :
  consistent d -> User_get d id = Some u ->
  exists c, find (is_saved_of (User.id u)) (collections d) = Some c.
Proof.
  intros Hc Hu.
  destruct (find (is_saved_of (User.id u)) (collections d)) as [c|] eqn:E;
    [now exists c|].
  apply find_none_filter in E.
  pose proof (one_saved_each d Hc (User.id u)) as H1.
  unfold count_saved in H1. rewrite E in H1.
  pose proof (User_get_count _ _ _ Hu) as H2.
  destruct (User_get_In _ _ _ Hu) as [_ <-]. simpl in H1. lia.
Qed.

Lemma handle_consistent (r : Request) (w : World) :
  consistent (db w) -> consistent (db (snd (handle cs r w))).
Proof.
  intros Hc. destruct r as [session m un em pw h | session m ti de fi uu an
                           | session p c | session p c].
  - destruct (register_db cs session m un em pw h w) as (Hp & Hs & [[Hu Hcol]|H]).
    + destruct Hc. split; unfold count_saved, count_user;
        rewrite ?Hs, ?Hu, ?Hcol; auto.
    + destruct H as (u & c & Hu & Hcol & Hid & Hcid & Hown & Hname).
      destruct Hc as [K1 K2 K3 K4 K5].
      split; unfold count_saved, count_user in *; rewrite ?Hs, ?Hu, ?Hcol; auto.
      * rewrite map_app. apply NoDup_snoc; [assumption|].
        simpl. rewrite Hcid. apply next_id_fresh.
      * rewrite map_app. apply NoDup_snoc; [assumption|].
        simpl. rewrite Hid. apply next_id_fresh.
      * intros uid. rewrite !filter_length_snoc, K5. f_equal.
        unfold is_saved_of. rewrite Hown, Hname. simpl.
        now rewrite andb_true_r.
  - destruct (upload_db cs session m ti de fi uu an w) as (Hu & Hcol & Hs).
    destruct Hc. split; unfold count_saved, count_user;
      rewrite ?Hs, ?Hu, ?Hcol; auto.
  - destruct (save_post_db cs session p c w) as (Hu & Hp & Hcol & Hs).
    assert (Hcol' : collections (db (snd (handle cs (ReqSave session p c) w)))
                    = collections (db w)).
    { destruct Hcol as [Hcol|(id & u & _ & Hget & Hnone & _)]; [exact Hcol|].
      destruct (default_collection_found _ _ _ Hc Hget) as [c' Hc'].
      congruence. }
    destruct Hc as [K1 K2 K3 K4 K5].
    destruct Hs as [Hs|(t & Hnone & Hs)];
      split; unfold count_saved, count_user in *; rewrite ?Hs, ?Hu, ?Hcol'; auto.
    + rewrite map_app. apply NoDup_snoc; [assumption|].
      simpl. now apply find_saved_in_none.
    + rewrite map_app. apply NoDup_snoc; [assumption|].
      simpl. apply next_id_fresh.
  - destruct (unsave_db cs session p c w) as (Hu & Hp & Hcol & (q & Hs)).
    destruct Hc as [K1 K2 K3 K4 K5].
    split; unfold count_saved, count_user in *; rewrite ?Hs, ?Hu, ?Hcol; auto.
    + now apply filter_keeps_unique_keys.
    + now apply filter_keeps_unique_keys.
Qed.

Lemma run_consistent_from (reqs : list Request) (w : World) :
  consistent (db w) -> consistent (db (run cs reqs w)).
Proof.
  revert w. induction reqs as [|r reqs IH]; intros w Hc; simpl; [exact Hc|].
  apply IH. now apply handle_consistent.
Qed.

Lemma run_consistent (reqs : list Request) : consistent (db (run cs reqs initial)).
Proof. apply run_consistent_from. apply consistent_empty. Qed.

End Invariant.

(** *** Saving *)

Section Saving.

Local Open Scope nat_scope.

Variable cs : CloudinaryStorage.t.

Lemma save_post_conflict w id u post_id collection_id t c s :
  User_get (db w) id = Some u ->
  Post_get (db w) post_id <> None ->
  target_collection (db w) (User.id u) collection_id = Some t ->
  Collection_get (db w) t = Some c ->
  Collection.user_id c = User.id u ->
  In s (saves (db w)) -> save_key s = (post_id, t) ->
  handle cs (ReqSave (Some id) post_id collection_id) w = (already_saved, w).
Proof.
  intros Hu Hp Ht Hc Hown Hin Hkey.
  unfold save_key in Hkey. injection Hkey as Hk1 Hk2.
  destruct (find_saved_in_some _ _ _ _ Hin Hk1 Hk2) as [s' Hs'].
  unfold saved_in in Hs'.
  unfold target_collection, is_saved_of in Ht.
  save_unfold. rewrite Hu.
  destruct (Post_get (db w) post_id); [|congruence].
  destruct (negb (truthy_id collection_id)).
  - destruct (find _ (collections (db w))) as [c0|]; [|discriminate].
    simpl in Ht. inversion Ht as [Ht']. rewrite Ht'. rewrite Hc.
    rewrite Hown, Nat.eqb_refl. simpl. rewrite Hs'. reflexivity.
  - inversion Ht as [Ht']. rewrite Ht'. rewrite Hc.
    rewrite Hown, Nat.eqb_refl. simpl. rewrite Hs'. reflexivity.
Qed.

Lemma save_post_collection_missing w id u post_id collection_id :
  User_get (db w) id = Some u ->
  truthy_id collection_id = true ->
  Collection_get (db w) (id_value collection_id) = None ->
  handle cs (ReqSave (Some id) post_id collection_id) w = (ErrorPage 404, w).
Proof.
  intros Hu Ht Hc. save_unfold. rewrite Hu, Ht. simpl.
  destruct (Post_get (db w) post_id); [|reflexivity].
  now rewrite Hc.
Qed.

Lemma save_post_unauthorized w id u post_id collection_id c :
  User_get (db w) id = Some u ->
  Post_get (db w) post_id <> None ->
  truthy_id collection_id = true ->
  Collection_get (db w) (id_value collection_id) = Some c ->
  Collection.user_id c <> User.id u ->
  handle cs (ReqSave (Some id) post_id collection_id) w =
  (Json [("error", "Unauthorized")] 403, w).
Proof.
  intros Hu Hp Ht Hc Hown. save_unfold. rewrite Hu, Ht. simpl.
  destruct (Post_get (db w) post_id); [|congruence].
  rewrite Hc. apply Nat.eqb_neq in Hown. now rewrite Hown.
Qed.

(** A successful [save_post] on a consistent database. *)
Lemma save_post_success w session post_id collection_id :
  consistent (db w) ->
  fst (handle cs (ReqSave session post_id collection_id) w) = success ->
  exists id u t c,
    session = Some id /\ User_get (db w) id = Some u /\
    Post_get (db w) post_id <> None /\
    target_collection (db w) (User.id u) collection_id = Some t /\
    Collection_get (db w) t = Some c /\
    Collection.user_id c = User.id u /\
    find (saved_in post_id t) (saves (db w)) = None /\
    snd (handle cs (ReqSave session post_id collection_id) w) =
    mkWorld
      (mkDB (users (db w)) (posts (db w)) (collections (db w))
            (saves (db w) ++
             [Save.mk (next_id (map Save.id (saves (db w)))) post_id t]))
      (trace w).
Proof.
  intros Hcons. unfold target_collection. save_unfold.
  destruct session as [id|]; [|discriminate].
  destruct (User_get (db w) id) as [u|] eqn:Hu; [|discriminate].
  destruct (Post_get (db w) post_id) as [post|] eqn:Hp; [|discriminate].
  destruct (negb (truthy_id collection_id)).
  - destruct (default_collection_found _ _ _ Hcons Hu) as [c0 Hc0].
    unfold is_saved_of in Hc0 |- *. rewrite Hc0.
    destruct (Collection_get (db w) (Collection.id c0)) as [c|] eqn:Hc;
      [|discriminate].
    destruct (Collection.user_id c =? User.id u) eqn:Hown; [|discriminate].
    simpl.
    destruct (find _ (saves (db w))) eqn:Hf; [discriminate|].
    intros _. exists id, u, (Collection.id c0), c.
    apply Nat.eqb_eq in Hown. repeat split; auto; try congruence.
    now rewrite Hc0.
  - destruct (Collection_get (db w) (id_value collection_id)) as [c|] eqn:Hc;
      [|discriminate].
    destruct (Collection.user_id c =? User.id u) eqn:Hown; [|discriminate].
    simpl.
    destruct (find _ (saves (db w))) eqn:Hf; [discriminate|].
    intros _. exists id, u, (id_value collection_id), c.
    apply Nat.eqb_eq in Hown. repeat split; auto. congruence.
Qed.

Lemma save_count_snoc d s post_id :
  Save.post_id s = post_id ->
  save_count (mkDB (users d) (posts d) (collections d) (saves d ++ [s])) post_id =
  S (save_count d post_id).
Proof.
  intros H. unfold save_count. cbn [saves].
  rewrite filter_length_snoc, H, Nat.eqb_refl. lia.
Qed.

Lemma save_post_twice w session post_id collection_id :
  consistent (db w) ->
  fst (handle cs (ReqSave session post_id collection_id) w) = success ->
  let w1 := snd (handle cs (ReqSave session post_id collection_id) w) in
  handle cs (ReqSave session post_id collection_id) w1 = (already_saved, w1) /\
  save_count (db w1) post_id = S (save_count (db w) post_id).
Proof.
  intros Hcons Hok.
  destruct (save_post_success _ _ _ _ Hcons Hok)
    as (id & u & t & c & -> & Hu & Hp & Ht & Hc & Hown & Hnone & Hw).
  cbv zeta. rewrite Hw. split.
  - eapply save_post_conflict with (t := t) (c := c); cbn [db users posts collections saves];
      try eassumption.
    + apply in_or_app. right. left. reflexivity.
    + reflexivity.
  - apply (save_count_snoc (db w)). reflexivity.
Qed.

Lemma save_post_default_collection w id u post_id collection_id :
  User_get (db w) id = Some u ->
  Post_get (db w) post_id <> None ->
  truthy_id collection_id = false ->
  let w1 := snd (handle cs (ReqSave (Some id) post_id collection_id) w) in
  count_saved (db w1) (User.id u) = Nat.max 1 (count_saved (db w) (User.id u)).
Proof.
  intros Hu Hp Ht. cbv zeta.
  remember (Nat.max 1 (count_saved (db w) (User.id u))) as k eqn:Hk.
  save_unfold. rewrite Hu, Ht. simpl.
  destruct (Post_get (db w) post_id); [|congruence].
  destruct (find _ (collections (db w))) as [c0|] eqn:E.
  - apply find_some_filter in E.
    assert (H1 : 1 <= count_saved (db w) (User.id u)) by exact E.
    repeat (route_step; cbn [db trace fst snd users posts collections saves]);
      subst k; unfold count_saved in *; cbn [collections]; lia.
  - apply find_none_filter in E.
    assert (H0 : count_saved (db w) (User.id u) = 0)
      by (unfold count_saved, is_saved_of; now rewrite E).
    cbn [db trace fst snd users posts collections saves].
    repeat (route_step; cbn [db trace fst snd users posts collections saves]);
      subst k; unfold count_saved in *; cbn [collections];
      rewrite filter_length_snoc; unfold is_saved_of at 2;
      cbn [Collection.user_id Collection.name]; rewrite Nat.eqb_refl;
      simpl; rewrite H0; reflexivity.
Qed.

End Saving.

(** C1: in every state the requests can reach, no two Save rows have
    the same (post, collection) pair; a [save_post] call whose target
    collection already holds the post answers 400 "already saved" and
    leaves the whole database as it was; so a successful save repeated
    at once is refused, and the save count of the post has grown by
    exactly one. *)
Theorem save_pairs_stay_unique :
  forall (cs : CloudinaryStorage.t) (reqs : list Request),
    let w := run cs reqs initial in
    NoDup (map save_key (saves (db w))) /\
    (forall id u post_id collection_id t c s,
        User_get (db w) id = Some u ->
        Post_get (db w) post_id <> None ->
        target_collection (db w) (User.id u) collection_id = Some t ->
        Collection_get (db w) t = Some c ->
        Collection.user_id c = User.id u ->
        In s (saves (db w)) -> save_key s = (post_id, t) ->
        handle cs (ReqSave (Some id) post_id collection_id) w = (already_saved, w)) /\
    (forall session post_id collection_id,
        fst (handle cs (ReqSave session post_id collection_id) w) = success ->
        let w1 := snd (handle cs (ReqSave session post_id collection_id) w) in
        handle cs (ReqSave session post_id collection_id) w1 = (already_saved, w1) /\
        save_count (db w1) post_id = S (save_count (db w) post_id)).
Proof.
  intros cs reqs w.
  pose proof (run_consistent cs reqs) as Hc. fold w in Hc.
  split; [apply (save_keys_unique _ Hc)|]. split.
  - intros. eapply save_post_conflict; eassumption.
  - intros. now apply save_post_twice.
Qed.

Lemma save_pairs_stay_unique_witness :
  fst (handle (CloudinaryStorage.mk true) (ReqSave (Some 1) 1 None)
         (run (CloudinaryStorage.mk true) alice_saves_cat initial)) = already_saved.
Proof.
  pose proof (proj1 (proj2 (save_pairs_stay_unique (CloudinaryStorage.mk true)
                              alice_saves_cat))
                1 (User.mk 1 "alice" "alice@x.com" "hash") 1 None 1
                (Collection.mk 1 "Saved" "Your saved pins" 1) (Save.mk 1 1 1)
                eq_refl ltac:(discriminate) eq_refl eq_refl eq_refl
                (or_introl eq_refl) eq_refl) as H.
  exact (f_equal fst H).
Defined.

(** C2: in every state the requests can reach, each user owns exactly
    one collection named "Saved": registration creates it and
    [save_post] finds it, so no request creates a second one.  Whatever
    the database, the lazy path of [save_post] leaves the caller with
    at least one "Saved" collection and, run again, adds none. *)
Theorem one_saved_collection_per_user :
  forall (cs : CloudinaryStorage.t) (reqs : list Request),
    let w := run cs reqs initial in
    (forall u, In u (users (db w)) -> count_saved (db w) (User.id u) = 1) /\
    (forall session post_id collection_id,
        collections (db (snd (handle cs (ReqSave session post_id collection_id) w)))
        = collections (db w)) /\
    (forall w0 id u post_id collection_id,
        User_get (db w0) id = Some u ->
        Post_get (db w0) post_id <> None ->
        truthy_id collection_id = false ->
        let w1 := snd (handle cs (ReqSave (Some id) post_id collection_id) w0) in
        let w2 := snd (handle cs (ReqSave (Some id) post_id collection_id) w1) in
        count_saved (db w1) (User.id u) = Nat.max 1 (count_saved (db w0) (User.id u)) /\
        count_saved (db w2) (User.id u) = count_saved (db w1) (User.id u)).
Proof.
  intros cs reqs w.
  pose proof (run_consistent cs reqs) as Hc. fold w in Hc.
  split; [|split].
  - intros u Hin. rewrite (one_saved_each _ Hc).
    apply count_user_In; [apply (user_ids_unique _ Hc) | exact Hin].
  - intros session p c.
    destruct (save_post_db cs session p c w)
      as (_ & _ & [H|(id & u & _ & Hget & Hnone & _)] & _); [exact H|].
    destruct (default_collection_found _ _ _ Hc Hget) as [c' Hc']. congruence.
  - intros w0 id u p c Hu Hp Ht w1 w2.
    pose proof (save_post_default_collection cs w0 id u p c Hu Hp Ht) as H1.
    destruct (save_post_db cs (Some id) p c w0) as (Hus & Hps & _).
    fold w1 in H1, Hus, Hps. split; [exact H1|].
    assert (Hu1 : User_get (db w1) id = Some u)
      by (unfold User_get; rewrite Hus; exact Hu).
    assert (Hp1 : Post_get (db w1) p <> None)
      by (unfold Post_get; rewrite Hps; exact Hp).
    pose proof (save_post_default_collection cs w1 id u p c Hu1 Hp1 Ht) as H2.
    fold w2 in H2. rewrite H2, H1. lia.
Qed.

Lemma one_saved_collection_per_user_witness :
  count_saved (db (run (CloudinaryStorage.mk true) alice_saves_cat initial)) 1 = 1.
Proof.
  exact (proj1 (one_saved_collection_per_user (CloudinaryStorage.mk true)
                  alice_saves_cat)
               (User.mk 1 "alice" "alice@x.com" "hash") (or_introl eq_refl)).
Defined.

Lemma save_post_missing_post (cs : CloudinaryStorage.t) w id u post_id collection_id :
  User_get (db w) id = Some u ->
  Post_get (db w) post_id = None ->
  handle cs (ReqSave (Some id) post_id collection_id) w = (ErrorPage 404, w).
Proof. intros Hu Hp. save_unfold. now rewrite Hu, Hp. Qed.

Lemma save_post_falsy_collection_id (cs : CloudinaryStorage.t) w session post_id
    collection_id :
  truthy_id collection_id = false ->
  handle cs (ReqSave session post_id collection_id) w =
  handle cs (ReqSave session post_id None) w.
Proof.
  intros Ht. unfold handle, view_of, save_post.
  rewrite Ht. reflexivity.
Qed.

(** C5 fails as stated on two inputs.  A [collection_id] of 0 is given
    but falsy: no collection has id 0, yet alice's post 1 is saved into
    her "Saved" collection with a 200.  And for a post that does not
    exist the answer is 404 although the collection named, bob's, is
    not the caller's. *)
Lemma save_post_collection_id_zero_or_missing_post :
  Collection_get (db (run (CloudinaryStorage.mk true) alice_and_bob initial)) 0 = None /\
  fst (handle (CloudinaryStorage.mk true) (ReqSave (Some 1) 1 (Some 0))
         (run (CloudinaryStorage.mk true) alice_and_bob initial)) = success /\
  saves (db (snd (handle (CloudinaryStorage.mk true) (ReqSave (Some 1) 1 (Some 0))
                    (run (CloudinaryStorage.mk true) alice_and_bob initial))))
  = [Save.mk 1 1 1] /\
  Collection_get (db (run (CloudinaryStorage.mk true) alice_and_bob initial)) 2
  = Some (Collection.mk 2 "Saved" "Your saved pins" 2) /\
  fst (handle (CloudinaryStorage.mk true) (ReqSave (Some 1) 9 (Some 2))
         (run (CloudinaryStorage.mk true) alice_and_bob initial)) = ErrorPage 404 /\
  fst (handle (CloudinaryStorage.mk true) (ReqSave (Some 1) 9 (Some 2))
         (run (CloudinaryStorage.mk true) alice_and_bob initial))
  <> Json [("error", "Unauthorized")] 403.
Proof. repeat split. discriminate. Qed.

(** C5, amended: for a logged-in caller and a collection id that is
    given and not zero, the answer is the 404 page when no collection
    has that id, and 403 "Unauthorized" when the post exists and the
    collection belongs to someone else; a post that does not exist is
    answered with the 404 page before any collection is looked at; in
    all three cases nothing is written.  A collection id of 0 or null
    is treated as no collection id at all. *)
Theorem save_post_explicit_collection_errors :
  forall (cs : CloudinaryStorage.t) (w : World) (id : nat) (u : User.t)
         (post_id : nat) (collection_id : option nat),
    User_get (db w) id = Some u ->
    (truthy_id collection_id = true ->
     Collection_get (db w) (id_value collection_id) = None ->
     handle cs (ReqSave (Some id) post_id collection_id) w = (ErrorPage 404, w)) /\
    (truthy_id collection_id = true ->
     forall c,
       Post_get (db w) post_id <> None ->
       Collection_get (db w) (id_value collection_id) = Some c ->
       Collection.user_id c <> User.id u ->
       handle cs (ReqSave (Some id) post_id collection_id) w =
       (Json [("error", "Unauthorized")] 403, w)) /\
    (Post_get (db w) post_id = None ->
     handle cs (ReqSave (Some id) post_id collection_id) w = (ErrorPage 404, w)) /\
    (truthy_id collection_id = false ->
     handle cs (ReqSave (Some id) post_id collection_id) w =
     handle cs (ReqSave (Some id) post_id None) w).
Proof.
  intros cs w id u p c Hu. repeat split.
  - intros Ht Hc. eapply save_post_collection_missing; eassumption.
  - intros Ht col Hp Hc Hown. eapply save_post_unauthorized; eassumption.
  - intros Hp. eapply save_post_missing_post; eassumption.
  - intros Ht. now apply save_post_falsy_collection_id.
Qed.

Lemma save_post_explicit_collection_errors_witness :
  let cs := CloudinaryStorage.mk true in
  let w := run cs alice_and_bob initial in
  handle cs (ReqSave (Some 1) 1 (Some 7)) w = (ErrorPage 404, w) /\
  handle cs (ReqSave (Some 1) 1 (Some 2)) w = (Json [("error", "Unauthorized")] 403, w).
Proof.
  intros cs w. split.
  - exact (proj1 (save_post_explicit_collection_errors cs w 1
                    (User.mk 1 "alice" "alice@x.com" "hash") 1 (Some 7) eq_refl)
                 eq_refl eq_refl).
  - refine (proj1 (proj2 (save_post_explicit_collection_errors cs w 1
                            (User.mk 1 "alice" "alice@x.com" "hash") 1 (Some 2)
                            eq_refl))
                  eq_refl (Collection.mk 2 "Saved" "Your saved pins" 2) _ eq_refl _);
      discriminate.
Defined.

(** *** Unsaving *)

Section Unsaving.

Local Open Scope nat_scope.

Variable cs : CloudinaryStorage.t.

Lemma NoDup_map_inj {A B} (g : A -> B) (l : list A) (a b : A) :
  NoDup (map g l) -> In a l -> In b l -> g a = g b -> a = b.
Proof.
  induction l as [|x l IH]; simpl; [tauto|].
  intros Hnd Ha Hb E. inversion Hnd as [|? ? Hx Hl]; subst.
  destruct Ha as [->|Ha], Hb as [->|Hb]; auto.
  - exfalso. apply Hx. rewrite E. now apply in_map.
  - exfalso. apply Hx. rewrite <- E. now apply in_map.
Qed.

(** Deleting the rows found by a query removes exactly the rows the
    query selects, when primary keys are unique. *)
Lemma without_selected (q : Save.t -> bool) (found l : list Save.t) :
  NoDup (map Save.id l) ->
  (forall s, In s found <-> In s l /\ q s = true) ->
  without found l = filter (fun s => negb (q s)) l.
Proof.
  intros Hnd Hfound. unfold without. apply filter_ext_in.
  intros s Hs. f_equal.
  destruct (q s) eqn:Hq.
  - apply existsb_exists. exists s. split; [|apply Nat.eqb_refl].
    apply Hfound. now split.
  - destruct (existsb (fun f => Save.id s =? Save.id f) found) eqn:E;
      [|reflexivity].
    apply existsb_exists in E. destruct E as (f & Hf & He).
    apply Hfound in Hf. destruct Hf as [Hfl Hqf].
    apply Nat.eqb_eq in He.
    rewrite (NoDup_map_inj Save.id l s f Hnd Hs Hfl He) in Hq. congruence.
Qed.

Lemma filter_nil_iff {A} (q : A -> bool) (l : list A) :
  filter q l = [] <-> existsb q l = false.
Proof.
  induction l as [|x l IH]; simpl; [tauto|].
  destruct (q x); simpl; [split; discriminate | exact IH].
Qed.

Lemma found_everywhere_nil d user_id post_id :
  found_everywhere d user_id post_id = [] <->
  existsb (saved_by d user_id post_id) (saves d) = false.
Proof.
  rewrite <- filter_nil_iff. split; intros H.
  - destruct (filter _ (saves d)) as [|s l] eqn:E; [reflexivity|].
    assert (Hs : In s (found_everywhere d user_id post_id)).
    { apply found_everywhere_In. apply filter_In. rewrite E. now left. }
    rewrite H in Hs. destruct Hs.
  - destruct (found_everywhere d user_id post_id) as [|s l] eqn:E; [reflexivity|].
    assert (Hs : In s (filter (saved_by d user_id post_id) (saves d))).
    { apply filter_In. apply found_everywhere_In. rewrite E. now left. }
    rewrite H in Hs. destruct Hs.
Qed.

Lemma unsave_post_everywhere w id u post_id collection_id :
  User_get (db w) id = Some u ->
  truthy_id collection_id = false ->
  NoDup (map Save.id (saves (db w))) ->
  handle cs (ReqUnsave (Some id) post_id collection_id) w =
  if existsb (saved_by (db w) (User.id u) post_id) (saves (db w)) then
    (success,
     mkWorld (mkDB (users (db w)) (posts (db w)) (collections (db w))
                   (filter (fun s => negb (saved_by (db w) (User.id u) post_id s))
                           (saves (db w))))
             (trace w))
  else (not_saved, w).
Proof.
  intros Hu Ht Hnd. unfold handle, dispatch, view_of.
  rewrite unsave_post_eq, Hu, Ht. cbn [negb]. rewrite unsave_found_eq.
  destruct (existsb _ (saves (db w))) eqn:E.
  - destruct (found_everywhere (db w) (User.id u) post_id) as [|f l] eqn:Ef.
    + apply found_everywhere_nil in Ef. congruence.
    + rewrite <- Ef.
      rewrite (without_selected (saved_by (db w) (User.id u) post_id) _ _ Hnd
                 (found_everywhere_In _ _ _)).
      reflexivity.
  - apply found_everywhere_nil in E. rewrite E. reflexivity.
Qed.

Lemma unsave_post_in_collection w id u post_id collection_id c :
  User_get (db w) id = Some u ->
  truthy_id collection_id = true ->
  Collection_get (db w) (id_value collection_id) = Some c ->
  Collection.user_id c = User.id u ->
  existsb (saved_in post_id (id_value collection_id)) (saves (db w)) = false ->
  handle cs (ReqUnsave (Some id) post_id collection_id) w = (not_saved, w).
Proof.
  intros Hu Ht Hc Hown Hnone. unfold handle, dispatch, view_of.
  rewrite unsave_post_eq, Hu, Ht, Hc, Hown, Nat.eqb_refl. cbn [negb].
  rewrite unsave_found_eq. apply filter_nil_iff in Hnone. now rewrite Hnone.
Qed.

Lemma unsave_post_unauthorized w id u post_id collection_id c :
  User_get (db w) id = Some u ->
  truthy_id collection_id = true ->
  Collection_get (db w) (id_value collection_id) = Some c ->
  Collection.user_id c <> User.id u ->
  handle cs (ReqUnsave (Some id) post_id collection_id) w =
  (Json [("error", "Unauthorized")] 403, w).
Proof.
  intros Hu Ht Hc Hown. unfold handle, dispatch, view_of.
  apply Nat.eqb_neq in Hown.
  rewrite unsave_post_eq, Hu, Ht, Hc, Hown. reflexivity.
Qed.

Lemma unsave_post_collection_missing w id u post_id collection_id :
  User_get (db w) id = Some u ->
  truthy_id collection_id = true ->
  Collection_get (db w) (id_value collection_id) = None ->
  handle cs (ReqUnsave (Some id) post_id collection_id) w = (ErrorPage 404, w).
Proof.
  intros Hu Ht Hc. unfold handle, dispatch, view_of.
  rewrite unsave_post_eq, Hu, Ht, Hc. reflexivity.
Qed.

End Unsaving.

Section UnsavingEffects.

Local Open Scope nat_scope.

Variable cs : CloudinaryStorage.t.

Lemma filter_negb_all {A} (q : A -> bool) (l : list A) :
  existsb q l = false -> filter (fun x => negb (q x)) l = l.
Proof.
  induction l as [|x l IH]; simpl; [reflexivity|].
  destruct (q x); simpl; [discriminate|]. intros H. now rewrite IH.
Qed.

Lemma unsave_post_nothing_saved w id u post_id collection_id :
  User_get (db w) id = Some u ->
  truthy_id collection_id = false ->
  existsb (saved_by (db w) (User.id u) post_id) (saves (db w)) = false ->
  handle cs (ReqUnsave (Some id) post_id collection_id) w = (not_saved, w).
Proof.
  intros Hu Ht Hnone. unfold handle, dispatch, view_of.
  rewrite unsave_post_eq, Hu, Ht. cbn [negb]. rewrite unsave_found_eq.
  apply found_everywhere_nil in Hnone. now rewrite Hnone.
Qed.

End UnsavingEffects.

(** C3: [unsave_post] without a collection deletes every save of the
    post that lies in a collection the caller owns, whichever
    collection that is, and no other row: the saves left are exactly
    those that are not such a save.  It answers 200 when there was one
    and 404 otherwise.  (Primary keys of [save] are unique.) *)
Theorem unsave_post_removes_from_every_collection :
  forall (cs : CloudinaryStorage.t) (w : World) (id : nat) (u : User.t)
         (post_id : nat) (collection_id : option nat),
    User_get (db w) id = Some u ->
    truthy_id collection_id = false ->
    NoDup (map Save.id (saves (db w))) ->
    let out := handle cs (ReqUnsave (Some id) post_id collection_id) w in
    saves (db (snd out)) =
    filter (fun s => negb (saved_by (db w) (User.id u) post_id s)) (saves (db w)) /\
    users (db (snd out)) = users (db w) /\
    posts (db (snd out)) = posts (db w) /\
    collections (db (snd out)) = collections (db w) /\
    (forall s, In s (saves (db w)) ->
               saved_by (db w) (User.id u) post_id s = true ->
               ~ In s (saves (db (snd out))) /\ fst out = success) /\
    (existsb (saved_by (db w) (User.id u) post_id) (saves (db w)) = false ->
     fst out = not_saved).
Proof.
  intros cs w id u p c Hu Ht Hnd out.
  assert (Hsaves : saves (db (snd out)) =
                   filter (fun s => negb (saved_by (db w) (User.id u) p s))
                          (saves (db w))).
  { unfold out. rewrite (unsave_post_everywhere cs w id u p c Hu Ht Hnd).
    destruct (existsb _ (saves (db w))) eqn:E; [reflexivity|].
    simpl. now rewrite filter_negb_all. }
  destruct (unsave_db cs (Some id) p c w) as (Hus & Hps & Hcs & _).
  fold out in Hus, Hps, Hcs.
  repeat split; try assumption.
  - rewrite Hsaves. intros Hin. apply filter_In in Hin.
    destruct Hin as [_ Hq]. rewrite H0 in Hq. discriminate.
  - unfold out. rewrite (unsave_post_everywhere cs w id u p c Hu Ht Hnd).
    replace (existsb (saved_by (db w) (User.id u) p) (saves (db w))) with true;
      [reflexivity|].
    symmetry. apply existsb_exists. now exists s.
  - intros E. unfold out.
    rewrite (unsave_post_everywhere cs w id u p c Hu Ht Hnd), E. reflexivity.
Qed.

Lemma unsave_post_removes_from_every_collection_witness :
  saves (db (snd (handle (CloudinaryStorage.mk true) (ReqUnsave (Some 1) 1 None)
                    saved_in_two_collections)))
  = [Save.mk 3 1 3].
Proof.
  refine (eq_trans
            (proj1 (unsave_post_removes_from_every_collection
                      (CloudinaryStorage.mk true) saved_in_two_collections 1
                      (User.mk 1 "alice" "alice@x.com" "hash") 1 None
                      eq_refl eq_refl _))
            eq_refl).
  repeat constructor; simpl; intuition discriminate.
Defined.

(** C6 fails as stated: alice asks to unsave post 1 from bob's
    collection 2, which holds no save of it; the ownership check comes
    first and the answer is 403, not 404. *)
Lemma unsave_post_foreign_collection_is_403 :
  filter (saved_in 1 2)
         (saves (db (run (CloudinaryStorage.mk true) alice_and_bob initial))) = [] /\
  fst (handle (CloudinaryStorage.mk true) (ReqUnsave (Some 1) 1 (Some 2))
         (run (CloudinaryStorage.mk true) alice_and_bob initial))
  = Json [("error", "Unauthorized")] 403 /\
  fst (handle (CloudinaryStorage.mk true) (ReqUnsave (Some 1) 1 (Some 2))
         (run (CloudinaryStorage.mk true) alice_and_bob initial))
  <> not_saved.
Proof. repeat split. discriminate. Qed.

Lemma unsave_post_falsy_collection_id (cs : CloudinaryStorage.t) w session post_id
    collection_id :
  truthy_id collection_id = false ->
  handle cs (ReqUnsave session post_id collection_id) w =
  handle cs (ReqUnsave session post_id None) w.
Proof.
  intros Ht. unfold handle, view_of, unsave_post.
  rewrite Ht. reflexivity.
Qed.

(** C6, amended: for a logged-in caller the answer is 404 and the
    world is unchanged when the collection id is omitted, null or 0
    (the code treats the three alike) and no save of the post lies in
    a collection of the caller; when a non-zero id names a collection
    of the caller that holds no save of the post; and when a non-zero
    id names no collection.  When a non-zero id names a collection of
    someone else the answer is 403, again with nothing removed. *)
Theorem unsave_post_not_found_when_nothing_matches :
  forall (cs : CloudinaryStorage.t) (w : World) (id : nat) (u : User.t)
         (post_id : nat) (collection_id : option nat),
    User_get (db w) id = Some u ->
    (truthy_id collection_id = false ->
     existsb (saved_by (db w) (User.id u) post_id) (saves (db w)) = false ->
     handle cs (ReqUnsave (Some id) post_id collection_id) w = (not_saved, w)) /\
    (truthy_id collection_id = true ->
     forall c,
       Collection_get (db w) (id_value collection_id) = Some c ->
       Collection.user_id c = User.id u ->
       existsb (saved_in post_id (id_value collection_id)) (saves (db w)) = false ->
       handle cs (ReqUnsave (Some id) post_id collection_id) w = (not_saved, w)) /\
    (truthy_id collection_id = true ->
     Collection_get (db w) (id_value collection_id) = None ->
     handle cs (ReqUnsave (Some id) post_id collection_id) w = (ErrorPage 404, w)) /\
    (truthy_id collection_id = true ->
     forall c,
       Collection_get (db w) (id_value collection_id) = Some c ->
       Collection.user_id c <> User.id u ->
       handle cs (ReqUnsave (Some id) post_id collection_id) w =
       (Json [("error", "Unauthorized")] 403, w)) /\
    (truthy_id collection_id = false ->
     handle cs (ReqUnsave (Some id) post_id collection_id) w =
     handle cs (ReqUnsave (Some id) post_id None) w).
Proof.
  intros cs w id u p c Hu. repeat split.
  - intros. eapply unsave_post_nothing_saved; eassumption.
  - intros. eapply unsave_post_in_collection; eassumption.
  - intros. eapply unsave_post_collection_missing; eassumption.
  - intros. eapply unsave_post_unauthorized; eassumption.
  - intros. now apply unsave_post_falsy_collection_id.
Qed.

Lemma unsave_post_not_found_when_nothing_matches_witness :
  handle (CloudinaryStorage.mk true) (ReqUnsave (Some 1) 1 None)
    (run (CloudinaryStorage.mk true) alice_and_bob initial)
  = (not_saved, run (CloudinaryStorage.mk true) alice_and_bob initial).
Proof.
  exact (proj1 (unsave_post_not_found_when_nothing_matches
                  (CloudinaryStorage.mk true)
                  (run (CloudinaryStorage.mk true) alice_and_bob initial) 1
                  (User.mk 1 "alice" "alice@x.com" "hash") 1 None eq_refl)
               eq_refl eq_refl).
Defined.

(** * Further properties *)

(** ** More on the storage back ends *)

Lemma mem_allowed_split (x : string) :
  mem x ALLOWED_EXTENSIONS =
  mem x ["jpg"; "jpeg"; "png"; "gif"] || mem x ["mp4"; "mov"; "webm"].
Proof.
  unfold mem, ALLOWED_EXTENSIONS. simpl.
  repeat match goal with
         | |- context [String.eqb x ?lit] => destruct (String.eqb x lit)
         end; reflexivity.
Qed.

Lemma allowed_file_with_dot (stem ext : string) :
  contains dot ext = false ->
  FilesystemStorage.allowed_file (stem ++ String dot ext) =
  Return (mem (lower ext) ALLOWED_EXTENSIONS).
Proof.
  intros H. unfold FilesystemStorage.allowed_file.
  destruct (extension_of_app stem ext H) as [-> ->]. reflexivity.
Qed.

(** X1: [get_file_type] and [allowed_file] draw the same line.  On
    every file name exactly one of three things happens: the name has
    no dot, [allowed_file] refuses it and [get_file_type] raises
    [IndexError]; or it has a dot and is refused, and [get_file_type]
    returns [None]; or it is accepted, and [get_file_type] returns
    "image" or "video". *)
Theorem get_file_type_agrees_with_allowed_file :
  forall filename : string,
    (contains dot filename = false /\
     FilesystemStorage.allowed_file filename = Return false /\
     FilesystemStorage.get_file_type filename = Raise IndexError) \/
    (contains dot filename = true /\
     FilesystemStorage.allowed_file filename = Return false /\
     FilesystemStorage.get_file_type filename = Return None) \/
    (contains dot filename = true /\
     FilesystemStorage.allowed_file filename = Return true /\
     (FilesystemStorage.get_file_type filename = Return (Some "image") \/
      FilesystemStorage.get_file_type filename = Return (Some "video"))).
Proof.
  intros filename. destruct (contains dot filename) eqn:Hdot.
  - right. destruct (extension_with_dot _ Hdot) as (stem & ext & -> & Hext & _).
    rewrite (allowed_file_with_dot _ _ Hext), (get_file_type_with_dot _ _ Hext).
    rewrite mem_allowed_split.
    destruct (mem (lower ext) ["jpg"; "jpeg"; "png"; "gif"]);
      destruct (mem (lower ext) ["mp4"; "mov"; "webm"]); cbn [orb]; auto 6.
  - left. split; [reflexivity|]. split.
    + unfold FilesystemStorage.allowed_file. now rewrite Hdot.
    + now apply get_file_type_without_dot.
Qed.

(** X2: [CloudinaryStorage.upload_file] never raises.  It returns a URL
    exactly when the back end is configured and the SDK answered with
    a dictionary holding [secure_url]; the kind is then "image" when
    the response says so and "video" for every other resource type.
    A missing [secure_url] or a raising SDK gives [(None, None)].  The
    SDK is called once when configured and not at all otherwise, and
    no raw HTTP request is made. *)
Theorem cloudinary_upload_file_result :
  forall (self : CloudinaryStorage.t) (file_data : bytes) (folder : string)
         (public_id : option string) (resource_type : string)
         (answer : result dict) (w : World),
    exists evs,
      CloudinaryStorage.upload_file self file_data folder public_id
        resource_type answer w =
      (Return (cloudinary_result self answer), mkWorld (db w) (trace w ++ evs)) /\
      count_events is_client_upload evs =
      (if CloudinaryStorage.is_configured self then 1 else 0) /\
      count_events is_requests_post evs = 0.
Proof.
  intros self data folder pid rt answer w.
  unfold CloudinaryStorage.upload_file, cloudinary_result, dict_getitem.
  destruct (CloudinaryStorage.is_configured self); cbn [negb]; py_unfold.
  - destruct answer as [response|e]; py_trace.
    + destruct (dict_get response "secure_url") as [url|]; py_trace;
        eexists; (split; [reflexivity|]); split; reflexivity.
    + eexists; (split; [reflexivity|]); split; reflexivity.
  - eexists; (split; [reflexivity|]); split; reflexivity.
Qed.

(** X3: the Supabase client, once created, never lets an exception
    out of [upload_file]; it calls the Python client once, and makes
    one raw HTTP request when that client failed and none when it
    succeeded, in which case it returns the URL the client gave. *)
Theorem supabase_upload_file_requests :
  forall (url key : string) (file_data : bytes) (file_path content_type : string)
         (ans : SupabaseClient.Answers) (w : World),
    truthy url = true -> truthy key = true ->
    exists r evs,
      SupabaseClient.upload_file (SupabaseClient.mkEnv (Some url) (Some key))
        (SupabaseClient.init (SupabaseClient.mkEnv (Some url) (Some key)))
        file_data file_path content_type ans w =
      (Return r, mkWorld (db w) (trace w ++ evs)) /\
      count_events is_client_upload evs = 1 /\
      count_events is_requests_post evs = (if client_fails ans then 1 else 0) /\
      (client_fails ans = false ->
       SupabaseClient.client_get_public_url ans = Return (fmt r) /\ r <> None).
Proof.
  intros url key data path ct ans w Hu Hk.
  destruct (client_fails ans) eqn:Hf.
  - destruct (supabase_upload_fallback url key data path ct ans w Hu Hk Hf)
      as (evs & H & Hn & _ & _ & Hc).
    exists (fallback_result url path ans), evs.
    split; [exact H|]. split; [exact Hc|]. split; [exact Hn|]. discriminate.
  - rewrite (supabase_init_configured _ _ Hu Hk).
    unfold SupabaseClient.upload_file, client_fails in *.
    destruct ans as [up pub post]. cbn [SupabaseClient.supabase
      SupabaseClient.client_upload SupabaseClient.client_get_public_url
      SupabaseClient.requests_post SupabaseClient.client_url
      SupabaseClient.client_key] in *.
    py_unfold.
    destruct up as [[]|e1]; [|discriminate].
    destruct pub as [u|e2]; [|discriminate].
    py_trace. exists (Some u). eexists. split; [reflexivity|].
    split; [reflexivity|]. split; [reflexivity|]. intros _. split; [reflexivity|].
    discriminate.
Qed.

Lemma supabase_upload_file_requests_witness :
  exists r evs,
    SupabaseClient.upload_file
      (SupabaseClient.mkEnv (Some "https://p.supabase.co") (Some "anon"))
      (SupabaseClient.init
         (SupabaseClient.mkEnv (Some "https://p.supabase.co") (Some "anon")))
      [] "cat.jpg" "image/jpeg"
      (SupabaseClient.mkAnswers (Return tt) (Return "https://cdn/cat.jpg")
         (Raise (Exception "unused")))
      initial =
    (Return r, mkWorld empty_db evs) /\
    count_events is_requests_post evs = 0.
Proof.
  destruct (supabase_upload_file_requests
              "https://p.supabase.co" "anon" [] "cat.jpg" "image/jpeg"
              (SupabaseClient.mkAnswers (Return tt) (Return "https://cdn/cat.jpg")
                 (Raise (Exception "unused")))
              initial eq_refl eq_refl)
    as (r & evs & H & _ & Hn & _).
  exists r, evs. split; [exact H | exact Hn].
Defined.

(** *** Strings and paths *)

Lemma append_assoc (a b c : string) : (a ++ b) ++ c = a ++ (b ++ c).
Proof. induction a as [|x a IH]; simpl; [reflexivity | now rewrite IH]. Qed.

Lemma truthy_app_r (a b : string) : truthy b = true -> truthy (a ++ b) = true.
Proof. destruct a; simpl; auto. Qed.

Lemma endswith_app (c : ascii) (a b : string) :
  truthy b = true -> endswith c (a ++ b) = endswith c b.
Proof.
  intros Hb. induction a as [|x a IH]; [reflexivity|].
  cbn [append]. pose proof (truthy_app_r a b Hb) as Hab.
  destruct (a ++ b) as [|y rest] eqn:E; [discriminate|].
  cbn [endswith]. exact IH.
Qed.

Lemma startswith_slash_app (a b : string) :
  truthy a = true -> startswith "/" (a ++ b) = startswith "/" a.
Proof.
  destruct a as [|x a]; [discriminate|]. intros _. reflexivity.
Qed.

(** Joining onto [a/b] is joining onto [a] and then [b], when [a] is a
    plain component and [b] is not absolute. *)
Lemma join2_nested (x a b : string) :
  truthy a = true -> startswith "/" a = false ->
  endswith PosixPath.sep a = false -> startswith "/" b = false ->
  PosixPath.join2 x (a ++ String PosixPath.sep b) =
  PosixPath.join2 (PosixPath.join2 x a) b.
Proof.
  intros Ha Hsa Hea Hb. unfold PosixPath.join2.
  rewrite (startswith_slash_app a _ Ha), Hsa, Hb.
  destruct (negb (truthy x) || endswith PosixPath.sep x).
  - rewrite (truthy_app_r x a Ha), (endswith_app _ x a Ha), Hea. simpl.
    now rewrite append_assoc.
  - assert (Hsa' : truthy (String PosixPath.sep a) = true) by reflexivity.
    rewrite (truthy_app_r x _ Hsa'), (endswith_app _ x _ Hsa').
    replace (endswith PosixPath.sep (String PosixPath.sep a)) with false.
    + simpl. now rewrite append_assoc.
    + destruct a; [discriminate|]. symmetry. exact Hea.
Qed.

Lemma upload_path_of_url (cwd subfolder name : string) :
  subfolder = "images" \/ subfolder = "videos" ->
  startswith "/" name = false ->
  PosixPath.join [cwd; "static/uploads/" ++ subfolder ++ "/" ++ name] =
  PosixPath.join [upload_folder cwd; subfolder; name].
Proof.
  intros Hsub Hname. unfold upload_folder, PosixPath.join. cbn [fold_left].
  destruct Hsub as [-> | ->].
  - change ("static/uploads/" ++ "images" ++ "/" ++ name)
      with ("static/uploads/images" ++ String PosixPath.sep name).
    rewrite join2_nested by (reflexivity || assumption). f_equal.
    change "static/uploads/images"
      with ("static/uploads" ++ String PosixPath.sep "images").
    rewrite join2_nested by reflexivity. f_equal.
    change "static/uploads" with ("static" ++ String PosixPath.sep "uploads").
    now rewrite join2_nested by reflexivity.
  - change ("static/uploads/" ++ "videos" ++ "/" ++ name)
      with ("static/uploads/videos" ++ String PosixPath.sep name).
    rewrite join2_nested by (reflexivity || assumption). f_equal.
    change "static/uploads/videos"
      with ("static/uploads" ++ String PosixPath.sep "videos").
    rewrite join2_nested by reflexivity. f_equal.
    change "static/uploads" with ("static" ++ String PosixPath.sep "uploads").
    now rewrite join2_nested by reflexivity.
Qed.

Section FilesystemRoundTrip.

Variable secure_filename : string -> string.
Variable os_getcwd : string.
Variable os_path_exists : string -> bool.
Variable os_remove : string -> result unit.

Lemma filesystem_delete_file_eq (os_path_join : list string -> string)
    (file_url : string) (w : World) :
  let file_path :=
    os_path_join [os_getcwd;
                  if startswith "/" file_url then tail file_url else file_url] in
  FilesystemStorage.delete_file os_path_join os_getcwd os_path_exists os_remove
    file_url w =
  (Return (os_path_exists file_path && returned (os_remove file_path)),
   mkWorld (db w)
     (trace w ++
      [if os_path_exists file_path then
         match os_remove file_path with
         | Return _ => Log INFO ("File deleted successfully: " ++ file_path)
         | Raise e => Log ERROR ("Error deleting file: " ++ exn_str e)
         end
       else Log WARNING ("File does not exist: " ++ file_path)])).
Proof.
  cbv zeta. unfold FilesystemStorage.delete_file. py_unfold.
  destruct (os_path_exists _); [|reflexivity].
  destruct (os_remove _) as [[]|e]; reflexivity.
Qed.

Lemma save_file_written (os_path_join : list string -> string) (folder : string)
    file_data original_filename custom_filename w :
  FilesystemStorage.allowed_file original_filename = Return true ->
  exists kind subfolder,
    ((kind = "image" /\ subfolder = "images") \/
     (kind = "video" /\ subfolder = "videos")) /\
    FilesystemStorage.get_file_type original_filename = Return (Some kind) /\
    let name := secure_filename
                  (if truthy_opt custom_filename then fmt custom_filename
                   else original_filename) in
    let file_path := os_path_join [folder; subfolder; name] in
    FilesystemStorage.save_file secure_filename os_path_join folder
      file_data original_filename custom_filename (Return tt) w =
    (Return (Some ("/static/uploads/" ++ subfolder ++ "/" ++ name), Some kind),
     mkWorld (db w)
       (trace w ++ [FileWrite file_path file_data;
                    Log INFO ("File saved successfully: " ++ file_path)])).
Proof.
  intros H.
  unfold FilesystemStorage.save_file, try_except, bind, lift.
  rewrite H.
  destruct (allowed_file_get_file_type _ H) as [E|E]; rewrite E.
  - exists "image", "images". split; [now left|]. split; [reflexivity|].
    simpl; rewrite <- ?app_assoc; reflexivity.
  - exists "video", "videos". split; [now right|]. split; [reflexivity|].
    simpl; rewrite <- ?app_assoc; reflexivity.
Qed.

End FilesystemRoundTrip.

(** X4: what [save_file] stores, [delete_file] finds.  With POSIX
    paths and [UPLOAD_FOLDER = join(cwd, 'static', 'uploads')], an
    accepted file whose secure name is not absolute is written to one
    path, under [images/] or [videos/] according to its kind, and
    [delete_file] applied to the URL [save_file] returned tests and
    removes that very path; it returns [True] exactly when the path
    existed and [os.remove] did not raise, and never raises itself. *)
Theorem save_file_then_delete_file :
  forall (secure_filename : string -> string) (os_getcwd : string)
         (os_path_exists : string -> bool) (os_remove : string -> result unit)
         (file_data : bytes) (original_filename : string)
         (custom_filename : option string) (w w' : World),
    FilesystemStorage.allowed_file original_filename = Return true ->
    startswith "/"
      (secure_filename (if truthy_opt custom_filename then fmt custom_filename
                        else original_filename)) = false ->
    exists file_url kind file_path evs,
      FilesystemStorage.save_file secure_filename PosixPath.join
        (upload_folder os_getcwd) file_data original_filename custom_filename
        (Return tt) w =
      (Return (Some file_url, Some kind),
       mkWorld (db w)
         (trace w ++ [FileWrite file_path file_data;
                      Log INFO ("File saved successfully: " ++ file_path)])) /\
      FilesystemStorage.get_file_type original_filename = Return (Some kind) /\
      FilesystemStorage.delete_file PosixPath.join os_getcwd os_path_exists
        os_remove file_url w' =
      (Return (os_path_exists file_path && returned (os_remove file_path)),
       mkWorld (db w') (trace w' ++ evs)).
Proof.
  intros sf cwd ex rm data name custom w w' Hallowed Hname.
  destruct (save_file_written sf PosixPath.join (upload_folder cwd)
              data name custom w Hallowed)
    as (kind & sub & Hsub & Hkind & Hsave).
  cbv zeta in Hsave.
  eexists; exists kind; eexists; eexists.
  split; [exact Hsave|]. split; [exact Hkind|].
  rewrite filesystem_delete_file_eq. cbv zeta.
  assert (Hs : sub = "images" \/ sub = "videos") by tauto.
  replace (startswith "/" ("/static/uploads/" ++ sub ++ "/" ++ _)) with true
    by reflexivity.
  change (tail ("/static/uploads/" ++ sub ++ "/" ++ ?n))
    with ("static/uploads/" ++ sub ++ "/" ++ n).
  rewrite (upload_path_of_url cwd sub _ Hs Hname). reflexivity.
Qed.

Lemma save_file_then_delete_file_witness :
  exists file_url kind file_path evs,
    FilesystemStorage.save_file (fun name => name) PosixPath.join
      (upload_folder "/srv/app") [] "cat.JPG" None (Return tt) initial =
    (Return (Some file_url, Some kind),
     mkWorld empty_db
       [FileWrite file_path []; Log INFO ("File saved successfully: " ++ file_path)]) /\
    FilesystemStorage.delete_file PosixPath.join "/srv/app"
      (fun _ => true) (fun _ => Return tt) file_url initial =
    (Return true, mkWorld empty_db evs).
Proof.
  destruct (save_file_then_delete_file (fun name => name) "/srv/app"
              (fun _ => true) (fun _ => Return tt) [] "cat.JPG" None
              initial initial eq_refl eq_refl)
    as (url & kind & path & evs & Hs & _ & Hd).
  exists url, kind, path, evs. split; [exact Hs | exact Hd].
Defined.

(** *** Splitting and joining *)

Lemma split_nonempty (c : ascii) (s : string) : split c s <> [].
Proof.
  destruct s as [|x s]; simpl; [discriminate|].
  destruct (Ascii.eqb x c); [discriminate|].
  destruct (split c s); discriminate.
Qed.

Lemma split_app (c : ascii) (a b : string) :
  split c (a ++ String c b) = (split c a ++ split c b)%list.
Proof.
  induction a as [|x a IH]; simpl.
  - now rewrite Ascii.eqb_refl.
  - destruct (Ascii.eqb x c); [now rewrite IH|].
    rewrite IH. pose proof (split_nonempty c a) as Hne.
    destruct (split c a); [congruence | reflexivity].
Qed.

Lemma split_without_sep (c : ascii) (s : string) :
  contains c s = false -> split c s = [s].
Proof.
  induction s as [|x s IH]; simpl; [reflexivity|].
  intros H. apply orb_false_iff in H. destruct H as [Hx Hs].
  rewrite Hx, (IH Hs). reflexivity.
Qed.

Lemma join_split (c : ascii) (s : string) : join c (split c s) = s.
Proof.
  induction s as [|x s IH]; [reflexivity|].
  pose proof (split_nonempty c s) as Hne. simpl.
  destruct (Ascii.eqb x c) eqn:E.
  - apply Ascii.eqb_eq in E. subst x.
    destruct (split c s) as [|piece pieces]; [congruence|].
    cbn [join]. cbn [join] in IH. simpl. now rewrite IH.
  - destruct (split c s) as [|piece pieces]; [congruence|].
    destruct pieces as [|piece' pieces].
    + simpl in *. now rewrite IH.
    + cbn [join] in *. simpl. now rewrite IH.
Qed.

Lemma startswith_app (p a b : string) :
  startswith p a = true -> startswith p (a ++ b) = true.
Proof.
  revert a. induction p as [|x p IH]; intros a H; [reflexivity|].
  destruct a as [|y a]; [discriminate|]. simpl in *.
  apply andb_true_iff in H. destruct H as [-> H]. simpl. now apply IH.
Qed.

Lemma list_index_app (x : string) (before after : list string) :
  ~ In x before -> list_index x (before ++ x :: after) = length before.
Proof.
  induction before as [|y before IH]; simpl; intros H.
  - now rewrite String.eqb_refl.
  - destruct (String.eqb y x) eqn:E.
    + apply String.eqb_eq in E. tauto.
    + f_equal. apply IH. tauto.
Qed.

Lemma skipn_app_two {A} (before : list A) (x y : A) (after : list A) :
  skipn (length before + 2) (before ++ x :: y :: after) = after.
Proof. induction before as [|z before IH]; simpl; [reflexivity | exact IH]. Qed.

Lemma rsplit1_stem (name : string) :
  (if contains dot name then index (rsplit1 dot name) 0 else Return name) =
  Return (without_extension name).
Proof.
  unfold without_extension, rsplit1.
  destruct (cut_last dot name) as [[stem ext]|] eqn:E.
  - destruct (contains dot name) eqn:C; [reflexivity|].
    apply cut_last_none in C. congruence.
  - apply cut_last_none in E. now rewrite E.
Qed.

(** The public id [delete_file] reads out of a delivery URL. *)
Lemma public_id_of_delivery_url (base version rest : string) :
  startswith "http" base = true ->
  ~ In "upload" (split "/" base) ->
  contains "/" version = false ->
  CloudinaryStorage.public_id_of (delivery_url base version rest) =
  Return (without_extension rest).
Proof.
  intros Hhttp Hbase Hversion.
  unfold CloudinaryStorage.public_id_of, delivery_url.
  rewrite (startswith_app _ _ _ Hhttp).
  change (base ++ "/upload/" ++ version ++ "/" ++ rest)
    with (base ++ String "/" ("upload" ++ String "/" (version ++ String "/" rest))).
  rewrite !split_app, (split_without_sep _ _ Hversion).
  change (split "/" "upload") with ["upload"]. cbn [app].
  replace (mem "upload" (split "/" base ++ "upload" :: version :: split "/" rest))
    with true.
  - cbv zeta. rewrite (list_index_app _ _ _ Hbase), skipn_app_two, join_split.
    apply rsplit1_stem.
  - symmetry. apply mem_In. apply in_or_app. right. now left.
Qed.

Lemma public_id_of_plain (public_id : string) :
  startswith "http" public_id = false ->
  CloudinaryStorage.public_id_of public_id = Return public_id.
Proof. intros H. unfold CloudinaryStorage.public_id_of. now rewrite H. Qed.

Lemma cloudinary_delete_file_eq destroy repr self public_id id resource_type w :
  CloudinaryStorage.is_configured self = true ->
  CloudinaryStorage.public_id_of public_id = Return id ->
  exists msg,
    CloudinaryStorage.delete_file destroy repr self public_id resource_type w =
    (Return (destroyed destroy id resource_type),
     mkWorld (db w) (trace w ++ [msg])).
Proof.
  intros Hc Hid. unfold CloudinaryStorage.delete_file, destroyed.
  rewrite Hc. cbn [negb]. py_unfold. rewrite Hid.
  destruct (destroy id resource_type) as [response|e].
  - destruct (opt_eqb (dict_get response "result") "ok");
      eexists; reflexivity.
  - eexists; reflexivity.
Qed.

(** X5: a configured [CloudinaryStorage.delete_file] never raises and
    returns [True] exactly when [destroy] answers [result == 'ok'].
    Given a delivery URL [base/upload/version/rest] (a [base] that
    starts with [http] and has no segment [upload], a [version] without
    slash) it asks for the destruction of [rest] without its last
    extension, the version segment skipped; given anything that does
    not start with [http] it passes it on unchanged. *)
Theorem cloudinary_delete_file_public_id :
  forall (destroy : string -> string -> result dict) (repr : dict -> string)
         (self : CloudinaryStorage.t) (resource_type : string) (w : World),
    CloudinaryStorage.is_configured self = true ->
    (forall base version rest,
        startswith "http" base = true ->
        ~ In "upload" (split "/" base) ->
        contains "/" version = false ->
        exists msg,
          CloudinaryStorage.delete_file destroy repr self
            (delivery_url base version rest) resource_type w =
          (Return (destroyed destroy (without_extension rest) resource_type),
           mkWorld (db w) (trace w ++ [msg]))) /\
    (forall public_id,
        startswith "http" public_id = false ->
        exists msg,
          CloudinaryStorage.delete_file destroy repr self public_id resource_type w =
          (Return (destroyed destroy public_id resource_type),
           mkWorld (db w) (trace w ++ [msg]))).
Proof.
  intros destroy repr self rt w Hc. split.
  - intros base version rest Hhttp Hbase Hversion.
    apply cloudinary_delete_file_eq; [exact Hc|].
    now apply public_id_of_delivery_url.
  - intros public_id Hplain.
    apply cloudinary_delete_file_eq; [exact Hc|].
    now apply public_id_of_plain.
Qed.

(** The example of the comment in [delete_file]: the URL
    [https://res.cloudinary.com/cloud_name/image/upload/v1234567890/folder/filename.jpg]
    names [folder/filename]. *)
Lemma cloudinary_delete_file_public_id_witness :
  exists msg,
    CloudinaryStorage.delete_file
      (fun public_id _ =>
         if String.eqb public_id "folder/filename"
         then Return [("result", "ok")] else Return [("result", "not found")])
      (fun _ => "") (CloudinaryStorage.mk true)
      "https://res.cloudinary.com/cloud_name/image/upload/v1234567890/folder/filename.jpg"
      "image" initial =
    (Return true, mkWorld empty_db [msg]).
Proof.
  refine (proj1 (cloudinary_delete_file_public_id
                   (fun public_id _ =>
                      if String.eqb public_id "folder/filename"
                      then Return [("result", "ok")]
                      else Return [("result", "not found")])
                   (fun _ => "") (CloudinaryStorage.mk true) "image" initial eq_refl)
                "https://res.cloudinary.com/cloud_name/image" "v1234567890"
                "folder/filename.jpg" eq_refl _ eq_refl).
  simpl. intuition discriminate.
Defined.

(** X6: [SupabaseClient.delete_file] of an initialised client never
    raises.  It returns [True] when the Python client removed the
    object; when that client raised, it sends one DELETE, with the key
    the client was created with, to the object URL
    [<url>/storage/v1/object/avatars/<path>] (the URL the fallback of
    [upload_file] posts to) and returns [True] exactly on status 200.
    Without credentials it returns [False] and only logs. *)
Theorem supabase_delete_file_result :
  forall (client_remove : string -> list string -> result unit)
         (requests_delete : string -> string -> string -> result (nat * string))
         (url key file_path : string) (w : World),
    truthy url = true -> truthy key = true ->
    (exists evs,
        SupabaseClient.delete_file client_remove requests_delete
          (SupabaseClient.mkEnv (Some url) (Some key))
          (SupabaseClient.init (SupabaseClient.mkEnv (Some url) (Some key)))
          file_path w =
        (Return (supabase_deleted client_remove requests_delete url key file_path),
         mkWorld (db w) (trace w ++ evs))) /\
    (forall senv,
        truthy_opt (SupabaseClient.SUPABASE_URL senv)
        && truthy_opt (SupabaseClient.SUPABASE_KEY senv) = false ->
        SupabaseClient.delete_file client_remove requests_delete senv
          (SupabaseClient.init senv) file_path w =
        (Return false,
         mkWorld (db w) (trace w ++ [Log ERROR "Supabase client not initialized"]))).
Proof.
  intros rm del url key path w Hu Hk. split.
  - rewrite (supabase_init_configured _ _ Hu Hk).
    unfold SupabaseClient.delete_file, supabase_deleted, object_url.
    unfold SupabaseClient.bucket_name.
    cbn [SupabaseClient.supabase SupabaseClient.SUPABASE_URL
         SupabaseClient.SUPABASE_KEY fmt].
    py_unfold.
    destruct (rm "avatars" [path]) as [[]|e1].
    + py_trace. eexists; reflexivity.
    + destruct (del _ key _) as [[code text]|e2].
      * cbn [fst snd]. destruct (Nat.eqb code 200); py_trace; eexists; reflexivity.
      * py_trace. eexists; reflexivity.
  - intros senv Hs. unfold SupabaseClient.delete_file, SupabaseClient.init.
    replace (negb (truthy_opt (SupabaseClient.SUPABASE_URL senv))
             || negb (truthy_opt (SupabaseClient.SUPABASE_KEY senv))) with true.
    + reflexivity.
    + rewrite <- negb_andb, Hs. reflexivity.
Qed.

Lemma supabase_delete_file_result_witness :
  exists evs,
    SupabaseClient.delete_file
      (fun _ _ => Raise (Exception "timeout"))
      (fun url _ _ =>
         if String.eqb url "https://p.supabase.co/storage/v1/object/avatars/cat.jpg"
         then Return (200, "") else Return (404, ""))
      (SupabaseClient.mkEnv (Some "https://p.supabase.co") (Some "anon"))
      (SupabaseClient.init
         (SupabaseClient.mkEnv (Some "https://p.supabase.co") (Some "anon")))
      "cat.jpg" initial =
    (Return true, mkWorld empty_db evs).
Proof.
  exact (proj1 (supabase_delete_file_result
                  (fun _ _ => Raise (Exception "timeout"))
                  (fun url _ _ =>
                     if String.eqb url
                          "https://p.supabase.co/storage/v1/object/avatars/cat.jpg"
                     then Return (200, "") else Return (404, ""))
                  "https://p.supabase.co" "anon" "cat.jpg" initial
                  eq_refl eq_refl)).
Defined.

(** ** More on the relationship model *)

Section MoreRouteEffects.

Local Open Scope nat_scope.

Variable cs : CloudinaryStorage.t.

Lemma db_eta (d : DB) : mkDB (users d) (posts d) (collections d) (saves d) = d.
Proof. now destruct d. Qed.

Lemma world_eta (w : World) : mkWorld (db w) (trace w) = w.
Proof. now destruct w. Qed.

Lemma find_existsb {A} (f : A -> bool) (l : list A) :
  match find f l with Some _ => true | None => false end = existsb f l.
Proof.
  induction l as [|x l IH]; simpl; [reflexivity|].
  destruct (f x); [reflexivity | exact IH].
Qed.

Lemma find_none_existsb {A} (f : A -> bool) (l : list A) :
  find f l = None <-> existsb f l = false.
Proof.
  rewrite <- find_existsb. destruct (find f l); split; congruence.
Qed.

Lemma register_effect session m username email password generated_hash w :
  let out := handle cs (ReqRegister session m username email password
                          generated_hash) w in
  if registers (db w) session m username email password then
    out = (Redirect "login",
           mkWorld (registered (db w) (fmt username) (fmt email) generated_hash)
                   (trace w ++ [Flash "Registration successful! Please log in."]))
  else
    db (snd out) = db w /\ fst out <> Redirect "login".
Proof.
  cbv zeta. unfold registers, registered. route_unfold.
  destruct session as [id|]; [destruct (User_get (db w) id)|];
    cbn [andb]; try (split; [reflexivity | discriminate]).
  all: destruct m; cbn [andb]; try (split; [reflexivity | discriminate]).
  all: destruct (truthy_opt username); cbn [andb negb orb];
    try (split; [reflexivity | discriminate]).
  all: destruct (truthy_opt email); cbn [andb negb orb];
    try (split; [reflexivity | discriminate]).
  all: destruct (truthy_opt password); cbn [andb negb orb];
    try (split; [reflexivity | discriminate]).
  all: rewrite Nat.ltb_antisym; destruct (8 <=? String.length (fmt password));
    cbn [andb negb]; try (split; [reflexivity | discriminate]).
  all: rewrite <- !find_existsb.
  all: destruct (find _ (users (db w))); cbn [andb negb];
    try (split; [reflexivity | discriminate]).
  all: destruct (find _ (users (db w))); cbn [andb negb];
    try (split; [reflexivity | discriminate]).
  all: cbn [db trace users posts collections saves User.id]; reflexivity.
Qed.

End MoreRouteEffects.

Section UploadEffect.

Local Open Scope nat_scope.

Variable cs : CloudinaryStorage.t.

Lemma is_allowed_file_empty_name :
  CloudinaryStorage.is_allowed_file "" = Return false.
Proof. reflexivity. Qed.

Lemma upload_effect session m title description file uuid4 answer w :
  let out := handle cs (ReqUpload session m title description file uuid4 answer) w in
  if uploads (db w) cs session m file answer then
    db (snd out) =
    posted (db w) (form_get title) (form_get description)
      (fmt (fst (cloudinary_result cs answer)))
      (fmt (snd (cloudinary_result cs answer)))
      (caller_id (db w) session)
  else db (snd out) = db w.
Proof.
  cbv zeta. unfold uploads, caller_id, logged_in, posted, cloudinary_result.
  route_unfold. unfold UPLOADS_ENABLED, CloudinaryStorage.upload_file, dict_getitem.
  py_unfold.
  destruct session as [id|]; [destruct (User_get (db w) id) as [u|]|];
    cbn [andb]; try reflexivity.
  destruct (CloudinaryStorage.is_configured cs); cbn [andb negb]; [|reflexivity].
  destruct m; cbn [andb]; [reflexivity|].
  destruct file as [[filename content]|]; cbn [andb]; [|reflexivity].
  destruct filename as [|c filename]; [reflexivity|].
  cbn [String.eqb truthy].
  destruct (CloudinaryStorage.is_allowed_file (String c filename)) as [[|]|e];
    cbn [andb]; try reflexivity; try (destruct e; reflexivity).
  destruct answer as [response|e]; cbn [fst snd truthy_opt]; [|reflexivity].
  destruct (dict_get response "secure_url") as [url|]; cbn [fst snd truthy_opt fmt];
    [|reflexivity].
  destruct (truthy url); reflexivity.
Qed.

End UploadEffect.

Section Referential.

Local Open Scope nat_scope.

Variable cs : CloudinaryStorage.t.

(** [save_post] on a consistent database: one save more on 200, and
    nothing written on any other answer. *)
Lemma save_post_effect w session post_id collection_id :
  consistent (db w) ->
  let out := handle cs (ReqSave session post_id collection_id) w in
  (fst out = success /\
   exists u t c,
     logged_in (db w) session = Some u /\
     Post_get (db w) post_id <> None /\
     target_collection (db w) (User.id u) collection_id = Some t /\
     Collection_get (db w) t = Some c /\
     Collection.user_id c = User.id u /\
     find (saved_in post_id t) (saves (db w)) = None /\
     snd out = mkWorld (saved_into (db w) post_id t) (trace w)) \/
  (fst out <> success /\ db (snd out) = db w).
Proof.
  intros Hcons. cbv zeta.
  unfold target_collection, logged_in, saved_into. save_unfold.
  destruct session as [id|];
    [|right; split; [discriminate | reflexivity]].
  destruct (User_get (db w) id) as [u|] eqn:Hu;
    [|right; split; [discriminate | reflexivity]].
  destruct (Post_get (db w) post_id) as [post|] eqn:Hp;
    [|right; split; [discriminate | reflexivity]].
  destruct (negb (truthy_id collection_id)).
  - destruct (default_collection_found _ _ _ Hcons Hu) as [c0 Hc0].
    unfold is_saved_of in Hc0 |- *. rewrite Hc0.
    destruct (Collection_get (db w) (Collection.id c0)) as [c|] eqn:Hc;
      [|right; split; [discriminate | reflexivity]].
    destruct (Collection.user_id c =? User.id u) eqn:Hown;
      [|right; split; [discriminate | reflexivity]].
    cbn [negb].
    destruct (find _ (saves (db w))) eqn:Hf;
      [right; split; [discriminate | reflexivity]|].
    left. split; [reflexivity|]. exists u, (Collection.id c0), c.
    apply Nat.eqb_eq in Hown. repeat split; auto; try congruence.
    now rewrite Hc0.
  - destruct (Collection_get (db w) (id_value collection_id)) as [c|] eqn:Hc;
      [|right; split; [discriminate | reflexivity]].
    destruct (Collection.user_id c =? User.id u) eqn:Hown;
      [|right; split; [discriminate | reflexivity]].
    cbn [negb].
    destruct (find _ (saves (db w))) eqn:Hf;
      [right; split; [discriminate | reflexivity]|].
    left. split; [reflexivity|]. exists u, (id_value collection_id), c.
    apply Nat.eqb_eq in Hown. repeat split; auto; congruence.
Qed.

Lemma find_app_grows {A} (f : A -> bool) (l l' : list A) :
  find f l <> None -> find f (l ++ l') <> None.
Proof.
  induction l as [|x l IH]; simpl; [congruence|].
  destruct (f x); [discriminate | exact IH].
Qed.

Lemma find_app_last {A} (f : A -> bool) (l : list A) (x : A) :
  f x = true -> find f (l ++ [x]) <> None.
Proof.
  intros Hx. induction l as [|y l IH]; simpl.
  - rewrite Hx. discriminate.
  - destruct (f y); [discriminate | exact IH].
Qed.

Lemma existsb_false_not_in (x : string) (rows : list User.t)
    (column : User.t -> string) :
  existsb (fun u => String.eqb (column u) x) rows = false ->
  ~ In x (map column rows).
Proof.
  intros H Hin. apply in_map_iff in Hin. destruct Hin as (u & Hu & Hin).
  assert (Ht : existsb (fun u => String.eqb (column u) x) rows = true).
  { apply existsb_exists. exists u. split; [exact Hin|].
    rewrite Hu. apply String.eqb_refl. }
  congruence.
Qed.

Lemma cloudinary_result_kind (answer : result dict) :
  truthy_opt (fst (cloudinary_result cs answer)) = true ->
  (fmt (snd (cloudinary_result cs answer)) = "image" \/
   fmt (snd (cloudinary_result cs answer)) = "video") /\
  truthy (fmt (fst (cloudinary_result cs answer))) = true.
Proof.
  unfold cloudinary_result.
  destruct (CloudinaryStorage.is_configured cs); [|discriminate].
  destruct answer as [response|e]; [|discriminate].
  destruct (dict_get response "secure_url") as [url|]; [|discriminate].
  cbn [fst snd truthy_opt fmt]. intros Hurl. split; [|exact Hurl].
  destruct (opt_eqb (dict_get response "resource_type") "image"); auto.
Qed.

Lemma referential_empty : referential empty_db.
Proof.
  split; simpl;
    [constructor | constructor | constructor
    | intros ? [] | intros ? [] | intros ? []].
Qed.

Lemma handle_referential (r : Request) (w : World) :
  consistent (db w) -> referential (db w) ->
  referential (db (snd (handle cs r w))).
Proof.
  intros Hcons [Hun Hem Hpid Hsav Hcol Hpost].
  destruct r as [session m un em pw h | session m ti de fi uu an
                | session p c | session p c].
  - pose proof (register_effect cs session m un em pw h w) as H. cbv zeta in H.
    destruct (registers (db w) session m un em pw) eqn:Hreg.
    + rewrite H. cbn [snd db]. unfold registers in Hreg.
      repeat (apply andb_true_iff in Hreg; destruct Hreg as [Hreg ?]).
      unfold registered.
      split; cbn [users posts collections saves];
        unfold Post_get, Collection_get, User_get in *;
        cbn [users posts collections saves].
      * rewrite map_app. apply NoDup_snoc; [assumption|]. simpl.
        apply existsb_false_not_in. now apply negb_true_iff.
      * rewrite map_app. apply NoDup_snoc; [assumption|]. simpl.
        apply existsb_false_not_in. now apply negb_true_iff.
      * assumption.
      * intros s Hs. destruct (Hsav s Hs) as [Hp Hc]. split; [exact Hp|].
        now apply find_app_grows.
      * intros c Hc. apply in_app_or in Hc. destruct Hc as [Hc|[<-|[]]].
        -- apply find_app_grows. now apply Hcol.
        -- apply find_app_last. cbn. apply Nat.eqb_refl.
      * intros p Hp. destruct (Hpost p Hp) as (Hu & Hk & Hurl).
        split; [now apply find_app_grows | now split].
    + destruct H as [-> _]. now split.
  - pose proof (upload_effect cs session m ti de fi uu an w) as H. cbv zeta in H.
    destruct (uploads (db w) cs session m fi an) eqn:Hup.
    + rewrite H. unfold uploads in Hup.
      repeat (apply andb_true_iff in Hup; destruct Hup as [Hup ?]).
      unfold posted, caller_id.
      destruct (logged_in (db w) session) as [u|] eqn:Hu; [|discriminate].
      assert (Huser : User_get (db w) (User.id u) <> None).
      { unfold logged_in in Hu. destruct session as [id|]; [|discriminate].
        destruct (User_get_In _ _ _ Hu) as [_ ->]. congruence. }
      destruct (cloudinary_result_kind an) as [Hkind Hurl]; [assumption|].
      split; cbn [users posts collections saves];
        unfold Post_get, Collection_get, User_get in *;
        cbn [users posts collections saves]; try assumption.
      * rewrite map_app. apply NoDup_snoc; [assumption|]. simpl.
        apply next_id_fresh.
      * intros s Hs. destruct (Hsav s Hs) as [Hp Hc]. split; [|exact Hc].
        now apply find_app_grows.
      * intros p Hp. apply in_app_or in Hp. destruct Hp as [Hp|[<-|[]]].
        -- now apply Hpost.
        -- cbn. now split.
    + rewrite H. now split.
  - destruct (save_post_effect w session p c Hcons)
      as [[_ (u & t & col & _ & Hp & _ & Hc & _ & _ & ->)] | [_ ->]];
      [|now split].
    cbn [snd db]. unfold saved_into.
    split; cbn [users posts collections saves];
      unfold Post_get, Collection_get, User_get in *;
      cbn [users posts collections saves]; try assumption.
    intros s Hs. apply in_app_or in Hs. destruct Hs as [Hs|[<-|[]]].
    + now apply Hsav.
    + cbn. split; [exact Hp | congruence].
  - destruct (unsave_db cs session p c w) as (Hu & Hp & Hc & (q & Hs)).
    split; unfold Post_get, Collection_get, User_get in *;
      rewrite ?Hu, ?Hp, ?Hc; try assumption.
    intros s Hin. rewrite Hs in Hin. apply filter_In in Hin.
    now apply Hsav.
Qed.

Lemma run_invariants_from (reqs : list Request) (w : World) :
  consistent (db w) -> referential (db w) ->
  consistent (db (run cs reqs w)) /\ referential (db (run cs reqs w)).
Proof.
  revert w. induction reqs as [|r reqs IH]; intros w Hc Hr; simpl; [now split|].
  apply IH; [now apply handle_consistent | now apply handle_referential].
Qed.

Lemma run_referential (reqs : list Request) :
  referential (db (run cs reqs initial)).
Proof.
  apply run_invariants_from; [apply consistent_empty | apply referential_empty].
Qed.

End Referential.

(** X7: [register] writes exactly when its checks pass.  When nobody
    is logged in and the posted form has a name, an address and a
    password of eight characters, none of them in use, it appends the
    user and that user's "Saved" collection and redirects to the login
    page; in every other case, and so whenever the name or the address
    is already taken, the database is left as it was. *)
Theorem register_writes_iff_checks_pass :
  forall (cs : CloudinaryStorage.t) (w : World) (session : Session) (m : method)
         (username email password : option string) (generated_hash : string),
    let out := handle cs (ReqRegister session m username email password
                            generated_hash) w in
    (registers (db w) session m username email password = true ->
     out = (Redirect "login",
            mkWorld (registered (db w) (fmt username) (fmt email) generated_hash)
                    (trace w ++ [Flash "Registration successful! Please log in."]))) /\
    (registers (db w) session m username email password = false ->
     db (snd out) = db w /\ fst out <> Redirect "login") /\
    (forall u, In u (users (db w)) ->
               User.username u = fmt username \/ User.email u = fmt email ->
               db (snd out) = db w).
Proof.
  intros cs w session m un em pw h out.
  pose proof (register_effect cs session m un em pw h w) as H.
  cbv zeta in H. fold out in H.
  split; [|split].
  - intros Hreg. now rewrite Hreg in H.
  - intros Hreg. now rewrite Hreg in H.
  - intros u Hin Htaken.
    assert (Hreg : registers (db w) session m un em pw = false).
    { unfold registers. destruct Htaken as [Hu|Hu].
      - replace (existsb (fun u0 => String.eqb (User.username u0) (fmt un))
                         (users (db w))) with true.
        + cbn [negb]. now rewrite andb_false_r, andb_false_l.
        + symmetry. apply existsb_exists. exists u. split; [exact Hin|].
          rewrite Hu. apply String.eqb_refl.
      - replace (existsb (fun u0 => String.eqb (User.email u0) (fmt em))
                         (users (db w))) with true.
        + cbn [negb]. now rewrite andb_false_r.
        + symmetry. apply existsb_exists. exists u. split; [exact Hin|].
          rewrite Hu. apply String.eqb_refl. }
    rewrite Hreg in H. tauto.
Qed.

Lemma register_writes_iff_checks_pass_witness :
  db (snd (handle (CloudinaryStorage.mk true)
             (ReqRegister None POST (Some "alice2") (Some "alice@x.com")
                (Some "another-password") "hash2")
             (run (CloudinaryStorage.mk true) alice_and_bob initial)))
  = db (run (CloudinaryStorage.mk true) alice_and_bob initial).
Proof.
  exact (proj2 (proj2 (register_writes_iff_checks_pass
                         (CloudinaryStorage.mk true)
                         (run (CloudinaryStorage.mk true) alice_and_bob initial)
                         None POST (Some "alice2") (Some "alice@x.com")
                         (Some "another-password") "hash2"))
               (User.mk 1 "alice" "alice@x.com" "hash")
               (or_introl eq_refl) (or_intror eq_refl)).
Defined.

(** X8: in every state the requests can reach, no two users share a
    name and no two share an address: the two look-ups of [register]
    keep what the [unique=True] columns of [User] demand. *)
Theorem usernames_and_emails_stay_unique :
  forall (cs : CloudinaryStorage.t) (reqs : list Request),
    NoDup (map User.username (users (db (run cs reqs initial)))) /\
    NoDup (map User.email (users (db (run cs reqs initial)))).
Proof.
  intros cs reqs. destruct (run_referential cs reqs). now split.
Qed.

(** X9: in every state the requests can reach, foreign keys resolve:
    every save names an existing post and an existing collection, and
    every collection and every post names an existing user. *)
Theorem foreign_keys_resolve :
  forall (cs : CloudinaryStorage.t) (reqs : list Request),
    let d := db (run cs reqs initial) in
    (forall s, In s (saves d) ->
               Post_get d (Save.post_id s) <> None /\
               Collection_get d (Save.collection_id s) <> None) /\
    (forall c, In c (collections d) -> User_get d (Collection.user_id c) <> None) /\
    (forall p, In p (posts d) -> User_get d (Post.user_id p) <> None).
Proof.
  intros cs reqs d. destruct (run_referential cs reqs) as [_ _ _ Hs Hc Hp].
  split; [exact Hs|]. split; [exact Hc|].
  intros p Hin. now apply Hp.
Qed.

(** X10: in every state the requests can reach, every post has the
    [file_type] "image" or "video" and a non-empty [file_url], and post
    ids are unique: [upload] stores only what the Cloudinary back end
    returned with a URL. *)
Theorem posts_are_images_or_videos :
  forall (cs : CloudinaryStorage.t) (reqs : list Request),
    let d := db (run cs reqs initial) in
    NoDup (map Post.id (posts d)) /\
    (forall p, In p (posts d) ->
               (Post.file_type p = "image" \/ Post.file_type p = "video") /\
               truthy (Post.file_url p) = true).
Proof.
  intros cs reqs d. destruct (run_referential cs reqs) as [_ _ Hid _ _ Hp].
  split; [exact Hid|]. intros p Hin. now apply Hp.
Qed.

(** X11: [upload] writes to the database exactly when a logged-in user
    posts a file with an accepted name to a configured back end and
    the SDK answers with a non-empty [secure_url]; it then appends one
    post, owned by the caller, with that URL, the kind the back end
    derived and the title and description of the form (empty when
    absent).  Otherwise the database is left as it was. *)
Theorem upload_writes_iff_stored :
  forall (cs : CloudinaryStorage.t) (w : World) (session : Session) (m : method)
         (title description : option string) (file : option FileStorage)
         (uuid4 : string) (answer : result dict),
    let out := handle cs (ReqUpload session m title description file uuid4 answer) w in
    (uploads (db w) cs session m file answer = true ->
     db (snd out) =
     posted (db w) (form_get title) (form_get description)
       (fmt (fst (cloudinary_result cs answer)))
       (fmt (snd (cloudinary_result cs answer)))
       (caller_id (db w) session)) /\
    (uploads (db w) cs session m file answer = false -> db (snd out) = db w).
Proof.
  intros cs w session m title description file uuid4 answer out.
  pose proof (upload_effect cs session m title description file uuid4 answer w) as H.
  cbv zeta in H. fold out in H.
  split; intros Hup; now rewrite Hup in H.
Qed.

Lemma upload_writes_iff_stored_witness :
  db (snd (handle (CloudinaryStorage.mk true)
             (ReqUpload (Some 1) POST (Some "dog") None (Some ("dog.exe", []))
                "uuid" (Return [("secure_url", "https://res.cloudinary.com/dog")]))
             (run (CloudinaryStorage.mk true) alice_and_bob initial)))
  = db (run (CloudinaryStorage.mk true) alice_and_bob initial).
Proof.
  exact (proj2 (upload_writes_iff_stored
                  (CloudinaryStorage.mk true)
                  (run (CloudinaryStorage.mk true) alice_and_bob initial)
                  (Some 1) POST (Some "dog") None (Some ("dog.exe", []))
                  "uuid" (Return [("secure_url", "https://res.cloudinary.com/dog")]))
               eq_refl).
Defined.

(** X12: in every state the requests can reach, [save_post] either
    answers 200 and appends exactly one save, of an existing post into
    a collection the caller owns, which did not hold that post; or it
    answers something else and leaves the database as it was. *)
Theorem save_post_writes_one_row_or_nothing :
  forall (cs : CloudinaryStorage.t) (reqs : list Request) (session : Session)
         (post_id : nat) (collection_id : option nat),
    let w := run cs reqs initial in
    let out := handle cs (ReqSave session post_id collection_id) w in
    (fst out = success /\
     exists u t c,
       logged_in (db w) session = Some u /\
       Post_get (db w) post_id <> None /\
       target_collection (db w) (User.id u) collection_id = Some t /\
       Collection_get (db w) t = Some c /\
       Collection.user_id c = User.id u /\
       find (saved_in post_id t) (saves (db w)) = None /\
       snd out = mkWorld (saved_into (db w) post_id t) (trace w)) \/
    (fst out <> success /\ db (snd out) = db w).
Proof.
  intros cs reqs session p c w. apply save_post_effect. apply run_consistent.
Qed.

(** X13: the three routes under [@login_required] do nothing for a
    request without a user: when the session holds no id, or the id of
    no user, saving, unsaving and uploading answer with the redirect to
    the login page, and the database is untouched. *)
Theorem protected_routes_need_a_user :
  forall (cs : CloudinaryStorage.t) (w : World) (session : Session),
    logged_in (db w) session = None ->
    let refused :=
      (Redirect "login",
       mkWorld (db w) (trace w ++ [Flash "Please log in to access this page."])) in
    (forall post_id collection_id,
        handle cs (ReqSave session post_id collection_id) w = refused) /\
    (forall post_id collection_id,
        handle cs (ReqUnsave session post_id collection_id) w = refused) /\
    (forall m title description file uuid4 answer,
        handle cs (ReqUpload session m title description file uuid4 answer) w
        = refused).
Proof.
  intros cs w session Hnone refused. unfold logged_in in Hnone.
  repeat split; intros; route_unfold;
    (destruct session as [id|]; [rewrite Hnone|]); reflexivity.
Qed.

Lemma protected_routes_need_a_user_witness :
  handle (CloudinaryStorage.mk true) (ReqSave (Some 9) 1 None)
    (run (CloudinaryStorage.mk true) alice_and_bob initial)
  = (Redirect "login",
     mkWorld (db (run (CloudinaryStorage.mk true) alice_and_bob initial))
             (trace (run (CloudinaryStorage.mk true) alice_and_bob initial)
              ++ [Flash "Please log in to access this page."])).
Proof.
  exact (proj1 (protected_routes_need_a_user
                  (CloudinaryStorage.mk true)
                  (run (CloudinaryStorage.mk true) alice_and_bob initial)
                  (Some 9) eq_refl) 1 None).
Defined.

Section ReadingAndUndoing.

Local Open Scope nat_scope.

Variable cs : CloudinaryStorage.t.

Lemma unsave_post_one_collection w id u post_id collection_id c :
  User_get (db w) id = Some u ->
  truthy_id collection_id = true ->
  Collection_get (db w) (id_value collection_id) = Some c ->
  Collection.user_id c = User.id u ->
  NoDup (map Save.id (saves (db w))) ->
  handle cs (ReqUnsave (Some id) post_id collection_id) w =
  if existsb (saved_in post_id (id_value collection_id)) (saves (db w)) then
    (success,
     mkWorld (mkDB (users (db w)) (posts (db w)) (collections (db w))
                   (filter (fun s => negb (saved_in post_id (id_value collection_id) s))
                           (saves (db w))))
             (trace w))
  else (not_saved, w).
Proof.
  intros Hu Ht Hc Hown Hnd. unfold handle, dispatch, view_of.
  rewrite unsave_post_eq, Hu, Ht, Hc, Hown, Nat.eqb_refl. cbn [negb].
  rewrite unsave_found_eq.
  destruct (existsb _ (saves (db w))) eqn:E.
  - destruct (filter (saved_in post_id (id_value collection_id)) (saves (db w)))
      as [|f l] eqn:Ef.
    + apply filter_nil_iff in Ef. congruence.
    + rewrite <- Ef.
      rewrite (without_selected (saved_in post_id (id_value collection_id)) _ _ Hnd).
      * reflexivity.
      * intros s. apply filter_In.
  - apply filter_nil_iff in E. now rewrite E.
Qed.

(** The saves of a post in a user's collections, as [get_post] and
    as [unsave_post] find them. *)
Lemma in_user_collections d user_id s :
  existsb (Nat.eqb (Save.collection_id s))
          (map Collection.id
               (filter (fun c => Collection.user_id c =? user_id) (collections d)))
  = owned_by d user_id s.
Proof.
  unfold owned_by. induction (collections d) as [|c l IH]; [reflexivity|].
  simpl. destruct (Collection.user_id c =? user_id); simpl.
  - now rewrite IH, andb_true_r, Nat.eqb_sym.
  - now rewrite IH, andb_false_r.
Qed.

Lemma existsb_pointwise {A} (f g : A -> bool) (l : list A) :
  (forall x, f x = g x) -> existsb f l = existsb g l.
Proof.
  intros H. induction l as [|x l IH]; simpl; [reflexivity|]. now rewrite H, IH.
Qed.

Lemma get_post_eq session post_id w :
  get_post session post_id w =
  match Post_get (db w) post_id with
  | None => (Raise (HTTPException 404), w)
  | Some post =>
      match User_get (db w) (Post.user_id post) with
      | Some a =>
          (Return
             (mkPostData (Post.id post) (Post.title post) (Post.description post)
                (Post.file_url post) (Post.file_type post)
                (User.id a) (User.username a)
                (save_count (db w) post_id)
                (match logged_in (db w) session with
                 | Some u => existsb (saved_by (db w) (User.id u) post_id)
                                     (saves (db w))
                 | None => false
                 end)),
           w)
      | None => (Raise (Exception "'NoneType' object has no attribute 'id'"), w)
      end
  end.
Proof.
  unfold get_post, get_or_404, current_user, logged_in. py_unfold.
  destruct (Post_get (db w) post_id) as [post|]; [|reflexivity].
  assert (Hsaved : forall u,
    match find (fun s => (Save.post_id s =? post_id)
                         && existsb (Nat.eqb (Save.collection_id s))
                              (map Collection.id
                                 (filter (fun c => Collection.user_id c =? User.id u)
                                         (collections (db w)))))
               (saves (db w)) with
    | Some _ => true
    | None => false
    end = existsb (saved_by (db w) (User.id u) post_id) (saves (db w))).
  { intros u. rewrite find_existsb. apply existsb_pointwise.
    intros s. unfold saved_by. now rewrite in_user_collections. }
  destruct session as [id|]; [destruct (User_get (db w) id) as [u|]|];
    rewrite ?Hsaved;
    destruct (User_get (db w) (Post.user_id post)); reflexivity.
Qed.

Lemma Post_get_In d post_id post :
  Post_get d post_id = Some post -> In post (posts d).
Proof. intros H. now apply find_some in H. Qed.

Lemma Collection_get_In d id c :
  Collection_get d id = Some c -> In c (collections d) /\ Collection.id c = id.
Proof.
  intros H. apply find_some in H. destruct H as [Hin He].
  apply Nat.eqb_eq in He. now split.
Qed.

Lemma saved_by_same_collections d d' user_id post_id s :
  collections d' = collections d ->
  saved_by d' user_id post_id s = saved_by d user_id post_id s.
Proof. intros H. unfold saved_by, owned_by. now rewrite H. Qed.

Lemma existsb_snoc {A} (q : A -> bool) (l : list A) (x : A) :
  existsb q (l ++ [x]) = existsb q l || q x.
Proof. rewrite existsb_app. simpl. now rewrite orb_false_r. Qed.

Lemma existsb_filter_negb {A} (q : A -> bool) (l : list A) :
  existsb q (filter (fun x => negb (q x)) l) = false.
Proof.
  induction l as [|x l IH]; [reflexivity|]. simpl.
  destruct (q x) eqn:E; simpl; [exact IH | now rewrite E, IH].
Qed.

(** The new save of a successful [save_post] is one of the caller's. *)
Lemma new_save_is_callers d u post_id t c :
  Collection_get d t = Some c -> Collection.user_id c = User.id u ->
  saved_by (saved_into d post_id t) (User.id u) post_id
    (Save.mk (next_id (map Save.id (saves d))) post_id t) = true.
Proof.
  intros Hc Hown. destruct (Collection_get_In _ _ _ Hc) as [Hin Hid].
  unfold saved_by, owned_by, saved_into. cbn. rewrite Nat.eqb_refl. simpl.
  apply existsb_exists. exists c. split; [exact Hin|].
  now rewrite Hid, Hown, !Nat.eqb_refl.
Qed.

Lemma saved_after_save d u post_id t c :
  Collection_get d t = Some c -> Collection.user_id c = User.id u ->
  existsb (saved_by (saved_into d post_id t) (User.id u) post_id)
          (saves (saved_into d post_id t)) = true.
Proof.
  intros Hc Hown.
  pose proof (new_save_is_callers d u post_id t c Hc Hown) as Hnew.
  change (saves (saved_into d post_id t))
    with (saves d ++ [Save.mk (next_id (map Save.id (saves d))) post_id t])%list.
  rewrite existsb_snoc, Hnew. apply orb_true_r.
Qed.

Lemma unsave_after_save d u post_id t c :
  Collection_get d t = Some c -> Collection.user_id c = User.id u ->
  existsb (saved_by d (User.id u) post_id) (saves d) = false ->
  filter (fun s => negb (saved_by (saved_into d post_id t) (User.id u) post_id s))
         (saves (saved_into d post_id t)) = saves d.
Proof.
  intros Hc Hown Hnone.
  pose proof (new_save_is_callers d u post_id t c Hc Hown) as Hnew.
  assert (Hsame : forall s, saved_by (saved_into d post_id t) (User.id u) post_id s
                            = saved_by d (User.id u) post_id s)
    by (intros s; now apply saved_by_same_collections).
  change (saves (saved_into d post_id t))
    with (saves d ++ [Save.mk (next_id (map Save.id (saves d))) post_id t])%list.
  rewrite filter_app. cbn [filter]. rewrite Hnew. cbn [negb].
  rewrite app_nil_r.
  rewrite (filter_ext _ (fun s => negb (saved_by d (User.id u) post_id s)))
    by (intros s; now rewrite Hsame).
  now apply filter_negb_all.
Qed.

End ReadingAndUndoing.

(** X14: [unsave_post] with a collection of the caller's removes the
    saves of the post in that collection and nothing else: the saves
    left are exactly those of another post or another collection, also
    the caller's saves of the same post elsewhere.  It answers 200 when
    there was such a save and 404 otherwise.  (Primary keys of [save]
    are unique.) *)
Theorem unsave_post_removes_from_one_collection :
  forall (cs : CloudinaryStorage.t) (w : World) (id : nat) (u : User.t)
         (post_id : nat) (collection_id : option nat) (c : Collection.t),
    User_get (db w) id = Some u ->
    truthy_id collection_id = true ->
    Collection_get (db w) (id_value collection_id) = Some c ->
    Collection.user_id c = User.id u ->
    NoDup (map Save.id (saves (db w))) ->
    let out := handle cs (ReqUnsave (Some id) post_id collection_id) w in
    saves (db (snd out)) =
    filter (fun s => negb (saved_in post_id (id_value collection_id) s))
           (saves (db w)) /\
    fst out =
    (if existsb (saved_in post_id (id_value collection_id)) (saves (db w))
     then success else not_saved).
Proof.
  intros cs w id u p cid c Hu Ht Hc Hown Hnd out. unfold out.
  rewrite (unsave_post_one_collection cs w id u p cid c Hu Ht Hc Hown Hnd).
  destruct (existsb _ (saves (db w))) eqn:E; split; try reflexivity.
  simpl. now rewrite filter_negb_all.
Qed.

Lemma unsave_post_removes_from_one_collection_witness :
  saves (db (snd (handle (CloudinaryStorage.mk true) (ReqUnsave (Some 1) 1 (Some 2))
                    saved_in_two_collections)))
  = [Save.mk 1 1 1; Save.mk 3 1 3].
Proof.
  refine (eq_trans
            (proj1 (unsave_post_removes_from_one_collection
                      (CloudinaryStorage.mk true) saved_in_two_collections 1
                      (User.mk 1 "alice" "alice@x.com" "hash") 1 (Some 2)
                      (Collection.mk 2 "Travel" "" 1)
                      eq_refl eq_refl eq_refl eq_refl _))
            eq_refl).
  repeat constructor; simpl; intuition discriminate.
Defined.

(** X15: unsaving undoes saving.  In every state the requests can
    reach, if the caller has the post in none of their collections, a
    successful [save_post] followed by [unsave_post] without a
    collection answers 200 and gives back the database as it was
    before the save. *)
Theorem save_then_unsave_restores :
  forall (cs : CloudinaryStorage.t) (reqs : list Request) (session : Session)
         (post_id : nat) (collection_id unsave_collection_id : option nat),
    let w := run cs reqs initial in
    let w1 := snd (handle cs (ReqSave session post_id collection_id) w) in
    let out := handle cs (ReqUnsave session post_id unsave_collection_id) w1 in
    fst (handle cs (ReqSave session post_id collection_id) w) = success ->
    truthy_id unsave_collection_id = false ->
    existsb (saved_by (db w) (caller_id (db w) session) post_id) (saves (db w))
    = false ->
    fst out = success /\ db (snd out) = db w.
Proof.
  intros cs reqs session p cid ucid w w1 out Hok Hun Hnone.
  pose proof (run_consistent cs reqs) as Hcons. fold w in Hcons.
  destruct (save_post_effect cs w session p cid Hcons)
    as [[_ (u & t & c & Hu & Hp & Ht & Hc & Hown & Hfree & Hw1)] | [Hno _]];
    [|contradiction].
  fold w1 in Hw1.
  pose proof (handle_consistent cs (ReqSave session p cid) w Hcons) as Hcons1.
  fold w1 in Hcons1.
  unfold caller_id in Hnone. rewrite Hu in Hnone.
  unfold logged_in in Hu. destruct session as [id|]; [|discriminate].
  assert (Hu1 : User_get (db w1) id = Some u) by (rewrite Hw1; exact Hu).
  unfold out.
  rewrite (unsave_post_everywhere cs w1 id u p ucid Hu1 Hun
             (save_ids_unique _ Hcons1)).
  rewrite Hw1. cbn [db].
  rewrite (saved_after_save (db w) u p t c Hc Hown).
  rewrite (unsave_after_save (db w) u p t c Hc Hown Hnone).
  split; [reflexivity|].
  cbn [snd db]. unfold saved_into. cbn [users posts collections]. apply db_eta.
Qed.

Lemma save_then_unsave_restores_witness :
  db (snd (handle (CloudinaryStorage.mk true) (ReqUnsave (Some 2) 1 None)
             (snd (handle (CloudinaryStorage.mk true) (ReqSave (Some 2) 1 None)
                     (run (CloudinaryStorage.mk true) alice_and_bob initial)))))
  = db (run (CloudinaryStorage.mk true) alice_and_bob initial).
Proof.
  exact (proj2 (save_then_unsave_restores (CloudinaryStorage.mk true)
                  alice_and_bob (Some 2) 1 None None eq_refl eq_refl eq_refl)).
Defined.

(** X16: [get_post] only reads.  In every state the requests can
    reach it answers 404 for a post that does not exist and otherwise
    returns the post with its author (the author row is always there,
    so the view never fails on it), [save_count] as the number of
    saves of the post whoever made them, and [saved] true exactly when
    the caller has a save of the post in one of their collections
    (false for a request without a user). *)
Theorem get_post_reads_saves :
  forall (cs : CloudinaryStorage.t) (reqs : list Request) (session : Session)
         (post_id : nat),
    let w := run cs reqs initial in
    match Post_get (db w) post_id with
    | None => get_post session post_id w = (Raise (HTTPException 404), w)
    | Some post =>
        exists a,
          User_get (db w) (Post.user_id post) = Some a /\
          get_post session post_id w =
          (Return
             (mkPostData (Post.id post) (Post.title post) (Post.description post)
                (Post.file_url post) (Post.file_type post)
                (User.id a) (User.username a)
                (save_count (db w) post_id)
                (match logged_in (db w) session with
                 | Some u => existsb (saved_by (db w) (User.id u) post_id)
                                     (saves (db w))
                 | None => false
                 end)),
           w)
    end.
Proof.
  intros cs reqs session p w. rewrite get_post_eq.
  destruct (Post_get (db w) p) as [post|] eqn:Hp; [|reflexivity].
  pose proof (run_referential cs reqs) as Href. fold w in Href.
  destruct (posts_resolve _ Href post (Post_get_In _ _ _ Hp)) as [Ha _].
  destruct (User_get (db w) (Post.user_id post)) as [a|]; [|congruence].
  exists a. split; reflexivity.
Qed.

(** X17: after a successful [save_post], in every state the requests
    can reach, [get_post] for the same caller and post reports
    [saved] true and a [save_count] one higher than before. *)
Theorem get_post_after_save_post :
  forall (cs : CloudinaryStorage.t) (reqs : list Request) (session : Session)
         (post_id : nat) (collection_id : option nat),
    let w := run cs reqs initial in
    let w1 := snd (handle cs (ReqSave session post_id collection_id) w) in
    fst (handle cs (ReqSave session post_id collection_id) w) = success ->
    exists data,
      get_post session post_id w1 = (Return data, w1) /\
      pd_saved data = true /\
      pd_save_count data = S (save_count (db w) post_id).
Proof.
  intros cs reqs session p cid w w1 Hok.
  pose proof (run_consistent cs reqs) as Hcons. fold w in Hcons.
  pose proof (run_referential cs reqs) as Href. fold w in Href.
  destruct (save_post_effect cs w session p cid Hcons)
    as [[_ (u & t & c & Hu & Hp & Ht & Hc & Hown & Hfree & Hw1)] | [Hno _]];
    [|contradiction].
  fold w1 in Hw1. rewrite get_post_eq, Hw1. cbn [db].
  change (Post_get (saved_into (db w) p t) p) with (Post_get (db w) p).
  destruct (Post_get (db w) p) as [post|] eqn:Hpost; [|congruence].
  change (User_get (saved_into (db w) p t) (Post.user_id post))
    with (User_get (db w) (Post.user_id post)).
  destruct (posts_resolve _ Href post (Post_get_In _ _ _ Hpost)) as [Ha _].
  destruct (User_get (db w) (Post.user_id post)) as [a|]; [|congruence].
  change (logged_in (saved_into (db w) p t) session)
    with (logged_in (db w) session).
  rewrite Hu, (saved_after_save (db w) u p t c Hc Hown).
  eexists. split; [reflexivity|]. split; [reflexivity|].
  cbn [pd_save_count]. now apply (save_count_snoc (db w)).
Qed.

Lemma get_post_after_save_post_witness :
  exists data,
    get_post (Some 2) 1
      (snd (handle (CloudinaryStorage.mk true) (ReqSave (Some 2) 1 None)
              (run (CloudinaryStorage.mk true) alice_and_bob initial)))
    = (Return data,
       snd (handle (CloudinaryStorage.mk true) (ReqSave (Some 2) 1 None)
              (run (CloudinaryStorage.mk true) alice_and_bob initial))) /\
    pd_saved data = true /\
    pd_save_count data = 1.
Proof.
  exact (get_post_after_save_post (CloudinaryStorage.mk true) alice_and_bob
           (Some 2) 1 None eq_refl).
Defined.

(** X18: after [unsave_post] without a collection, whatever it
    answered, the caller has no save of the post left, so [get_post]
    for the same caller and post never reports [saved].  (Primary keys
    of [save] are unique.) *)
Theorem get_post_after_unsave_post :
  forall (cs : CloudinaryStorage.t) (w : World) (id : nat) (u : User.t)
         (post_id : nat) (collection_id : option nat),
    User_get (db w) id = Some u ->
    truthy_id collection_id = false ->
    NoDup (map Save.id (saves (db w))) ->
    let w2 := snd (handle cs (ReqUnsave (Some id) post_id collection_id) w) in
    existsb (saved_by (db w2) (User.id u) post_id) (saves (db w2)) = false /\
    (forall data, fst (get_post (Some id) post_id w2) = Return data ->
                  pd_saved data = false).
Proof.
  intros cs w id u p cid Hu Ht Hnd w2.
  assert (Hw2 : users (db w2) = users (db w) /\
                collections (db w2) = collections (db w) /\
                saves (db w2) =
                filter (fun s => negb (saved_by (db w) (User.id u) p s))
                       (saves (db w))).
  { unfold w2. rewrite (unsave_post_everywhere cs w id u p cid Hu Ht Hnd).
    destruct (existsb _ (saves (db w))) eqn:E; cbn [snd db users collections saves].
    - now repeat split.
    - repeat split. now rewrite filter_negb_all. }
  destruct Hw2 as (Hus & Hcs & Hss).
  assert (Hnone : existsb (saved_by (db w2) (User.id u) p) (saves (db w2)) = false).
  { rewrite (existsb_pointwise _ (saved_by (db w) (User.id u) p))
      by (intros s; now apply saved_by_same_collections).
    rewrite Hss. apply existsb_filter_negb. }
  split; [exact Hnone|].
  intros data. rewrite get_post_eq.
  destruct (Post_get (db w2) p) as [post|]; [|discriminate].
  destruct (User_get (db w2) (Post.user_id post)) as [a|]; [|discriminate].
  unfold logged_in, User_get. rewrite Hus. fold (User_get (db w) id).
  rewrite Hu, Hnone. intros H. inversion H. reflexivity.
Qed.

Lemma get_post_after_unsave_post_witness :
  existsb (saved_by
             (db (snd (handle (CloudinaryStorage.mk true) (ReqUnsave (Some 1) 1 None)
                         saved_in_two_collections)))
             1 1)
          (saves (db (snd (handle (CloudinaryStorage.mk true)
                             (ReqUnsave (Some 1) 1 None)
                             saved_in_two_collections))))
  = false.
Proof.
  refine (proj1 (get_post_after_unsave_post
                   (CloudinaryStorage.mk true) saved_in_two_collections 1
                   (User.mk 1 "alice" "alice@x.com" "hash") 1 None
                   eq_refl eq_refl _)).
  repeat constructor; simpl; intuition discriminate.
Defined.

Section LoggingIn.

Variable check_password_hash : string -> option string -> result bool.

Lemma find_app_none {A} (f : A -> bool) (l l' : list A) :
  find f l = None -> find f (l ++ l') = find f l'.
Proof.
  induction l as [|x l IH]; simpl; [reflexivity|].
  destruct (f x); [discriminate | exact IH].
Qed.

Lemma login_anonymous_post session email password args_next w :
  logged_in (db w) session = None ->
  login check_password_hash session POST (Some email) password args_next w =
  match find (fun u => String.eqb (User.email u) email) (users (db w)) with
  | Some user =>
      match check_password_hash (User.password_hash user) password with
      | Return true =>
          (Return (if truthy_opt args_next
                   then Return (Redirect (fmt args_next))
                   else Raise (Exception "Could not build url for endpoint 'index'."),
                   Some (User.id user)), w)
      | Return false =>
          (Return (Return (RenderTemplate "login.html" None), session),
           mkWorld (db w) (trace w ++ [Flash "Invalid email or password"]))
      | Raise e => (Return (Raise e, session), w)
      end
  | None =>
      (Return (Return (RenderTemplate "login.html" None), session),
       mkWorld (db w) (trace w ++ [Flash "Invalid email or password"]))
  end.
Proof.
  intros Hanon. unfold login, current_user. py_unfold.
  unfold logged_in in Hanon.
  replace (match session with Some id => User_get (db w) id | None => None end)
    with (@None User.t).
  destruct (find _ (users (db w))) as [user|]; [|reflexivity].
  destruct (check_password_hash _ password) as [[|]|e]; reflexivity.
Qed.

End LoggingIn.

(** X19: who registers can log in.  When a registration passes its
    checks and the hash check accepts the registered password against
    the stored hash, [login] with the same address and password, from a
    fresh session, logs in exactly the new user: the session after it
    holds the id of a row with the registered name and address.  With
    a [next] page the answer is the redirect to it; without one the
    view ends in the [BuildError] of [url_for('index')], raised after
    [login_user] has stored the id. *)
Theorem login_after_register :
  forall (cs : CloudinaryStorage.t)
         (check_password_hash : string -> option string -> result bool)
         (w : World) (username email password generated_hash : string)
         (args_next : option string),
    registers (db w) None POST (Some username) (Some email) (Some password) = true ->
    check_password_hash generated_hash (Some password) = Return true ->
    let w1 := snd (handle cs (ReqRegister None POST (Some username) (Some email)
                                (Some password) generated_hash) w) in
    let id := next_id (map User.id (users (db w))) in
    login check_password_hash None POST (Some email) (Some password) args_next w1 =
    (Return (if truthy_opt args_next
             then Return (Redirect (fmt args_next))
             else Raise (Exception "Could not build url for endpoint 'index'."),
             Some id), w1) /\
    User_get (db w1) id = Some (User.mk id username email generated_hash).
Proof.
  intros cs check w un em pw h next Hreg Hcheck w1 id.
  pose proof (register_effect cs None POST (Some un) (Some em) (Some pw) h w) as H.
  cbv zeta in H. rewrite Hreg in H. fold w1 in H.
  assert (Hw1 : w1 = snd (Redirect "login",
                          mkWorld (registered (db w) un em h)
                            (trace w ++ [Flash "Registration successful! Please log in."])))
    by (unfold w1; now rewrite H).
  cbn [snd] in Hw1.
  unfold registers in Hreg.
  repeat (apply andb_true_iff in Hreg; destruct Hreg as [Hreg ?]).
  assert (Husers : users (db w1) =
                   (users (db w) ++ [User.mk id un em h])%list)
    by (rewrite Hw1; reflexivity).
  split.
  - rewrite login_anonymous_post by reflexivity.
    rewrite Husers.
    rewrite find_app_none
      by (apply find_none_existsb; now apply negb_true_iff).
    cbn [find User.email]. rewrite String.eqb_refl.
    cbn [User.password_hash User.id]. now rewrite Hcheck.
  - unfold User_get. rewrite Husers, find_app_none.
    + cbn. now rewrite Nat.eqb_refl.
    + apply find_none_existsb.
      destruct (existsb (fun u => Nat.eqb (User.id u) id) (users (db w))) eqn:E;
        [|reflexivity].
      apply existsb_exists in E. destruct E as (u & Hin & He).
      apply Nat.eqb_eq in He.
      exfalso. apply (next_id_fresh (map User.id (users (db w)))).
      fold id. rewrite <- He. now apply in_map.
Qed.

Lemma login_after_register_witness :
  fst (login (fun pwhash password =>
                Return (match password with
                        | Some p => String.eqb pwhash ("hash:" ++ p)
                        | None => false
                        end))
         None POST (Some "carol@x.com") (Some "correct horse") (Some "/upload")
         (snd (handle (CloudinaryStorage.mk true)
                 (ReqRegister None POST (Some "carol") (Some "carol@x.com")
                    (Some "correct horse") "hash:correct horse")
                 (run (CloudinaryStorage.mk true) alice_and_bob initial))))
  = Return (Return (Redirect "/upload"), Some 3).
Proof.
  exact (f_equal fst
           (proj1 (login_after_register (CloudinaryStorage.mk true)
                     (fun pwhash password =>
                        Return (match password with
                                | Some p => String.eqb pwhash ("hash:" ++ p)
                                | None => false
                                end))
                     (run (CloudinaryStorage.mk true) alice_and_bob initial)
                     "carol" "carol@x.com" "correct horse" "hash:correct horse"
                     (Some "/upload") eq_refl eq_refl))).
Defined.

(** X20: [login] never writes to the database, and it changes the
    session only to the id of a user who has the posted address and
    whose stored hash the hash check accepted for the posted password;
    a request that already has a user keeps its session. *)
Theorem login_only_with_accepted_password :
  forall (check_password_hash : string -> option string -> result bool)
         (session : Session) (m : method) (email password args_next : option string)
         (w : World),
    let out := login check_password_hash session m email password args_next w in
    db (snd out) = db w /\
    (forall r session', fst out = Return (r, session') ->
        session' = session \/
        exists u,
          In u (users (db w)) /\
          session' = Some (User.id u) /\
          email = Some (User.email u) /\
          check_password_hash (User.password_hash u) password = Return true /\
          logged_in (db w) session = None).
Proof.
  intros check session m email password next w. cbv zeta.
  unfold login, current_user, logged_in. py_unfold.
  destruct (match session with Some id => User_get (db w) id | None => None end)
    as [current|] eqn:Hcur.
  - split; [reflexivity|]. intros r s' H. inversion H. now left.
  - destruct m.
    + split; [reflexivity|]. intros r s' H. inversion H. now left.
    + destruct email as [em|].
      * destruct (find _ (users (db w))) as [user|] eqn:Hfind.
        -- destruct (check (User.password_hash user) password) as [[|]|e] eqn:Hc.
           ++ split; [reflexivity|]. intros r s' H. inversion H. right.
              apply find_some in Hfind. destruct Hfind as [Hin He].
              apply String.eqb_eq in He. exists user.
              repeat split; auto. now rewrite He.
           ++ split; [reflexivity|]. intros r s' H. inversion H. now left.
           ++ split; [reflexivity|]. intros r s' H. inversion H. now left.
        -- split; [reflexivity|]. intros r s' H. inversion H. now left.
      * split; [reflexivity|]. intros r s' H. inversion H. now left.
Qed.

(** X21: [upload] hands a file to Cloudinary at most once, and exactly
    when a logged-in user posts a file with an accepted name to a
    configured back end.  The call carries the bytes read from the
    file, the folder "pinspire", resource type "auto" and the generated
    unique id as public id; the name of the file is not part of it.  No
    raw HTTP request is made. *)
Theorem upload_calls_cloudinary_once_with_unique_id :
  forall (cs : CloudinaryStorage.t) (w : World) (session : Session) (m : method)
         (title description : option string) (file : option FileStorage)
         (uuid4 : string) (answer : result dict),
    exists evs,
      trace (snd (handle cs (ReqUpload session m title description file
                               uuid4 answer) w))
      = (trace w ++ evs)%list /\
      filter is_client_upload evs =
      (if attempts (db w) cs session m file then
         [CloudinaryUpload (file_content file) "pinspire"
            (if truthy uuid4 then Some uuid4 else None) "auto"]
       else []) /\
      count_events is_requests_post evs = 0.
Proof.
  intros cs w session m title description file uuid4 answer.
  unfold attempts, logged_in, file_content.
  route_unfold. unfold UPLOADS_ENABLED, CloudinaryStorage.upload_file, dict_getitem.
  py_unfold.
  destruct session as [id|]; [destruct (User_get (db w) id) as [u|]|];
    cbn [andb]; try (eexists; split; [reflexivity|]; split; reflexivity).
  destruct (CloudinaryStorage.is_configured cs); cbn [andb negb];
    [|eexists; split; [reflexivity|]; split; reflexivity].
  destruct m; cbn [andb].
  { exists []. rewrite app_nil_r. repeat split. }
  destruct file as [[filename content]|]; cbn [andb];
    [|eexists; split; [reflexivity|]; split; reflexivity].
  destruct filename as [|c filename];
    [eexists; split; [reflexivity|]; split; reflexivity|].
  cbn [String.eqb truthy].
  destruct (CloudinaryStorage.is_allowed_file (String c filename)) as [[|]|e];
    cbn [andb];
    try (eexists; split; [reflexivity|]; split; reflexivity).
  - destruct answer as [response|e]; cbn [fst snd truthy_opt fmt]; py_trace.
    + destruct (dict_get response "secure_url") as [url|];
        cbn [fst snd truthy_opt fmt]; py_trace.
      * destruct (truthy url); py_trace;
          eexists; (split; [reflexivity|]); split; reflexivity.
      * eexists; (split; [reflexivity|]); split; reflexivity.
    + eexists; (split; [reflexivity|]); split; reflexivity.
  - destruct e; exists []; rewrite app_nil_r; repeat split.
Qed.

(** X22: [save_file] checks and classifies the original name only.
    When a custom name is given, the file is stored under the secure
    form of the custom name, in the sub-folder of the original name's
    kind, whatever the extension of the custom name. *)
Theorem save_file_custom_name_is_not_checked :
  forall (secure_filename : string -> string) (os_path_join : list string -> string)
         (UPLOAD_FOLDER : string) (file_data : bytes)
         (original_filename custom_filename : string) (w : World),
    FilesystemStorage.allowed_file original_filename = Return true ->
    truthy custom_filename = true ->
    exists kind subfolder,
      ((kind = "image" /\ subfolder = "images") \/
       (kind = "video" /\ subfolder = "videos")) /\
      FilesystemStorage.get_file_type original_filename = Return (Some kind) /\
      FilesystemStorage.save_file secure_filename os_path_join UPLOAD_FOLDER
        file_data original_filename (Some custom_filename) (Return tt) w =
      (Return (Some ("/static/uploads/" ++ subfolder ++ "/"
                     ++ secure_filename custom_filename), Some kind),
       mkWorld (db w)
         (trace w ++
          [FileWrite (os_path_join [UPLOAD_FOLDER; subfolder;
                                    secure_filename custom_filename]) file_data;
           Log INFO ("File saved successfully: "
                     ++ os_path_join [UPLOAD_FOLDER; subfolder;
                                      secure_filename custom_filename])])).
Proof.
  intros sf join folder data name custom w Hallowed Hcustom.
  destruct (save_file_written sf join folder data name (Some custom) w Hallowed)
    as (kind & sub & Hsub & Hkind & Hsave).
  cbv zeta in Hsave. cbn [truthy_opt fmt] in Hsave. rewrite Hcustom in Hsave.
  exists kind, sub. split; [exact Hsub|]. split; [exact Hkind | exact Hsave].
Qed.

Lemma save_file_custom_name_is_not_checked_witness :
  exists kind subfolder,
    FilesystemStorage.save_file (fun name => name) PosixPath.join
      "/srv/app/static/uploads" [] "cat.jpg" (Some "run.exe") (Return tt) initial =
    (Return (Some ("/static/uploads/" ++ subfolder ++ "/run.exe"), Some kind),
     mkWorld empty_db
       [FileWrite (PosixPath.join ["/srv/app/static/uploads"; subfolder; "run.exe"]) [];
        Log INFO ("File saved successfully: "
                  ++ PosixPath.join ["/srv/app/static/uploads"; subfolder; "run.exe"])]).
Proof.
  destruct (save_file_custom_name_is_not_checked (fun name => name) PosixPath.join
              "/srv/app/static/uploads" [] "cat.jpg" "run.exe" initial
              eq_refl eq_refl)
    as (kind & sub & _ & _ & H).
  exists kind, sub. exact H.
Defined.
